(** * EMISSOR_NFCE_BLING: the Bling -> NFSe orchestration engine

    A shallow embedding of the backend service
    [backend/src/bling/bling.service.ts] together with the queue store
    [backend/src/bling/rps.service.ts] and the order list of the frontend
    [frontend/src/components/PedidosVenda/PedidosVenda.tsx].

    Conventions of the embedding:
    - a JavaScript [string] is a Rocq [string] (a sequence of code units);
    - a JavaScript integer ([Date.now()], ids, order numbers) is a [Z] or [N];
    - [null]/[undefined] is [None];
    - a [throw] is the [Throw] constructor of [Res]; [try]/[catch] is
      [try_catch];
    - the ERP (Bling) is an oracle: a record of the answers it gives to the
      requests of one batch;
    - the database is reliable: a query fails only on the uniqueness
      constraint of the entity. *)

From Stdlib Require Import ZArith NArith List String Ascii Bool Lia QArith Qround.
Import ListNotations.
Open Scope string_scope.
Open Scope Z_scope.

(* ------------------------------------------------------------------ *)
(** ** JavaScript values *)

Module Js.

(** [error.name] and [error.message] of a thrown value. *)
Inductive Exn : Type :=
| AbortError                              (* the AbortController fired *)
| BadRequestException (msg : string)      (* NestJS exception *)
| Error (msg : string).                   (* plain Error, TypeError, ... *)

Definition message (e : Exn) : string :=
  match e with
  | AbortError => "This operation was aborted"
  | BadRequestException m => m
  | Error m => m
  end.

Definition is_abort (e : Exn) : bool :=
  match e with AbortError => true | _ => false end.

(** Outcome of an awaited call: a value or an exception. *)
Inductive Res (A : Type) : Type :=
| Ok (a : A)
| Throw (e : Exn).
Arguments Ok {A} a.
Arguments Throw {A} e.

Definition is_ok {A} (r : Res A) : bool :=
  match r with Ok _ => true | Throw _ => false end.

(** Truthiness of the values the service tests with [if (x)] or [!x]. *)
Definition truthy_str (s : string) : bool := negb (s =? "")%string.

Definition truthy_ostr (o : option string) : bool :=
  match o with Some s => truthy_str s | None => false end.

Definition truthy_num (o : option Z) : bool :=
  match o with Some n => negb (n =? 0) | None => false end.

(** [x || 0] on an optional number. *)
Definition or_zero (o : option Z) : Z :=
  match o with Some n => n | None => 0 end.

(** [a || b] on optional strings. *)
Definition or_str (a b : option string) : option string :=
  if truthy_ostr a then a else b.

(** [a === b] on optional strings. *)
Definition ostr_eqb (a b : option string) : bool :=
  match a, b with
  | Some x, Some y => (x =? y)%string
  | None, None => true
  | _, _ => false
  end.

(** [\d] *)
Definition is_digit (c : ascii) : bool :=
  let n := nat_of_ascii c in (48 <=? n)%nat && (n <=? 57)%nat.

(** [s.replace(/\D/g, '')] *)
Fixpoint so_digitos (s : string) : string :=
  match s with
  | EmptyString => EmptyString
  | String c r => if is_digit c then String c (so_digitos r) else so_digitos r
  end.


(** [String(n)] for a non-negative integer: its decimal digits. *)
Definition digit_char (d : N) : ascii := ascii_of_N (48 + d).

Fixpoint digits_fuel (fuel : nat) (n : N) (acc : string) : string :=
  match fuel with
  | O => acc
  | S f =>
      let acc' := String (digit_char (n mod 10)) acc in
      if (n / 10 =? 0)%N then acc' else digits_fuel f (n / 10) acc'
  end.

Definition String_of_N (n : N) : string :=
  digits_fuel (S (N.to_nat (N.log2 n))) n "".

Fixpoint repeat_char (c : ascii) (n : nat) : string :=
  match n with
  | O => EmptyString
  | S k => String c (repeat_char c k)
  end.

(** [s.padStart(target, c)] *)
Definition padStart (s : string) (target : nat) (c : ascii) : string :=
  repeat_char c (target - String.length s) ++ s.

(** [s.slice(0, k)] *)
Fixpoint slice0 (k : nat) (s : string) : string :=
  match k, s with
  | S k', String c r => String c (slice0 k' r)
  | _, _ => EmptyString
  end.





(** [s.toLowerCase()] on the ASCII letters. *)
Definition lower_char (c : ascii) : ascii :=
  let n := nat_of_ascii c in
  if (65 <=? n)%nat && (n <=? 90)%nat then ascii_of_nat (n + 32) else c.

Fixpoint toLowerCase (s : string) : string :=
  match s with
  | EmptyString => EmptyString
  | String c r => String (lower_char c) (toLowerCase r)
  end.

(** [s.includes(p)] *)
Fixpoint includes (p s : string) : bool :=
  prefix p s ||
  match s with
  | EmptyString => false
  | String _ r => includes p r
  end.

End Js.
Import Js.

(* ------------------------------------------------------------------ *)
(** ** TokenManager: the OAuth token kept by [BlingService] *)

Module TokenManager.

(** [interface BlingTokens] *)
Record BlingTokens : Type := {
  access_token : string;
  expires_in : Z;
  token_type : string;
  scope : string;
  refresh_token : string;
  expires_at : option Z          (* expires_at?: number *)
}.

Definition with_expires_at (t : BlingTokens) (e : Z) : BlingTokens :=
  {| access_token := access_token t; expires_in := expires_in t;
     token_type := token_type t; scope := scope t;
     refresh_token := refresh_token t; expires_at := Some e |}.

(** What [fs.readFileSync] + [JSON.parse] give for the tokens file. *)
Inductive FileContent : Type :=
| Garbled                        (* JSON.parse throws *)
| Json (t : BlingTokens).

(** The part of the service the token code reads and writes:
    [this.tokens] and the file at [config.tokens_file]. *)
Record Service : Type := {
  tokens : option BlingTokens;
  tokens_file : option FileContent
}.

(** Answer of the token endpoint to one [fetch]. *)
Inductive TokenReply : Type :=
| ReplyTokens (t : BlingTokens) (received_at : Z)  (* response.ok; Date.now() on arrival *)
| ReplyNotOk (status : Z) (body : string)
| ReplyAbort                                       (* 30 s timer fired *)
| ReplyFailure (msg : string).                     (* fetch rejected *)

(** Calls the token code makes on other methods, in order. *)
Inductive Call : Type :=
| CallRefreshAccessToken.

(** [deleteTokensFile] *)
Definition deleteTokensFile (s : Service) : Service :=
  match tokens_file s with
  | Some _ => {| tokens := tokens s; tokens_file := None |}
  | None => s
  end.

(** [saveTokens] *)
Definition saveTokens (t : BlingTokens) (s : Service) : Service :=
  {| tokens := tokens s; tokens_file := Some (Json t) |}.

(** [loadTokens], run by the constructor on [this.tokens = null]. *)
Definition loadTokens (now : Z) (s : Service) : Service :=
  match tokens_file s with
  | Some (Json t) =>
      if truthy_num (expires_at t) && (now <? or_zero (expires_at t))
      then {| tokens := Some t; tokens_file := tokens_file s |}
      else deleteTokensFile s
  | Some Garbled => s              (* caught: "Erro ao carregar tokens" *)
  | None => s
  end.

(** The constructor: the field initialiser, then [loadTokens]. *)
Definition construct (now : Z) (file : option FileContent) : Service :=
  loadTokens now {| tokens := None; tokens_file := file |}.

(** [refreshAccessToken] *)
Definition refreshAccessToken (reply : TokenReply) (s : Service)
  : Res BlingTokens * Service :=
  let has_refresh :=
    match tokens s with
    | Some t => truthy_str (refresh_token t)
    | None => false
    end in
  if negb has_refresh
  then (Throw (BadRequestException "Nenhum refresh token disponível"), s)
  else
    match reply with
    | ReplyTokens t received_at =>
        let newTokens := with_expires_at t (received_at + expires_in t * 1000) in
        (Ok newTokens,
         saveTokens newTokens {| tokens := Some newTokens; tokens_file := tokens_file s |})
    | ReplyNotOk _ _ =>
        (Throw (BadRequestException "Falha ao renovar token de acesso"), s)
    | ReplyAbort =>
        (Throw (BadRequestException
           "Timeout na renovação do token: A API do Bling está lenta. Tente novamente."), s)
    | ReplyFailure m => (Throw (Error m), s)
    end.

(** [ensureValidToken]; the third component lists the calls it made. *)
Definition ensureValidToken (now : Z) (reply : TokenReply) (s : Service)
  : Res string * Service * list Call :=
  match tokens s with
  | None =>
      (Throw (BadRequestException
         "Nenhum token disponível. Realize a autenticação primeiro."), s, [])
  | Some t =>
      let expiresAt := or_zero (expires_at t) in
      if now >=? expiresAt - 5 * 60 * 1000 then
        match refreshAccessToken reply s with
        | (Ok _, s') =>
            match tokens s' with
            | Some t' => (Ok (access_token t'), s', [CallRefreshAccessToken])
            | None => (Throw (Error "Cannot read properties of null"), s',
                       [CallRefreshAccessToken])
            end
        | (Throw e, s') => (Throw e, s', [CallRefreshAccessToken])
        end
      else (Ok (access_token t), s, [])
  end.





End TokenManager.

(* ------------------------------------------------------------------ *)
(** ** QueueStore: the entity [PedidoVendaRPS] and [RpsService] *)

Module Queue.

(** The [status] column: pendente, processando, emitido, erro. *)
Inductive Status : Type := pendente | processando | emitido | erro.

Definition status_eqb (a b : Status) : bool :=
  match a, b with
  | pendente, pendente | processando, processando
  | emitido, emitido | erro, erro => true
  | _, _ => false
  end.

(** [@Entity('pedidos_venda_rps')]; the two date columns that only record
    the write times are left out, the creation order is the order of the
    rows in the table. *)
Record PedidoVendaRPS : Type := {
  id : Z;                          (* @PrimaryGeneratedColumn *)
  pedidoVendaId : Z;               (* bigint, unique: true *)
  numeroPedido : N;                (* bigint *)
  numeroRPS : option string;
  serie : option string;
  nfseId : option Z;               (* bigint, nullable *)
  numeroNFSe : option string;
  status : Status;
  mensagemErro : option string;
  valorTotal : Q;
  nomeCliente : string
}.

(** [CreateRpsDto] as [gerarRPSParaPedidos] fills it. *)
Record CreateRpsDto : Type := {
  dto_pedidoVendaId : Z;
  dto_numeroPedido : N;
  dto_numeroRPS : option string;
  dto_serie : option string;
  dto_nfseId : option Z;
  dto_status : Status;
  dto_valorTotal : Q;
  dto_nomeCliente : string
}.

(** [Partial<PedidoVendaRPS>] with the fields the service ever passes to
    [atualizar]; [None] is an absent key. *)
Record Patch : Type := {
  p_status : option Status;
  p_numeroNFSe : option (option string);
  p_mensagemErro : option string
}.

Definition apply_patch (p : Patch) (r : PedidoVendaRPS) : PedidoVendaRPS :=
  {| id := id r;
     pedidoVendaId := pedidoVendaId r;
     numeroPedido := numeroPedido r;
     numeroRPS := numeroRPS r;
     serie := serie r;
     nfseId := nfseId r;
     numeroNFSe := match p_numeroNFSe p with Some v => v | None => numeroNFSe r end;
     status := match p_status p with Some v => v | None => status r end;
     mensagemErro := match p_mensagemErro p with Some v => Some v | None => mensagemErro r end;
     valorTotal := valorTotal r;
     nomeCliente := nomeCliente r |}.

(** The table: its rows, oldest first, and the next generated key. *)
Record Table : Type := {
  rows : list PedidoVendaRPS;
  next_id : Z
}.

Definition empty : Table := {| rows := []; next_id := 1 |}.

(** [findOne({ where: { pedidoVendaId } })] *)
Definition find_by_pedido (pid : Z) (t : Table) : option PedidoVendaRPS :=
  find (fun r => pedidoVendaId r =? pid) (rows t).

(** [findOne({ where: { id } })] *)
Definition find_by_id (i : Z) (t : Table) : option PedidoVendaRPS :=
  find (fun r => id r =? i) (rows t).

Definition row_of_dto (i : Z) (d : CreateRpsDto) : PedidoVendaRPS :=
  {| id := i;
     pedidoVendaId := dto_pedidoVendaId d;
     numeroPedido := dto_numeroPedido d;
     numeroRPS := dto_numeroRPS d;
     serie := dto_serie d;
     nfseId := dto_nfseId d;
     numeroNFSe := None;
     status := dto_status d;
     mensagemErro := None;
     valorTotal := dto_valorTotal d;
     nomeCliente := dto_nomeCliente d |}.

(** [repository.save] of a new entity: an INSERT, which the unique index on
    [pedidoVendaId] rejects when the order already has a row. *)
Definition insert (d : CreateRpsDto) (t : Table) : Res PedidoVendaRPS * Table :=
  match find_by_pedido (dto_pedidoVendaId d) t with
  | Some _ =>
      (Throw (Error "duplicate key value violates unique constraint"), t)
  | None =>
      let r := row_of_dto (next_id t) d in
      (Ok r, {| rows := (rows t ++ [r])%list; next_id := next_id t + 1 |})
  end.

(** [repository.update(id, data)] *)
Definition update (i : Z) (p : Patch) (t : Table) : Table :=
  {| rows := map (fun r => if id r =? i then apply_patch p r else r) (rows t);
     next_id := next_id t |}.

(** The query of [listarFila]: optional status filter, newest first,
    [skip] then [take]. *)
Definition select_page (pagina limite : nat) (st : option Status) (t : Table)
  : list PedidoVendaRPS :=
  let matching :=
    match st with
    | Some s => filter (fun r => status_eqb (status r) s) (rows t)
    | None => rows t
    end in
  firstn limite (skipn ((pagina - 1) * limite) (rev matching)).

End Queue.
Import Queue.

(* ------------------------------------------------------------------ *)
(** ** The ERP seen from the service *)

Module Erp.

(** [pedido.contato] of a sales order. *)
Record ContatoPedido : Type := {
  cp_id : Z;
  cp_nome : option string;
  cp_numeroDocumento : option string
}.

(** One entry of [pedido.itens]. *)
Record Item : Type := {
  item_produto_id : Z;             (* item.produto.id *)
  item_descricao : string;
  item_valor : option Q;
  item_valorUnidade : option Q
}.

(** [data] of GET /pedidos/vendas/{id}. *)
Record Pedido : Type := {
  numero : N;
  contato : option ContatoPedido;
  situacao : option Z;             (* pedido.situacao?.id *)
  vendedor : option Z;             (* pedido.vendedor?.id *)
  itens : list Item
}.

(** [data] of GET /produtos/{id}. *)
Record Produto : Type := {
  tipo : string;
  prod_descricao : option string
}.

(** [data] of GET /contatos/{id}. *)
Record Contato : Type := {
  c_id : Z;
  c_nome : string;
  c_numeroDocumento : option string;
  c_cpfCnpj : option string;
  c_email : option string
}.

(** A retained service line. *)
Record Servico : Type := {
  s_descricao : string;
  s_valor : Q
}.

(** The body of POST /nfse; the dates, the constant flags and the optional
    contact fields (ie, im, telefone, endereco) are left out. *)
Record Payload : Type := {
  pl_numeroRPS : string;
  pl_serie : string;
  pl_baseCalculo : Q;
  pl_contato_id : Z;
  pl_contato_nome : string;
  pl_contato_numeroDocumento : string;
  pl_contato_email : string;
  pl_servicos : list Servico;
  pl_observacoes : N;              (* `Pedido ${pedido.numero}` *)
  pl_formaPagamento : Z;
  pl_vendedor : option Z
}.

(** [data] of the answer to POST /nfse. *)
Record NfseCriada : Type := {
  nc_id : Z;
  nc_numeroRPS : option string;
  nc_serie : option string
}.

(** [data] of GET /nfse/{id}. *)
Record Nfse : Type := {
  nf_situacao : option Z;
  nf_numero : option string
}.

(** What the outside gives during one batch: the outcome of each request
    ([Throw] covers a non-2xx answer, a failed token refresh and a body
    without the expected [data]) and the draws of [Math.random()]. *)
Record World : Type := {
  get_pedido : Z -> Res Pedido;                (* obterDetalhesPedidoVenda *)
  get_contato : Z -> option Contato;           (* obterDetalhesContato: null on any failure *)
  get_produto : Z -> Res Produto;              (* obterDetalhesProduto *)
  post_nfse : Payload -> Res NfseCriada;       (* POST /nfse *)
  post_enviar : Z -> Res (option string);      (* POST /nfse/{id}/enviar: response?.data?.numero *)
  get_nfse : Z -> Res (option Nfse);           (* GET /nfse/{id}: response?.data *)
  math_random : Z -> Q                         (* the draw made for an order *)
}.

(** The requests, for the log of what was sent. *)
Inductive Request : Type :=
| GetPedido (pedidoId : Z)
| GetContato (contatoId : Z)
| GetProduto (produtoId : Z)
| PostNfse (p : Payload)
| PostEnviar (nfseId : Z)
| GetNfse (nfseId : Z).

End Erp.
Import Erp.

(* ------------------------------------------------------------------ *)
(** ** The effects of the service: table, request log, exceptions *)

Module Eff.

Record Sys : Type := {
  db : Table;
  sent : list Request             (* oldest first *)
}.

Definition M (A : Type) : Type := Sys -> Res A * Sys.

Definition ret {A} (a : A) : M A := fun s => (Ok a, s).

Definition throw {A} (e : Exn) : M A := fun s => (Throw e, s).

Definition bind {A B} (m : M A) (k : A -> M B) : M B :=
  fun s =>
    match m s with
    | (Ok a, s') => k a s'
    | (Throw e, s') => (Throw e, s')
    end.

(** [try { m } catch (error) { h error }] *)
Definition try_catch {A} (m : M A) (h : Exn -> M A) : M A :=
  fun s =>
    match m s with
    | (Ok a, s') => (Ok a, s')
    | (Throw e, s') => h e s'
    end.

(** Sends a request and awaits its outcome. *)
Definition request {A} (q : Request) (outcome : Res A) : M A :=
  fun s => (outcome, {| db := db s; sent := (sent s ++ [q])%list |}).

Definition on_db {A} (f : Table -> Res A * Table) : M A :=
  fun s => let '(r, t) := f (db s) in (r, {| db := t; sent := sent s |}).

End Eff.
Import Eff.

Declare Scope eff_scope.
Delimit Scope eff_scope with eff.
Notation "x <- m ;; k" := (bind m (fun x => k))
  (at level 100, m at next level, right associativity) : eff_scope.
Notation "m ;;; k" := (bind m (fun _ => k))
  (at level 100, right associativity) : eff_scope.
Open Scope eff_scope.

(* ------------------------------------------------------------------ *)
(** ** [RpsService] *)

Module RpsService.

(** [criar]: logs and rethrows what the repository throws. *)
Definition criar (d : CreateRpsDto) : M PedidoVendaRPS :=
  try_catch (on_db (insert d)) (fun error => throw error).

(** [buscarPorPedidoId] *)
Definition buscarPorPedidoId (pedidoId : Z) : M (option PedidoVendaRPS) :=
  fun s => (Ok (find_by_pedido pedidoId (db s)), s).

(** [buscarPorId] *)
Definition buscarPorId (i : Z) : M (option PedidoVendaRPS) :=
  fun s => (Ok (find_by_id i (db s)), s).

(** [atualizar]: the update, then the row read back. *)
Definition atualizar (i : Z) (p : Patch) : M (option PedidoVendaRPS) :=
  on_db (fun t => let t' := update i p t in (Ok (find_by_id i t'), t')).

(** [listarFila], the [data] of its answer. *)
Definition listarFila (pagina limite : nat) (st : option Status)
  : M (list PedidoVendaRPS) :=
  fun s => (Ok (select_page pagina limite st (db s)), s).

End RpsService.

(* ------------------------------------------------------------------ *)
(** ** [BlingService]: generation of the RPS *)

Module BlingService.

Import RpsService.

(** Status of one entry of [resultados]. *)
Inductive ResultStatus : Type := r_sucesso | r_ignorado | r_erro | r_processando.

(** One entry of [resultados] of [gerarRPSParaPedidos]. *)
Record Resultado : Type := {
  res_pedidoId : Z;
  res_numeroPedido : Z;
  res_status : ResultStatus;
  res_mensagem : string;
  res_numeroRPS : option string;
  res_nfseId : option Z
}.

Record GerarRetorno : Type := {
  g_success : bool;
  g_processados : nat;
  g_total : nat;
  g_resultados : list Resultado
}.

(** [isConsumidorFinal] *)
Definition isConsumidorFinal (pedido : Pedido) : bool :=
  match contato pedido with
  | None => true
  | Some c =>
      match cp_numeroDocumento c with
      | None => true
      | Some numeroDocumento =>
          if negb (truthy_str numeroDocumento) then true
          else
            let doc := so_digitos numeroDocumento in
            if negb (truthy_str doc) || (String.length doc <? 11)%nat
            then true
            else false
      end
  end.

(** [Math.floor(Math.random() * Math.pow(10, d))] for a draw [r]. *)
Definition random_below (r : Q) (d : nat) : N :=
  Z.to_N (Qfloor (r * inject_Z (10 ^ Z.of_nat d))).

(** The RPS number of [construirPayloadNFSe]: the order number followed by
    random digits, eight characters in all. *)
Definition gerarNumeroRPS (numero : N) (r : Q) : string :=
  let numeroPedido := String_of_N numero in
  let digitosRestantes := 8 - Z.of_nat (String.length numeroPedido) in
  let aleatorio :=
    if 0 <? digitosRestantes
    then padStart (String_of_N (random_below r (Z.to_nat digitosRestantes)))
                  (Z.to_nat digitosRestantes) "0"%char
    else "" in
  slice0 8 (numeroPedido ++ aleatorio).

(** [servicos.reduce((sum, s) => sum + parseFloat(s.valor || 0), 0)] *)
Definition somar (servicos : list Servico) : Q :=
  fold_left (fun sum s => (sum + s_valor s)%Q) servicos (0%Q).

Definition or_default (o : option string) (d : string) : string :=
  match o with
  | Some s => if truthy_str s then s else d
  | None => d
  end.

(** [construirPayloadNFSe]; reading [contato.id] of [null] throws. *)
Definition construirPayloadNFSe (pedido : Pedido) (contato : option Contato)
    (servicos : list Servico) (formaPagamentoId : Z) (r : Q) : M Payload :=
  let valorTotal := somar servicos in
  let numeroRPS := gerarNumeroRPS (numero pedido) r in
  match contato with
  | None => throw (Error "Cannot read properties of null (reading 'id')")
  | Some c =>
      ret {| pl_numeroRPS := numeroRPS;
             pl_serie := "1";
             pl_baseCalculo := valorTotal;
             pl_contato_id := c_id c;
             pl_contato_nome := c_nome c;
             pl_contato_numeroDocumento :=
               or_default (c_numeroDocumento c) (or_default (c_cpfCnpj c) "");
             pl_contato_email := or_default (c_email c) "naotem@email.com";
             pl_servicos := servicos;
             pl_observacoes := numero pedido;
             pl_formaPagamento := formaPagamentoId;
             pl_vendedor :=
               match vendedor pedido with
               | Some v => if v =? 0 then None else Some v
               | None => None
               end |}
  end.

Definition truthy_q (o : option Q) : bool :=
  match o with Some v => negb (Qeq_bool v 0) | None => false end.

(** [item.valor || item.valorUnidade || 0] *)
Definition valor_do_item (item : Item) : Q :=
  if truthy_q (item_valor item) then
    match item_valor item with Some v => v | None => 0%Q end
  else if truthy_q (item_valorUnidade item) then
    match item_valorUnidade item with Some v => v | None => 0%Q end
  else 0%Q.

(** Step 5 of the loop body: each product is fetched, the lines whose
    product has [tipo === 'S'] are kept, a failed fetch is only logged. *)
Fixpoint filtrarServicos (W : World) (itens : list Item) : M (list Servico) :=
  match itens with
  | [] => ret []
  | item :: rest =>
      kept <- try_catch
                (produto <- request (GetProduto (item_produto_id item))
                                    (get_produto W (item_produto_id item)) ;;
                 if (tipo produto =? "S")%string
                 then ret [ {| s_descricao :=
                                 or_default (prod_descricao produto) (item_descricao item);
                               s_valor := valor_do_item item |} ]
                 else ret [])
                (fun _ => ret []) ;;
      more <- filtrarServicos W rest ;;
      ret (kept ++ more)%list
  end.

Definition ignorado (pedidoId : Z) (pedido : Pedido) (mensagem : string)
    (numeroRPS : option string) : Resultado :=
  {| res_pedidoId := pedidoId; res_numeroPedido := Z.of_N (numero pedido);
     res_status := r_ignorado; res_mensagem := mensagem;
     res_numeroRPS := numeroRPS; res_nfseId := None |}.

(** The body of the [for] of [gerarRPSParaPedidos]: the entry it pushes and
    what it adds to [processados]. *)
Definition gerarRPSParaPedido (W : World) (pedidoId : Z) : M (Resultado * nat) :=
  try_catch
    (pedido <- request (GetPedido pedidoId) (get_pedido W pedidoId) ;;
     if isConsumidorFinal pedido then
       ret (ignorado pedidoId pedido
              "Pedido é consumidor final - RPS não será gerado" None, O)
     else
       rpsExistente <- buscarPorPedidoId pedidoId ;;
       match rpsExistente with
       | Some rps =>
           ret (ignorado pedidoId pedido "RPS já existe para este pedido"
                  (numeroRPS rps), O)
       | None =>
           match contato pedido with
           | None => throw (Error "Cannot read properties of undefined (reading 'id')")
           | Some cp =>
               contato <- request (GetContato (cp_id cp))
                                  (Ok (get_contato W (cp_id cp))) ;;
               servicos <- filtrarServicos W (itens pedido) ;;
               match servicos with
               | [] =>
                   ret (ignorado pedidoId pedido "Pedido não contém serviços" None, O)
               | _ :: _ =>
                   let formaPagamentoId := 2222749 in
                   payload <- construirPayloadNFSe pedido contato servicos
                                formaPagamentoId (math_random W pedidoId) ;;
                   nfse <- request (PostNfse payload) (post_nfse W payload) ;;
                   let valorTotal := somar servicos in
                   criar {| dto_pedidoVendaId := pedidoId;
                            dto_numeroPedido := numero pedido;
                            dto_numeroRPS :=
                              or_str (nc_numeroRPS nfse) (Some (pl_numeroRPS payload));
                            dto_serie :=
                              or_str (nc_serie nfse) (Some (pl_serie payload));
                            dto_nfseId := Some (nc_id nfse);
                            dto_status := pendente;
                            dto_valorTotal := valorTotal;
                            dto_nomeCliente := pl_contato_nome payload |} ;;;
                   ret ({| res_pedidoId := pedidoId;
                           res_numeroPedido := Z.of_N (numero pedido);
                           res_status := r_sucesso;
                           res_mensagem := "RPS gerado com sucesso";
                           res_numeroRPS := nc_numeroRPS nfse;
                           res_nfseId := Some (nc_id nfse) |}, 1%nat)
               end
           end
       end)
    (fun error =>
       ret ({| res_pedidoId := pedidoId; res_numeroPedido := pedidoId;
               res_status := r_erro;
               res_mensagem :=
                 if truthy_str (message error) then message error
                 else "Erro ao gerar RPS";
               res_numeroRPS := None; res_nfseId := None |}, O)).

Fixpoint gerar_loop (W : World) (pedidoIds : list Z)
    (resultados : list Resultado) (processados : nat)
  : M (list Resultado * nat) :=
  match pedidoIds with
  | [] => ret (resultados, processados)
  | pedidoId :: rest =>
      step <- gerarRPSParaPedido W pedidoId ;;
      gerar_loop W rest (resultados ++ [fst step])%list (processados + snd step)%nat
  end.

(** [gerarRPSParaPedidos] *)
Definition gerarRPSParaPedidos (W : World) (pedidoIds : list Z) : M GerarRetorno :=
  out <- gerar_loop W pedidoIds [] O ;;
  ret {| g_success := true; g_processados := snd out;
         g_total := List.length pedidoIds; g_resultados := fst out |}.

(* ------------------------------------------------------------------ *)
(** *** Submission to the municipality *)

(** One entry of [resultados] of [enviarNFSeParaPrefeitura]. *)
Record ResultadoEnvio : Type := {
  env_rpsId : Z;
  env_status : ResultStatus;
  env_numeroNFSe : option string;
  env_mensagem : string
}.

Record EnvioRetorno : Type := {
  e_success : bool;
  e_enviados : nat;
  e_total : nat;
  e_resultados : list ResultadoEnvio
}.

Definition so_status (st : Status) : Patch :=
  {| p_status := Some st; p_numeroNFSe := None; p_mensagemErro := None |}.

Definition erro_envio (rpsId : Z) (mensagem : string) : ResultadoEnvio :=
  {| env_rpsId := rpsId; env_status := r_erro;
     env_numeroNFSe := None; env_mensagem := mensagem |}.

(** [nfseData?.data?.situacao === 2 || nfseData?.data?.numero] *)
Definition ja_emitida (data : option Nfse) : bool :=
  match data with
  | Some nfse =>
      match nf_situacao nfse with Some 2 => true | _ => false end
      || truthy_ostr (nf_numero nfse)
  | None => false
  end.

(** The [catch] of the loop body: the compensating read when the record has
    an [nfseId]; [None] when the record could not be shown to be issued. *)
Definition verificarJaEmitida (W : World) (rpsId : Z) (rps : option PedidoVendaRPS)
  : M (option (ResultadoEnvio * nat)) :=
  match rps with
  | Some r =>
      match nfseId r with
      | Some nid =>
          try_catch
            (nfseData <- request (GetNfse nid) (get_nfse W nid) ;;
             if ja_emitida nfseData then
               let numero := match nfseData with
                             | Some nfse => nf_numero nfse
                             | None => None
                             end in
               atualizar rpsId {| p_status := Some emitido;
                                  p_numeroNFSe := Some (or_str numero None);
                                  p_mensagemErro := None |} ;;;
               ret (Some ({| env_rpsId := rpsId; env_status := r_sucesso;
                             env_numeroNFSe := numero;
                             env_mensagem := "NFSe já estava emitida no Bling" |},
                          1%nat))
             else ret None)
            (fun _ => ret None)
      | None => ret None
      end
  | None => ret None
  end.

(** The body of the [for] of [enviarNFSeParaPrefeitura].  [rps] is the local
    declared before the [try]; [buscarPorId] has its own [catch] and never
    throws, so the record is read ahead of the [try]. *)
Definition enviarNFSeDoRps (W : World) (rpsId : Z) : M (ResultadoEnvio * nat) :=
  rps <- buscarPorId rpsId ;;
  try_catch
    (match rps with
     | None => ret (erro_envio rpsId "RPS não encontrado", O)
     | Some r =>
         match nfseId r with
         | None => ret (erro_envio rpsId "NFSe ID não encontrado", O)
         | Some nid =>
             atualizar rpsId (so_status processando) ;;;
             numero <- request (PostEnviar nid) (post_enviar W nid) ;;
             if truthy_ostr numero then
               atualizar rpsId {| p_status := Some emitido;
                                  p_numeroNFSe := Some numero;
                                  p_mensagemErro := None |} ;;;
               ret ({| env_rpsId := rpsId; env_status := r_sucesso;
                       env_numeroNFSe := numero;
                       env_mensagem := "NFSe emitida com sucesso" |}, 1%nat)
             else
               ret ({| env_rpsId := rpsId; env_status := r_processando;
                       env_numeroNFSe := None;
                       env_mensagem := "Enviado para prefeitura, aguardando retorno" |}, O)
         end
     end)
    (fun error =>
       recovered <- verificarJaEmitida W rpsId rps ;;
       match recovered with
       | Some out => ret out
       | None =>
           atualizar rpsId {| p_status := Some erro;
                              p_numeroNFSe := None;
                              p_mensagemErro := Some (message error) |} ;;;
           ret (erro_envio rpsId (message error), O)
       end).

Fixpoint enviar_loop (W : World) (rpsIds : list Z)
    (resultados : list ResultadoEnvio) (enviados : nat)
  : M (list ResultadoEnvio * nat) :=
  match rpsIds with
  | [] => ret (resultados, enviados)
  | rpsId :: rest =>
      step <- enviarNFSeDoRps W rpsId ;;
      enviar_loop W rest (resultados ++ [fst step])%list (enviados + snd step)%nat
  end.

(** [enviarNFSeParaPrefeitura] *)
Definition enviarNFSeParaPrefeitura (W : World) (rpsIds : list Z) : M EnvioRetorno :=
  out <- enviar_loop W rpsIds [] O ;;
  ret {| e_success := true; e_enviados := snd out;
         e_total := List.length rpsIds; e_resultados := fst out |}.

(* ------------------------------------------------------------------ *)
(** *** Reconciliation of the status *)

Record SyncRetorno : Type := {
  sy_success : bool;
  sy_verificados : nat;
  sy_atualizados : nat;
  sy_corrigidos : nat
}.

(** The lookup table of [sincronizarStatusNFSe]:
    0 = Pendente, 1 = Emitida, 2 = Disponível, 3 = Cancelada. *)
Definition novoStatus (atual : Status) (situacao : option Z) : Status :=
  match situacao with
  | Some 1 | Some 2 => emitido
  | Some 3 => erro
  | Some 0 => pendente
  | _ => atual
  end.

(** [rps.status === 'emitido' && !rps.numeroNFSe] *)
Definition emitido_sem_numero (rps : PedidoVendaRPS) : bool :=
  status_eqb (status rps) emitido && negb (truthy_ostr (numeroNFSe rps)).

Definition precisaAtualizar (rps : PedidoVendaRPS) (nfse : Nfse) : bool :=
  negb (status_eqb (novoStatus (status rps) (nf_situacao nfse)) (status rps))
  || (truthy_ostr (nf_numero nfse)
      && negb (ostr_eqb (nf_numero nfse) (numeroNFSe rps))).

(** The update written after a successful lookup. *)
Definition patch_do_bling (rps : PedidoVendaRPS) (nfse : Nfse) : Patch :=
  {| p_status := Some (novoStatus (status rps) (nf_situacao nfse));
     p_numeroNFSe := Some (or_str (nf_numero nfse) (numeroNFSe rps));
     p_mensagemErro := None |}.

(** The update written when the lookup of an [emitido] record without a
    number fails. *)
Definition patch_reset : Patch :=
  {| p_status := Some pendente;
     p_numeroNFSe := None;
     p_mensagemErro := Some "NFSe não encontrada no Bling - status resetado" |}.

(** The body of the [for] of [sincronizarStatusNFSe], on the row [rps] read
    at the start: what it adds to [atualizados] and to [corrigidos]. *)
Definition sincronizarRps (W : World) (rps : PedidoVendaRPS) : M (nat * nat) :=
  match nfseId rps with
  | None => ret (O, O)
  | Some nid =>
      try_catch
        (response <- request (GetNfse nid) (get_nfse W nid) ;;
         match response with
         | None => ret (O, O)
         | Some nfse =>
             if precisaAtualizar rps nfse then
               atualizar (id rps) (patch_do_bling rps nfse) ;;;
               if emitido_sem_numero rps && truthy_ostr (nf_numero nfse)
               then ret (O, 1%nat)
               else ret (1%nat, O)
             else ret (O, O)
         end)
        (fun _ =>
           if emitido_sem_numero rps then
             atualizar (id rps) patch_reset ;;;
             ret (O, 1%nat)
           else ret (O, O))
  end.

Fixpoint sync_loop (W : World) (rpsParaVerificar : list PedidoVendaRPS)
    (atualizados corrigidos : nat) : M (nat * nat) :=
  match rpsParaVerificar with
  | [] => ret (atualizados, corrigidos)
  | rps :: rest =>
      step <- sincronizarRps W rps ;;
      sync_loop W rest (atualizados + fst step)%nat (corrigidos + snd step)%nat
  end.

(** The rows [sincronizarStatusNFSe] looks at: the first thousand of each
    of pendente, processando and emitido, the last without a number. *)
Definition rpsParaVerificar (t : Table) : list PedidoVendaRPS :=
  let rpsPendentes := select_page 1 1000 (Some pendente) t in
  let rpsProcessando := select_page 1 1000 (Some processando) t in
  let rpsEmitidos := select_page 1 1000 (Some emitido) t in
  let emitidosSemNumero :=
    filter (fun rps => negb (truthy_ostr (numeroNFSe rps))) rpsEmitidos in
  (rpsPendentes ++ rpsProcessando ++ emitidosSemNumero)%list.

(** [sincronizarStatusNFSe] *)
Definition sincronizarStatusNFSe (W : World) : M SyncRetorno :=
  try_catch
    (rpsPendentes <- listarFila 1 1000 (Some pendente) ;;
     rpsProcessando <- listarFila 1 1000 (Some processando) ;;
     rpsEmitidos <- listarFila 1 1000 (Some emitido) ;;
     let emitidosSemNumero :=
       filter (fun rps => negb (truthy_ostr (numeroNFSe rps))) rpsEmitidos in
     let paraVerificar :=
       (rpsPendentes ++ rpsProcessando ++ emitidosSemNumero)%list in
     out <- sync_loop W paraVerificar O O ;;
     ret {| sy_success := true;
            sy_verificados := List.length paraVerificar;
            sy_atualizados := fst out;
            sy_corrigidos := snd out |})
    (fun error => throw error).

End BlingService.

(* ------------------------------------------------------------------ *)
(** ** ContactResolver: [buscarContatoPorCPF] and [verificarOuCriarContato] *)

Module ContactResolver.

(** One entry of [result.data] of GET /contatos?pesquisa=. *)
Record ContatoResumo : Type := {
  cr_id : Z;
  cr_nome : string;
  cr_numeroDocumento : option string
}.

(** What [response.json()] gives. *)
Inductive Body : Type :=
| BodyInvalid (msg : string)                       (* the promise rejects *)
| BodyJson (data : option (list ContatoResumo)).   (* result.data *)

(** How the awaited [fetch] ends. *)
Inductive FetchOutcome : Type :=
| FetchAborted                                     (* the 30 s timer fired *)
| FetchRejected (msg : string)                     (* network error *)
| FetchResponse (ok : bool) (status : Z) (body : Body).

Definition res_bind {A B} (r : Res A) (k : A -> Res B) : Res B :=
  match r with Ok a => k a | Throw e => Throw e end.

Definition res_catch {A} (r : Res A) (h : Exn -> Res A) : Res A :=
  match r with Ok a => Ok a | Throw e => h e end.

Definition await_fetch (f : FetchOutcome) : Res (bool * Z * Body) :=
  match f with
  | FetchAborted => Throw AbortError
  | FetchRejected m => Throw (Error m)
  | FetchResponse ok st b => Ok (ok, st, b)
  end.

Definition await_json (b : Body) : Res (option (list ContatoResumo)) :=
  match b with
  | BodyInvalid m => Throw (Error m)
  | BodyJson d => Ok d
  end.

(** [contato.numeroDocumento && contato.numeroDocumento.replace(/\D/g, '') === cpf] *)
Definition cpf_bate (cpf : string) (c : ContatoResumo) : bool :=
  match cr_numeroDocumento c with
  | Some d => truthy_str d && (so_digitos d =? cpf)%string
  | None => false
  end.

(** [buscarContatoPorCPF]; [token] is the outcome of [ensureValidToken]. *)
Definition buscarContatoPorCPF (token : Res string) (fetch : FetchOutcome)
    (cpf : string) : Res (option ContatoResumo) :=
  res_catch
    (res_bind token (fun _ =>
     res_bind (await_fetch fetch) (fun response =>
       let '(ok, _, body) := response in
       if negb ok then Ok None
       else
         res_bind (await_json body) (fun data =>
           match data with
           | Some (c :: l) =>
               match find (cpf_bate cpf) (c :: l) with
               | Some contatoEncontrado => Ok (Some contatoEncontrado)
               | None => Ok None
               end
           | _ => Ok None
           end))))
    (fun error =>
       if is_abort error then Ok None else Ok None).

(** The fields of [duplicata] the contact and RPS code reads. *)
Record Duplicata : Type := {
  dup_numero : string;
  dup_nomeAluno : option string;
  dup_cpf : option string;         (* duplicata.responsavel?.cpf *)
  dup_rps : option string          (* duplicata.rps, rendered by toString *)
}.

(** The methods [verificarOuCriarContato] calls, in order. *)
Inductive Step : Type :=
| StepBuscar (cpf : string)
| StepCriar
| StepDetalhes (contatoId : Z).

(** [verificarOuCriarContato]: [criarContato] is the outcome of creating the
    contact (its id), [detalhes] the answer of [obterDetalhesContato]. *)
Definition verificarOuCriarContato (token : Res string) (fetch : FetchOutcome)
    (criarContato : Res Z) (detalhes : Z -> option Contato)
    (duplicata : Duplicata) : Res Contato * list Step :=
  let wrap (e : Exn) : Res Contato :=
    Throw (Error ("Erro ao verificar/criar contato: " ++ message e)) in
  let cpf := match dup_cpf duplicata with
             | Some c => so_digitos c
             | None => ""
             end in
  if negb (truthy_str cpf) then
    let studentInfo := match dup_nomeAluno duplicata with
                       | Some n => if truthy_str n then " (" ++ n ++ ")" else ""
                       | None => ""
                       end in
    (wrap (Error ("CPF não informado na duplicata #" ++ dup_numero duplicata
                  ++ studentInfo
                  ++ ". Verifique se o campo CPF do responsável está preenchido corretamente.")),
     [])
  else
    match buscarContatoPorCPF token fetch cpf with
    | Throw e => (wrap e, [StepBuscar cpf])
    | Ok contatoExistente =>
        let obter (log : list Step) (contatoId : Z) : Res Contato * list Step :=
          match detalhes contatoId with
          | Some dadosCompletos =>
              (Ok dadosCompletos, (log ++ [StepDetalhes contatoId])%list)
          | None =>
              (wrap (Error ("Não foi possível obter os dados completos do contato ID: "
                            ++ String_of_N (Z.to_N contatoId) ++ " no Bling")),
               (log ++ [StepDetalhes contatoId])%list)
          end in
        match contatoExistente with
        | Some c => obter [StepBuscar cpf] (cr_id c)
        | None =>
            match criarContato with
            | Ok novoId => obter [StepBuscar cpf; StepCriar] novoId
            | Throw e => (wrap e, [StepBuscar cpf; StepCriar])
            end
        end
    end.


End ContactResolver.

(* ------------------------------------------------------------------ *)
(** ** The order list of the frontend ([PedidosVenda.tsx]) *)

Module PedidosVenda.

(** [interface PedidoVenda], the fields the list reads. *)
Record PedidoVenda : Type := {
  pv_id : Z;
  pv_numero : Z;
  pv_contato_nome : option string;     (* pedido.contato?.nome *)
  pv_situacao : option Z;              (* pedido.situacao?.id *)
  pv_rpsStatus : option Status
}.

(** The situation the list treats as cancelled. *)
Definition SITUACAO_CANCELADO : Z := 2.

(** [situacaoId === 2 || String(situacaoId) === '2'] *)
Definition cancelado (situacaoId : option Z) : bool :=
  match situacaoId with
  | Some i => i =? SITUACAO_CANCELADO
  | None => false
  end.

(** The two filters of [carregarPedidos]. *)
Definition filtrarPedidos (numeroInicial : option Z) (data : list PedidoVenda)
  : list PedidoVenda :=
  let pedidosFiltrados :=
    match numeroInicial with
    | Some n => if 0 <? n then filter (fun p => pv_numero p >=? n) data else data
    | None => data
    end in
  filter (fun p => negb (cancelado (pv_situacao p))) pedidosFiltrados.

(** [isSelectable] *)
Definition isSelectable (pedido : PedidoVenda) : bool :=
  match pv_rpsStatus pedido with
  | Some _ => false
  | None =>
      if cancelado (pv_situacao pedido) then false
      else
        let nomeCliente :=
          match pv_contato_nome pedido with
          | Some n => if truthy_str n then toLowerCase n else ""
          | None => ""
          end in
        if includes "consumidor final" nomeCliente
           || (nomeCliente =? "consumidor final")%string
        then false
        else true
  end.

(** [handleSelectAll(true)]: the ids offered to [gerarRPSPedidos]. *)
Definition handleSelectAll (pedidos : list PedidoVenda) : list Z :=
  map pv_id (filter isSelectable pedidos).

End PedidosVenda.

(* ------------------------------------------------------------------ *)
(** ** Notions used to state the properties *)

Module Props.

Import BlingService.


(** The state of a table the operations maintain: one row per order, one
    row per key, keys below the next generated one. *)
Definition wf (t : Table) : Prop :=
  NoDup (map pedidoVendaId (rows t))
  /\ NoDup (map id (rows t))
  /\ Forall (fun r => id r < next_id t) (rows t).


(** The service lines [filtrarServicos] retains, as a function of the
    answers of the ERP. *)
Fixpoint servicosRetidos (W : World) (itens : list Item) : list Servico :=
  match itens with
  | [] => []
  | item :: rest =>
      match get_produto W (item_produto_id item) with
      | Ok produto =>
          if (tipo produto =? "S")%string
          then {| s_descricao := or_default (prod_descricao produto) (item_descricao item);
                  s_valor := valor_do_item item |} :: servicosRetidos W rest
          else servicosRetidos W rest
      | Throw _ => servicosRetidos W rest
      end
  end.

(** The requests [filtrarServicos] sends. *)
Definition pedidosDeProduto (itens : list Item) : list Request :=
  map (fun item => GetProduto (item_produto_id item)) itens.

(** An item whose product is not retained: the fetch failed or the product
    is not of type 'S'. *)
Definition nao_e_servico (W : World) (item : Item) : Prop :=
  match get_produto W (item_produto_id item) with
  | Ok produto => tipo produto <> "S"
  | Throw _ => True
  end.

(** The update one pass of the reconciler writes for a row it looks at, if
    any. *)
Definition decisao (W : World) (rps : PedidoVendaRPS) : option Patch :=
  match nfseId rps with
  | None => None
  | Some nid =>
      match get_nfse W nid with
      | Ok (Some nfse) =>
          if precisaAtualizar rps nfse then Some (patch_do_bling rps nfse) else None
      | Ok None => None
      | Throw _ => if emitido_sem_numero rps then Some patch_reset else None
      end
  end.

(** Its effect on the table and on the row itself. *)
Definition aplicar (W : World) (rps : PedidoVendaRPS) (t : Table) : Table :=
  match decisao W rps with
  | Some p => update (id rps) p t
  | None => t
  end.

Definition reconciliado (W : World) (rps : PedidoVendaRPS) : PedidoVendaRPS :=
  match decisao W rps with
  | Some p => apply_patch p rps
  | None => rps
  end.




(** The compensating read shows the invoice issued. *)
Definition leitura_emitida (W : World) (nid : Z) : bool :=
  match get_nfse W nid with
  | Ok data => ja_emitida data
  | Throw _ => false
  end.

Definition numero_lido (W : World) (nid : Z) : option string :=
  match get_nfse W nid with
  | Ok (Some nfse) => nf_numero nfse
  | _ => None
  end.

(** The update the [catch] of the submitter writes when the invoice is
    found issued, and the one it writes otherwise. *)
Definition patch_recuperado (W : World) (nid : Z) : Patch :=
  {| p_status := Some emitido;
     p_numeroNFSe := Some (or_str (numero_lido W nid) None);
     p_mensagemErro := None |}.

Definition patch_erro (error : Exn) : Patch :=
  {| p_status := Some erro; p_numeroNFSe := None;
     p_mensagemErro := Some (message error) |}.

(** The same ERP, except for the situation it reports for each order. *)
Definition com_situacao (f : Z -> option Z) (W : World) : World :=
  {| get_pedido := fun i =>
       match get_pedido W i with
       | Ok p => Ok {| numero := numero p; contato := contato p;
                       situacao := f i; vendedor := vendedor p;
                       itens := itens p |}
       | Throw e => Throw e
       end;
     get_contato := get_contato W;
     get_produto := get_produto W;
     post_nfse := post_nfse W;
     post_enviar := post_enviar W;
     get_nfse := get_nfse W;
     math_random := math_random W |}.

(** A search that did not reach a usable answer: timeout, network error or
    a non-OK response. *)
Definition busca_falhou (f : ContactResolver.FetchOutcome) : bool :=
  match f with
  | ContactResolver.FetchResponse true _ _ => false
  | _ => true
  end.

(** One row per order: the uniqueness of [pedidoVendaId]. *)
Definition unico (t : Table) : Prop := NoDup (map pedidoVendaId (rows t)).

(** A computation keeps a property of the table. *)
Definition preserves (P : Table -> Prop) {A : Type} (m : M A) : Prop :=
  forall s, P (db s) -> P (db (snd (m s))).

(** A computation ends without an exception. *)
Definition total {A : Type} (m : M A) : Prop :=
  forall s, exists a s', m s = (Ok a, s').

(** The per-order entries a run of [gerarRPSParaPedidos] returned. *)
Definition resultados (run : Res GerarRetorno * Sys) : list Resultado :=
  match fst run with
  | Ok g => g_resultados g
  | Throw _ => []
  end.

(** The per-record entries a run of [enviarNFSeParaPrefeitura] returned. *)
Definition resultadosEnvio (run : Res EnvioRetorno * Sys) : list ResultadoEnvio :=
  match fst run with
  | Ok g => e_resultados g
  | Throw _ => []
  end.

(** The customer of an order is undetermined: no contact, no tax document,
    or a document with fewer than 11 digits once the rest is stripped. *)
Definition sem_documento (pedido : Pedido) : Prop :=
  contato pedido = None
  \/ exists c, contato pedido = Some c
               /\ (cp_numeroDocumento c = None
                   \/ exists d, cp_numeroDocumento c = Some d
                                /\ (String.length (so_digitos d) < 11)%nat).

(** Status and message of the entries of a run. *)
Definition resumo (run : Res GerarRetorno * Sys) : list (Z * ResultStatus * string) :=
  map (fun r => (res_pedidoId r, res_status r, res_mensagem r)) (resultados run).

End Props.
Import Props.

(* ------------------------------------------------------------------ *)
(** ** Concrete data for the examples *)

Module Exemplos.

Import TokenManager.

Definition tokens_exemplo (e : option Z) : BlingTokens :=
  {| access_token := "at-1"; expires_in := 21600; token_type := "Bearer";
     scope := "98309"; refresh_token := "rt-1"; expires_at := e |}.

Definition reply_exemplo : TokenReply :=
  ReplyTokens (tokens_exemplo None) 1700000000500.

Definition duplicata_com_rps (rps : option string) : ContactResolver.Duplicata :=
  {| ContactResolver.dup_numero := "17"; ContactResolver.dup_nomeAluno := None;
     ContactResolver.dup_cpf := Some "123.456.789-01";
     ContactResolver.dup_rps := rps |}.

Definition item_exemplo (produtoId : Z) : Item :=
  {| item_produto_id := produtoId; item_descricao := "Mensalidade";
     item_valor := Some (150 # 1)%Q; item_valorUnidade := None |}.

(** Order number 42 of contact 9. *)
Definition pedido_exemplo (doc : option string) (sit : option Z)
    (its : list Item) : Pedido :=
  {| numero := 42;
     contato := Some {| cp_id := 9; cp_nome := Some "Maria";
                        cp_numeroDocumento := doc |};
     situacao := sit; vendedor := None; itens := its |}.

(** An ERP in which product 1 is a service, product 2 is goods and any
    other product is unknown; every invoice it creates has id 77. *)
Definition mundo (ped : Z -> Res Pedido) (envio : Z -> Res (option string))
    (consulta : Z -> Res (option Nfse)) : World :=
  {| get_pedido := ped;
     get_contato := fun i =>
       Some {| c_id := i; c_nome := "Maria";
               c_numeroDocumento := Some "12345678901";
               c_cpfCnpj := None; c_email := None |};
     get_produto := fun i =>
       if i =? 1 then Ok {| tipo := "S"; prod_descricao := Some "Ensino" |}
       else if i =? 2 then Ok {| tipo := "P"; prod_descricao := Some "Livro" |}
       else Throw (BadRequestException "Erro na API Bling: 404 - ");
     post_nfse := fun p =>
       Ok {| nc_id := 77; nc_numeroRPS := Some (pl_numeroRPS p);
             nc_serie := Some "1" |};
     post_enviar := envio;
     get_nfse := consulta;
     math_random := fun _ => (1 # 8)%Q |}.

Definition sem_resposta {A : Type} : Z -> Res A :=
  fun _ => Throw (BadRequestException "Erro na API Bling: 500 - ").

Definition inicio : Sys := {| db := empty; sent := [] |}.

(** The ERP serves order 10 with the given document, situation and items. *)
Definition mundo_pedido (doc : option string) (sit : option Z) (its : list Item)
  : World :=
  mundo (fun _ => Ok (pedido_exemplo doc sit its)) sem_resposta sem_resposta.

(** The ERP of the queue examples: order 10 as above, the given answers to
    the submission and to the invoice lookup. *)
Definition mundo_fila (envio : Z -> Res (option string))
    (consulta : Z -> Res (option Nfse)) : World :=
  mundo (fun _ => Ok (pedido_exemplo (Some "123.456.789-01") (Some 9)
                        [item_exemplo 1]))
        envio consulta.

(** The queue after generating order 10: row 1, pendente, invoice 77. *)
Definition fila_pendente : Sys :=
  snd (BlingService.gerarRPSParaPedidos (mundo_fila sem_resposta sem_resposta)
         [10] inicio).




(** The submission fails and the lookup shows situation 2 without a number:
    row 1 ends emitido with a null number. *)
Definition fila_emitido_sem_numero : Sys :=
  snd (BlingService.enviarNFSeParaPrefeitura
         (mundo_fila (fun _ => Throw (BadRequestException "Timeout"))
                     (fun _ => Ok (Some {| nf_situacao := Some 2;
                                           nf_numero := None |})))
         [1] fila_pendente).

(** The lookup answers situation 1 (Emitida) with number 000456. *)
Definition mundo_emitida : World :=
  mundo_fila sem_resposta
             (fun _ => Ok (Some {| nf_situacao := Some 1;
                                   nf_numero := Some "000456" |})).

End Exemplos.

(* ------------------------------------------------------------------ *)
(** ** The OAuth exchange, manual tokens and the token status *)

Module OAuth.

Import TokenManager.

(** [this.states], a [Set<string>]: its elements in insertion order. *)
Definition set_has (x : string) (l : list string) : bool :=
  existsb (String.eqb x) l.

Definition set_add (x : string) (l : list string) : list string :=
  if set_has x l then l else (l ++ [x])%list.

Definition set_delete (x : string) (l : list string) : list string :=
  filter (fun y => negb (String.eqb x y)) l.

(** The token part of the service with the nonces of the OAuth flow. *)
Record Auth : Type := {
  svc : Service;
  states : list string
}.

(** [saveState]: the nonce joins the set. *)
Definition saveState (state : string) (a : Auth) : Auth :=
  {| svc := svc a; states := set_add state (states a) |}.

(** The timer [saveState] arms, firing ten minutes later. *)
Definition expireState (state : string) (a : Auth) : Auth :=
  {| svc := svc a; states := set_delete state (states a) |}.

(** [verifyState] *)
Definition verifyState (state : string) (a : Auth) : bool * Auth :=
  let isValid := set_has state (states a) in
  (isValid,
   if isValid
   then {| svc := svc a; states := set_delete state (states a) |}
   else a).

(** [exchangeCodeForTokens]; the third component counts the requests made
    to the token endpoint. *)
Definition exchangeCodeForTokens (code state : string) (reply : TokenReply)
    (a : Auth) : Res BlingTokens * Auth * nat :=
  let '(isValid, a1) := verifyState state a in
  if negb isValid then
    (Throw (BadRequestException "State inválido - possível ataque CSRF"), a1, O)
  else
    match reply with
    | ReplyTokens t received_at =>
        let tokens := with_expires_at t (received_at + expires_in t * 1000) in
        (Ok tokens,
         {| svc := saveTokens tokens
                     {| TokenManager.tokens := Some tokens;
                        tokens_file := tokens_file (svc a1) |};
            states := states a1 |},
         1%nat)
    | ReplyNotOk _ _ =>
        (Throw (BadRequestException "Falha na autenticação com Bling"), a1, 1%nat)
    | ReplyAbort =>
        (Throw (BadRequestException
           "Timeout na autenticação: A API do Bling está lenta. Tente novamente."),
         a1, 1%nat)
    | ReplyFailure m => (Throw (Error m), a1, 1%nat)
    end.

(** [setTokens] *)
Definition setTokens (now : Z) (t : BlingTokens) (s : Service) : Service :=
  let t' := if negb (truthy_num (expires_at t))
            then with_expires_at t (now + expires_in t * 1000)
            else t in
  {| TokenManager.tokens := Some t'; tokens_file := tokens_file s |}.

(** The answer of [getTokenInfo]; the ISO rendering of [expires_at] is kept
    only as the instant it renders. *)
Record TokenInfo : Type := {
  authenticated : bool;
  ti_token_type : option string;
  ti_scope : option string;
  ti_expires_in : Z;
  ti_is_expired : bool;
  ti_expires_at : option Z
}.

(** The instants a [Date] can hold: [toISOString] throws outside them. *)
Definition data_valida (ms : Z) : bool :=
  (- 8640000000000000 <=? ms) && (ms <=? 8640000000000000).

(** [getTokenInfo] *)
Definition getTokenInfo (now : Z) (s : Service) : Res TokenInfo :=
  match TokenManager.tokens s with
  | None =>
      Ok {| authenticated := false; ti_token_type := None; ti_scope := None;
            ti_expires_in := 0; ti_is_expired := false; ti_expires_at := None |}
  | Some t =>
      let expiresAt := or_zero (expires_at t) in
      let isExpired := now >=? expiresAt in
      let expiresIn := Z.max 0 ((expiresAt - now) / 1000) in
      if data_valida expiresAt then
        Ok {| authenticated := true;
              ti_token_type := Some (token_type t);
              ti_scope := Some (scope t);
              ti_expires_in := expiresIn;
              ti_is_expired := isExpired;
              ti_expires_at := Some expiresAt |}
      else Throw (Error "Invalid time value")
  end.

End OAuth.

(* ------------------------------------------------------------------ *)
(** ** The saved credentials ([bling-config.json]) *)

Module Credentials.

(** The fields of [BlingConfig] the credential code writes. *)
Record BlingConfig : Type := {
  client_id : string;
  client_secret : string;
  initial_order_number : option Z
}.

(** The object in the credentials file; an absent key and [null] read the
    same everywhere, both are [None]. *)
Record ConfigJson : Type := {
  cj_client_id : option string;
  cj_client_secret : option string;
  cj_initial_order_number : option Z
}.

Inductive ConfigFile : Type :=
| CfgGarbled                       (* JSON.parse throws *)
| CfgJson (c : ConfigJson).

Record Cred : Type := {
  config : BlingConfig;
  config_file : option ConfigFile
}.

(** What [configService.get] gives for the two credentials, defaults
    included. *)
Record Env : Type := {
  env_client_id : string;
  env_client_secret : string
}.

(** [loadCredentials] *)
Definition loadCredentials (s : Cred) : Cred :=
  match config_file s with
  | Some (CfgJson saved) =>
      if truthy_ostr (cj_client_id saved) && truthy_ostr (cj_client_secret saved)
      then
        {| config :=
             {| client_id := match cj_client_id saved with
                             | Some v => v
                             | None => ""
                             end;
                client_secret := match cj_client_secret saved with
                                 | Some v => v
                                 | None => ""
                                 end;
                initial_order_number := cj_initial_order_number saved |};
           config_file := config_file s |}
      else s
  | Some CfgGarbled => s           (* caught: "Erro ao carregar credenciais" *)
  | None => s
  end.

(** The constructor: the configuration from the environment, then
    [loadCredentials]. *)
Definition construct (env : Env) (file : option ConfigFile) : Cred :=
  loadCredentials
    {| config := {| client_id := env_client_id env;
                    client_secret := env_client_secret env;
                    initial_order_number := None |};
       config_file := file |}.

(** [saveCredentials]: the configuration in memory is set first, then the
    file is read and rewritten. *)
Definition saveCredentials (clientId clientSecret : string) (s : Cred)
  : Res unit * Cred :=
  let mem := {| client_id := clientId; client_secret := clientSecret;
                initial_order_number := initial_order_number (config s) |} in
  match config_file s with
  | Some CfgGarbled =>
      (Throw (Error "Falha ao salvar credenciais"),
       {| config := mem; config_file := config_file s |})
  | existing =>
      let inicial := match existing with
                     | Some (CfgJson c) => cj_initial_order_number c
                     | _ => None
                     end in
      (Ok tt,
       {| config := mem;
          config_file :=
            Some (CfgJson {| cj_client_id := Some clientId;
                             cj_client_secret := Some clientSecret;
                             cj_initial_order_number := inicial |}) |})
  end.

(** [setInitialOrderNumber]: errors are logged, not thrown. *)
Definition setInitialOrderNumber (orderNumber : option Z) (s : Cred) : Cred :=
  let mem := {| client_id := client_id (config s);
                client_secret := client_secret (config s);
                initial_order_number := orderNumber |} in
  match config_file s with
  | Some CfgGarbled => {| config := mem; config_file := config_file s |}
  | existing =>
      let old := match existing with
                 | Some (CfgJson c) => c
                 | _ => {| cj_client_id := None; cj_client_secret := None;
                           cj_initial_order_number := None |}
                 end in
      {| config := mem;
         config_file :=
           Some (CfgJson
                   {| cj_client_id :=
                        match cj_client_id old with
                        | Some v => Some v
                        | None => Some (client_id mem)
                        end;
                      cj_client_secret :=
                        match cj_client_secret old with
                        | Some v => Some v
                        | None => Some (client_secret mem)
                        end;
                      cj_initial_order_number := orderNumber |}) |}
  end.

(** [removeCredentials] *)
Definition removeCredentials (env : Env) (s : Cred) : Cred :=
  {| config := {| client_id := env_client_id env;
                  client_secret := env_client_secret env;
                  initial_order_number := None |};
     config_file := None |}.

(** [configured] of [getIntegrationStatus]. *)
Definition configured (s : Cred) : bool :=
  truthy_str (client_id (config s)) && truthy_str (client_secret (config s)).

(** [isActive] of [getIntegrationStatus]. *)
Definition isActive (now : Z) (t : TokenManager.Service) : bool :=
  match TokenManager.tokens t with
  | Some tk => now <? or_zero (TokenManager.expires_at tk)
  | None => false
  end.

(** [saveIntegration] of the controller: the validation, then the two
    writes; every error leaves as a [BadRequestException]. *)
Definition saveIntegration (clientId clientSecret : string)
    (initialOrderNumber : option (option Z)) (s : Cred) : Res unit * Cred :=
  let wrap (e : Exn) : Exn :=
    BadRequestException ("Erro ao salvar integração: " ++ message e) in
  if negb (truthy_str clientId) || negb (truthy_str clientSecret) then
    (Throw (wrap (BadRequestException "Client ID e Client Secret são obrigatórios")), s)
  else
    match saveCredentials clientId clientSecret s with
    | (Throw e, s1) => (Throw (wrap e), s1)
    | (Ok _, s1) =>
        match initialOrderNumber with
        | None => (Ok tt, s1)
        | Some parsed =>
            match parsed with
            | Some n =>
                if n <? 0 then
                  (Throw (wrap (BadRequestException
                     "initialOrderNumber deve ser um número inteiro positivo ou null")),
                   s1)
                else (Ok tt, setInitialOrderNumber parsed s1)
            | None => (Ok tt, setInitialOrderNumber parsed s1)
            end
        end
    end.

End Credentials.

(* ------------------------------------------------------------------ *)
(** ** Polling for the invoice number ([buscarSituacaoNFSe]) *)

Module Polling.

(** [result.data] of GET /nfse/{id}, as the polling reads it. *)
Record Situacao : Type := {
  st_numero : option string;
  st_situacao : option Z;
  st_dataEmissao : option string
}.

(** How one attempt ends. *)
Inductive Tentativa : Type :=
| TentouExcecao (e : Exn)          (* token check, fetch or json threw *)
| TentouNaoOk (status : Z)         (* !response.ok *)
| TentouResposta (data : option Situacao).

(** What the polling does, in order. *)
Inductive Evento : Type :=
| Consulta (tentativa : nat)
| Espera (ms : Z).

Definition maxTentativas : nat := 5.
Definition delayEntreTentativas : Z := 40000.

(** [result.data?.numero] *)
Definition tem_numero (t : Tentativa) : option Situacao :=
  match t with
  | TentouResposta (Some d) => if truthy_ostr (st_numero d) then Some d else None
  | _ => None
  end.

(** The [for] of [buscarSituacaoNFSe] from attempt [tentativa] on, with
    [restantes] iterations left: every failed attempt but the last waits. *)
Fixpoint tentar (respostas : nat -> Tentativa) (restantes tentativa : nat)
  : option Situacao * list Evento :=
  match restantes with
  | O => (None, [])
  | S r =>
      match tem_numero (respostas tentativa) with
      | Some d => (Some d, [Consulta tentativa])
      | None =>
          if (tentativa <? maxTentativas)%nat then
            let '(res, ev) := tentar respostas r (S tentativa) in
            (res, Consulta tentativa :: Espera delayEntreTentativas :: ev)
          else (None, [Consulta tentativa])
      end
  end.

(** [buscarSituacaoNFSe]; [respostas k] is how attempt [k] ends. *)
Definition buscarSituacaoNFSe (respostas : nat -> Tentativa)
  : option Situacao * list Evento :=
  tentar respostas maxTentativas 1.

Definition consultas (ev : list Evento) : nat :=
  List.length (filter (fun e => match e with Consulta _ => true | _ => false end) ev).

Definition esperas (ev : list Evento) : nat :=
  List.length (filter (fun e => match e with Espera _ => true | _ => false end) ev).

Definition tempo_de_espera (ev : list Evento) : Z :=
  fold_right (fun e acc => match e with Espera ms => ms + acc | _ => acc end) 0 ev.

(** Status of an entry of [NFSeResultado]. *)
Inductive StatusNFSe : Type :=
| ns_sucesso | ns_parcial | ns_erro | ns_emitida | ns_verificado | ns_pendente.

(** An entry of [NFSeResultado]; [rps], [idNota] and [dataEmissao] are
    left out. *)
Record NFSeResultado : Type := {
  nr_duplicata : option string;
  nr_status : StatusNFSe;
  nr_nfseId : option Z;
  nr_numero : option string;
  nr_enviada : option bool;
  nr_mensagem : string
}.

(** The body of the [for] of [verificarSituacaoNFSeEmitidas]. *)
Definition verificarSituacao (respostas : Z -> nat -> Tentativa) (nfseId : Z)
  : NFSeResultado * list Evento :=
  match buscarSituacaoNFSe (respostas nfseId) with
  | (Some d, ev) =>
      ({| nr_duplicata := None; nr_status := ns_verificado;
          nr_nfseId := Some nfseId; nr_numero := st_numero d;
          nr_enviada := Some true;
          nr_mensagem := "Situação verificada e número obtido" |},
       (ev ++ [Espera 2000])%list)
  | (None, ev) =>
      ({| nr_duplicata := None; nr_status := ns_pendente;
          nr_nfseId := Some nfseId; nr_numero := None;
          nr_enviada := None;
          nr_mensagem := "NFSe ainda não tem número" |},
       (ev ++ [Espera 2000])%list)
  end.

(** [verificarSituacaoNFSeEmitidas] *)
Fixpoint verificarSituacaoNFSeEmitidas (respostas : Z -> nat -> Tentativa)
    (nfseIds : list Z) : list NFSeResultado * list Evento :=
  match nfseIds with
  | [] => ([], [])
  | nfseId :: rest =>
      let '(r, ev) := verificarSituacao respostas nfseId in
      let '(rs, evs) := verificarSituacaoNFSeEmitidas respostas rest in
      (r :: rs, (ev ++ evs)%list)
  end.

End Polling.

(* ------------------------------------------------------------------ *)
(** ** The duplicata batch ([processarFilaDuplicatas]) *)

Module Duplicatas.

Import ContactResolver Polling.

(** [nfseResult?.data] of [emitirNFSe]. *)
Record Emitida : Type := {
  em_id : option Z;
  em_numeroRps : option string
}.

(** What the outside gives while one duplicata is processed: the inputs of
    [verificarOuCriarContato], the outcome of [emitirNFSe] on the payload
    built for it and the outcome of [enviarNFSe] on the id returned. *)
Record Atendimento : Type := {
  at_token : Res string;
  at_fetch : FetchOutcome;
  at_criarContato : Res Z;
  at_detalhes : Z -> option Contato;
  at_emitir : Res (option Emitida);
  at_enviar : Z -> Res unit
}.

(** What the batch asks of the ERP for a duplicata, in order. *)
Inductive Passo : Type :=
| PassoContato (s : Step)
| PassoEmitir
| PassoEnviar (nfseId : Z).

Definition erro_duplicata (d : Duplicata) (mensagem : string) : NFSeResultado :=
  {| nr_duplicata := Some (dup_numero d); nr_status := ns_erro;
     nr_nfseId := None; nr_numero := None; nr_enviada := None;
     nr_mensagem := mensagem |}.

(** The body of the [for] of [processarFilaDuplicatas]. *)
Definition processarDuplicata (mundo : Duplicata -> Atendimento) (d : Duplicata)
  : NFSeResultado * list Passo :=
  let w := mundo d in
  match verificarOuCriarContato (at_token w) (at_fetch w) (at_criarContato w)
          (at_detalhes w) d with
  | (Throw e, steps) => (erro_duplicata d (message e), map PassoContato steps)
  | (Ok dadosContatoBling, steps) =>
      let log := (map PassoContato steps ++ [PassoEmitir])%list in
      match at_emitir w with
      | Throw e => (erro_duplicata d (message e), log)
      | Ok nfseResult =>
          let nfseId := match nfseResult with
                        | Some data => em_id data
                        | None => None
                        end in
          match nfseId with
          | Some i =>
              if truthy_num (Some i) then
                let enviada := is_ok (at_enviar w i) in
                ({| nr_duplicata := Some (dup_numero d); nr_status := ns_emitida;
                    nr_nfseId := Some i; nr_numero := None;
                    nr_enviada := Some enviada;
                    nr_mensagem :=
                      if enviada then "NFSe emitida e enviada com sucesso"
                      else "NFSe emitida mas envio falhou" |},
                 (log ++ [PassoEnviar i])%list)
              else (erro_duplicata d "NFSe criada mas sem ID retornado", log)
          | None => (erro_duplicata d "NFSe criada mas sem ID retornado", log)
          end
      end
  end.

(** [processarFilaDuplicatas] *)
Definition processarFilaDuplicatas (mundo : Duplicata -> Atendimento)
    (duplicatas : list Duplicata) : list (NFSeResultado * list Passo) :=
  map (processarDuplicata mundo) duplicatas.

End Duplicatas.

(* ------------------------------------------------------------------ *)
(** ** The queue endpoints: count, statistics, pages *)

Module Fila.

Import BlingService.

(** The rows a [listarFila] query matches, newest first. *)
Definition ordenados (st : option Status) (t : Table) : list PedidoVendaRPS :=
  rev (match st with
       | Some s => filter (fun r => status_eqb (status r) s) (rows t)
       | None => rows t
       end).

(** [total] of [listarFila]: [getManyAndCount] counts without the page. *)
Definition total (st : option Status) (t : Table) : nat :=
  List.length (ordenados st t).




(** [Math.ceil(total / limite)] on counts, for a positive [limite]. *)
Definition totalPaginas (total limite : nat) : nat :=
  ((total + limite - 1) / limite)%nat.

Record PaginaFila : Type := {
  pg_data : list PedidoVendaRPS;
  pg_total : nat;
  pg_pagina : nat;
  pg_totalPaginas : nat
}.

(** [getFilaRPS] of the controller on parsed, positive [pagina] and
    [limite]. *)
Definition getFilaRPS (pagina limite : nat) (st : option Status) (t : Table)
  : PaginaFila :=
  {| pg_data := select_page pagina limite st t;
     pg_total := total st t;
     pg_pagina := pagina;
     pg_totalPaginas := totalPaginas (total st t) limite |}.

(** The enrichment of [getPedidosVenda] of the controller: an order that
    has a row gets the status of the row. *)
Definition enriquecer (t : Table) (p : PedidosVenda.PedidoVenda)
  : PedidosVenda.PedidoVenda :=
  match find_by_pedido (PedidosVenda.pv_id p) t with
  | Some rps =>
      {| PedidosVenda.pv_id := PedidosVenda.pv_id p;
         PedidosVenda.pv_numero := PedidosVenda.pv_numero p;
         PedidosVenda.pv_contato_nome := PedidosVenda.pv_contato_nome p;
         PedidosVenda.pv_situacao := PedidosVenda.pv_situacao p;
         PedidosVenda.pv_rpsStatus := Some (status rps) |}
  | None => p
  end.

End Fila.

(* ------------------------------------------------------------------ *)
(** ** The queue view of the frontend ([FilaRPS]) *)

Module FilaRPS.

(** [interface ItemFila], the fields the view computes with. *)
Record ItemFila : Type := {
  if_id : Z;
  if_status : Status;
  if_numeroNFSe : option string
}.

(** The transformation of [carregarFila]. *)
Definition item_da_fila (r : PedidoVendaRPS) : ItemFila :=
  {| if_id := id r; if_status := status r;
     if_numeroNFSe := or_str (numeroNFSe r) None |}.

(** [i.status === 'emitido' && i.numeroNFSe] *)
Definition emitido_com_numero (i : ItemFila) : bool :=
  status_eqb (if_status i) emitido && truthy_ostr (if_numeroNFSe i).

(** [i.status === 'emitido' && !i.numeroNFSe] *)
Definition emitido_sem_numero_item (i : ItemFila) : bool :=
  status_eqb (if_status i) emitido && negb (truthy_ostr (if_numeroNFSe i)).

Record Cartoes : Type := {
  c_pendentes : nat;
  c_processando : nat;
  c_emitidos : nat;
  c_erros : nat
}.

(** [estatisticas] *)
Definition estatisticas (itens : list ItemFila) : Cartoes :=
  {| c_pendentes :=
       List.length (filter (fun i => status_eqb (if_status i) pendente
                                     || emitido_sem_numero_item i) itens);
     c_processando :=
       List.length (filter (fun i => status_eqb (if_status i) processando) itens);
     c_emitidos := List.length (filter emitido_com_numero itens);
     c_erros := List.length (filter (fun i => status_eqb (if_status i) erro) itens) |}.

(** [itensFiltrados], for the filter a card sets. *)
Definition itensFiltrados (filtroStatus : option Status) (itens : list ItemFila)
  : list ItemFila :=
  match filtroStatus with
  | None => itens
  | Some filtro =>
      filter
        (fun i =>
           let statusEfetivo :=
             if emitido_sem_numero_item i then pendente else if_status i in
           match filtro with
           | pendente => status_eqb statusEfetivo pendente
           | emitido => emitido_com_numero i
           | _ => status_eqb (if_status i) filtro
           end)
        itens
  end.

(** [podeSelecionar] *)
Definition podeSelecionar (item : ItemFila) : bool :=
  if emitido_com_numero item then false else true.

(** [handleSelectAll(true)]: the ids offered to the submission. *)
Definition handleSelectAll (filtroStatus : option Status) (itens : list ItemFila)
  : list Z :=
  map if_id (filter (fun i => negb (emitido_com_numero i))
                    (itensFiltrados filtroStatus itens)).

End FilaRPS.

(* ------------------------------------------------------------------ *)
(** ** The instalment setting ([configurarParcela]) *)

Module Parcela.





End Parcela.

(* ------------------------------------------------------------------ *)
(** ** Further notions and data for the properties *)

Module Props2.

Import BlingService.

(** The columns no batch operation may change once a row exists. *)
Definition identidade (r : PedidoVendaRPS)
  : Z * Z * N * option string * option string * option Z * string :=
  (id r, pedidoVendaId r, numeroPedido r, numeroRPS r, serie r, nfseId r,
   nomeCliente r).

(** The table keeps the rows it has, up to status, number and message. *)
Definition mesmas_linhas (l : list (Z * Z * N * option string * option string
                                   * option Z * string)) (t : Table) : Prop :=
  map identidade (rows t) = l.

(** The entries of a generate run that report 'sucesso'. *)
Definition sucessos (l : list Resultado) : nat :=
  List.length (filter (fun r => match res_status r with
                                | r_sucesso => true
                                | _ => false
                                end) l).

(** The entries of a submit run that report 'sucesso'. *)
Definition sucessosEnvio (l : list ResultadoEnvio) : nat :=
  List.length (filter (fun r => match env_status r with
                                | r_sucesso => true
                                | _ => false
                                end) l).

(** The first attempt among [k], [k+1], ... [k+n-1] that has a number. *)
Fixpoint primeira_com_numero (respostas : nat -> Polling.Tentativa) (n k : nat)
  : option Polling.Situacao :=
  match n with
  | O => None
  | S n' =>
      match Polling.tem_numero (respostas k) with
      | Some d => Some d
      | None => primeira_com_numero respostas n' (S k)
      end
  end.

(** The pages 1 to [k] of a query, one after the other. *)
Definition paginas (k limite : nat) (st : option Status) (t : Table)
  : list PedidoVendaRPS :=
  List.concat (map (fun p => select_page p limite st t) (seq 1 k)).

Definition env_exemplo : Credentials.Env :=
  {| Credentials.env_client_id := "env-id";
     Credentials.env_client_secret := "env-secret" |}.

Definition cred_exemplo : Credentials.Cred :=
  Credentials.construct env_exemplo
    (Some (Credentials.CfgJson
             {| Credentials.cj_client_id := Some "id-0";
                Credentials.cj_client_secret := Some "sec-0";
                Credentials.cj_initial_order_number := Some 100 |})).

Definition auth_exemplo : OAuth.Auth :=
  OAuth.saveState "nonce-1"
    {| OAuth.svc := {| TokenManager.tokens := None;
                       TokenManager.tokens_file := None |};
       OAuth.states := [] |}.

(** Attempts 1 and 2 fail, attempt 3 has number 000789. *)
Definition respostas_exemplo (k : nat) : Polling.Tentativa :=
  if (k <? 3)%nat then Polling.TentouNaoOk 404
  else Polling.TentouResposta
         (Some {| Polling.st_numero := Some "000789";
                  Polling.st_situacao := Some 1;
                  Polling.st_dataEmissao := None |}).

(** The answers for a duplicata whose contact exists, whose invoice is
    created with id 900 and whose send step times out. *)
Definition atendimento_exemplo (d : ContactResolver.Duplicata)
  : Duplicatas.Atendimento :=
  {| Duplicatas.at_token := Ok "at-1";
     Duplicatas.at_fetch :=
       ContactResolver.FetchResponse true 200
         (ContactResolver.BodyJson
            (Some [ {| ContactResolver.cr_id := 501;
                       ContactResolver.cr_nome := "Maria";
                       ContactResolver.cr_numeroDocumento :=
                         Some "123.456.789-01" |} ]));
     Duplicatas.at_criarContato := Throw (Error "must not be called");
     Duplicatas.at_detalhes := fun i =>
       Some {| c_id := i; c_nome := "Maria";
               c_numeroDocumento := Some "12345678901";
               c_cpfCnpj := None; c_email := None |};
     Duplicatas.at_emitir :=
       Ok (Some {| Duplicatas.em_id := Some 900;
                   Duplicatas.em_numeroRps := Some "170000000000017" |});
     Duplicatas.at_enviar := fun _ =>
       Throw (Error "Timeout: A API do Bling demorou mais de 120 segundos para responder. A NFSe foi emitida mas pode não ter sido enviada.") |}.

End Props2.
Import Props2.

(* ------------------------------------------------------------------ *)
(** ** Authenticated requests ([makeAuthenticatedRequest], [testConnection]) *)

Module Requisicao.

Import TokenManager.

(** What [JSON.parse(responseText)] gives. *)
Inductive Parsed : Type :=
| NotJson                              (* JSON.parse throws *)
| JsonNull                             (* the text is null *)
| JsonValue (data_length : option N).  (* any other value; the length of its
                                          [data] array when it has one *)

(** How the awaited [fetch] and [response.text()] end. *)
Inductive HttpReply : Type :=
| HttpRejected (msg : string)          (* network error *)
| HttpAnswer (ok : bool) (status : N) (responseText : string) (parsed : Parsed).

(** The value [makeAuthenticatedRequest] returns. *)
Inductive Value : Type :=
| Raw (responseText : string)          (* { raw: responseText } *)
| Null
| Obj (data_length : option N).

(** A request that left the service, with the bearer token it carried. *)
Inductive Fetch : Type :=
| FetchWith (endpoint : string) (accessToken : string).

(** [makeAuthenticatedRequest] *)
Definition makeAuthenticatedRequest (now : Z) (reply : TokenReply)
    (http : HttpReply) (endpoint : string) (s : Service)
  : Res Value * Service * list Fetch :=
  match ensureValidToken now reply s with
  | (Throw e, s', _) => (Throw e, s', [])
  | (Ok accessToken, s', _) =>
      let log := [FetchWith endpoint accessToken] in
      match http with
      | HttpRejected m => (Throw (Error m), s', log)
      | HttpAnswer ok status responseText parsed =>
          if negb ok then
            (Throw (BadRequestException
                      ("Erro na API Bling: " ++ String_of_N status ++ " - "
                       ++ responseText)), s', log)
          else
            match parsed with
            | NotJson => (Ok (Raw responseText), s', log)
            | JsonNull => (Ok Null, s', log)
            | JsonValue n => (Ok (Obj n), s', log)
            end
      end
  end.

Record Teste : Type := {
  t_success : bool;
  t_message : string
}.

(** [result.data?.length || 0]; reading [data] of [null] throws. *)
Definition contagem (result : Value) : Res N :=
  match result with
  | Raw _ => Ok 0%N
  | Null => Throw (Error "Cannot read properties of null (reading 'data')")
  | Obj (Some n) => Ok n
  | Obj None => Ok 0%N
  end.

(** [testConnection] *)
Definition testConnection (now : Z) (reply : TokenReply) (http : HttpReply)
    (s : Service) : Teste * Service * list Fetch :=
  let falha (e : Exn) : Teste :=
    {| t_success := false; t_message := "Falha na conexão: " ++ message e |} in
  match tokens s with
  | None =>
      ({| t_success := false;
          t_message := "Nenhum token de acesso disponível. Realize a autenticação OAuth primeiro." |},
       s, [])
  | Some _ =>
      match makeAuthenticatedRequest now reply http "/contatos?limite=1" s with
      | (Ok result, s', log) =>
          match contagem result with
          | Ok n =>
              ({| t_success := true;
                  t_message := "Conexão OK. API respondeu com " ++ String_of_N n
                               ++ " contatos." |}, s', log)
          | Throw e => (falha e, s', log)
          end
      | (Throw e, s', log) => (falha e, s', log)
      end
  end.

End Requisicao.

(* ------------------------------------------------------------------ *)
(** ** Further notions and examples *)

Module Props3.

Import BlingService.

(** The orders a generate run reports as 'sucesso'. *)
Definition pedidos_gerados (run : Res GerarRetorno * Sys) : list Z :=
  map res_pedidoId
      (filter (fun r => match res_status r with
                        | r_sucesso => true
                        | _ => false
                        end) (Props.resultados run)).

(** Order 10 as the order list of the frontend shows it. *)
Definition pedido_na_lista : PedidosVenda.PedidoVenda :=
  {| PedidosVenda.pv_id := 10; PedidosVenda.pv_numero := 42;
     PedidosVenda.pv_contato_nome := Some "Maria";
     PedidosVenda.pv_situacao := Some 9;
     PedidosVenda.pv_rpsStatus := None |}.

(** A service whose token expires at 7 200 000. *)
Definition servico_exemplo : TokenManager.Service :=
  {| TokenManager.tokens :=
       Some {| TokenManager.access_token := "abc";
               TokenManager.expires_in := 3600;
               TokenManager.token_type := "Bearer";
               TokenManager.scope := "";
               TokenManager.refresh_token := "def";
               TokenManager.expires_at := Some 7200000 |};
     TokenManager.tokens_file := None |}.

End Props3.

Import Props3.

(* ================================================================== *)
(** * Properties *)

(* ------------------------------------------------------------------ *)
(** ** TokenManager *)

Section TokenFacts.

Import TokenManager.

Variable now : Z.
Variable reply : TokenReply.


Lemma ensure_calls_refresh (s : Service) (tk : BlingTokens) :
  tokens s = Some tk ->
  now >= or_zero (expires_at tk) - 5 * 60 * 1000 ->
  snd (ensureValidToken now reply s) = [CallRefreshAccessToken].
Proof.
  intros Htk Hge. unfold ensureValidToken. rewrite Htk.
  replace (now >=? or_zero (expires_at tk) - 5 * 60 * 1000) with true
    by (symmetry; apply Z.geb_le; lia).
  destruct (refreshAccessToken reply s) as [[nt | e] s']; cbn.
  - destruct (tokens s'); reflexivity.
  - reflexivity.
Qed.

Lemma ensure_keeps_cached (s : Service) (tk : BlingTokens) :
  tokens s = Some tk ->
  now < or_zero (expires_at tk) - 5 * 60 * 1000 ->
  ensureValidToken now reply s = (Ok (access_token tk), s, []).
Proof.
  intros Htk Hlt. unfold ensureValidToken. rewrite Htk.
  replace (now >=? or_zero (expires_at tk) - 5 * 60 * 1000) with false.
  - reflexivity.
  - symmetry. rewrite Z.geb_leb. apply Z.leb_gt. lia.
Qed.

End TokenFacts.


Section RestartFacts.

Import TokenManager.



End RestartFacts.



(* ------------------------------------------------------------------ *)
(** ** ContactResolver *)

Section ContactFacts.

Import ContactResolver.

Lemma buscar_never_throws (token : Res string) (fetch : FetchOutcome) (cpf : string) :
  exists found, buscarContatoPorCPF token fetch cpf = Ok found.
Proof.
  unfold buscarContatoPorCPF.
  destruct token as [tk | e]; cbn.
  2: { destruct (is_abort e); eexists; reflexivity. }
  destruct fetch as [| m | ok st body]; cbn; try (eexists; reflexivity).
  destruct ok; cbn; [| eexists; reflexivity].
  destruct body as [m | [[| c l] |]]; cbn; try (eexists; reflexivity).
  destruct (cpf_bate cpf c); cbn; [eexists; reflexivity |].
  destruct (find (cpf_bate cpf) l); eexists; reflexivity.
Qed.

Lemma buscar_falha_null (token : Res string) (fetch : FetchOutcome) (cpf : string) :
  busca_falhou fetch = true ->
  buscarContatoPorCPF token fetch cpf = Ok None.
Proof.
  intros Hf. unfold buscarContatoPorCPF.
  destruct token as [tk | e]; cbn.
  2: { destruct (is_abort e); reflexivity. }
  destruct fetch as [| m | [|] st body]; cbn; try reflexivity.
  discriminate Hf.
Qed.

End ContactFacts.

(** C9. [buscarContatoPorCPF] never raises, whatever the token check and
    the fetch do; a timeout, a network error and a non-OK response all give
    [null], the value of "no exact match"; and after such a failed search
    [verificarOuCriarContato] goes on to create the contact: when the
    creation gives an id and the profile of that id is read, the order gets
    that profile. *)
Theorem buscarContatoPorCPF_never_raises :
  forall (token : Res string) (fetch : ContactResolver.FetchOutcome)
         (novoId : Z) (detalhes : Z -> option Contato) (dados : Contato)
         (duplicata : ContactResolver.Duplicata) (cpf : string),
    ContactResolver.dup_cpf duplicata = Some cpf ->
    so_digitos cpf <> "" ->
    busca_falhou fetch = true ->
    detalhes novoId = Some dados ->
    (forall token' fetch' cpf',
        is_ok (ContactResolver.buscarContatoPorCPF token' fetch' cpf') = true)
    /\ ContactResolver.buscarContatoPorCPF token fetch (so_digitos cpf) = Ok None
    /\ ContactResolver.buscarContatoPorCPF token
         (ContactResolver.FetchResponse true 200 (ContactResolver.BodyJson (Some [])))
         (so_digitos cpf) = Ok None
    /\ ContactResolver.verificarOuCriarContato token fetch (Ok novoId) detalhes duplicata
       = (Ok dados,
          [ContactResolver.StepBuscar (so_digitos cpf);
           ContactResolver.StepCriar;
           ContactResolver.StepDetalhes novoId]).
Proof.
  intros token fetch novoId detalhes dados duplicata cpf Hcpf Hne Hf Hd.
  split; [| split; [| split]].
  - intros token' fetch' cpf'.
    destruct (buscar_never_throws token' fetch' cpf') as [found ->]. reflexivity.
  - apply (buscar_falha_null token fetch (so_digitos cpf) Hf).
  - destruct token as [tk | e]; cbn; [reflexivity |].
    destruct (is_abort e); reflexivity.
  - unfold ContactResolver.verificarOuCriarContato. rewrite Hcpf.
    assert (Ht : truthy_str (so_digitos cpf) = true).
    { unfold truthy_str. apply negb_true_iff, String.eqb_neq, Hne. }
    rewrite Ht. cbn [negb].
    rewrite (buscar_falha_null token fetch (so_digitos cpf) Hf).
    rewrite Hd. reflexivity.
Qed.

(** The contact search fails on a timeout and the contact is created. *)
Lemma buscarContatoPorCPF_never_raises_witness :
  ContactResolver.verificarOuCriarContato (Ok "at-1") ContactResolver.FetchAborted
    (Ok 501)
    (fun i => Some {| c_id := i; c_nome := "Maria"; c_numeroDocumento := Some "12345678901";
                      c_cpfCnpj := None; c_email := None |})
    {| ContactResolver.dup_numero := "17"; ContactResolver.dup_nomeAluno := None;
       ContactResolver.dup_cpf := Some "123.456.789-01";
       ContactResolver.dup_rps := None |}
  = (Ok {| c_id := 501; c_nome := "Maria"; c_numeroDocumento := Some "12345678901";
           c_cpfCnpj := None; c_email := None |},
     [ContactResolver.StepBuscar "12345678901"; ContactResolver.StepCriar;
      ContactResolver.StepDetalhes 501]).
Proof.
  refine (proj2 (proj2 (proj2
    (@buscarContatoPorCPF_never_raises (Ok "at-1") ContactResolver.FetchAborted 501
       (fun i => Some {| c_id := i; c_nome := "Maria";
                         c_numeroDocumento := Some "12345678901";
                         c_cpfCnpj := None; c_email := None |})
       _ _ "123.456.789-01" _ _ _ _)))).
  - reflexivity.
  - vm_compute. discriminate.
  - reflexivity.
  - reflexivity.
Defined.

(* ------------------------------------------------------------------ *)
(** ** The RPS number *)

Section StringFacts.













End StringFacts.

Section RpsNumberFacts.

Import BlingService ContactResolver.





End RpsNumberFacts.



Example numeroRPS_42 :
  BlingService.gerarNumeroRPS 42 (1 # 8) = "42125000"
  /\ BlingService.gerarNumeroRPS 42 (1 # 1000) = "42001000"
  /\ BlingService.gerarNumeroRPS 12345678 (1 # 3) = "12345678".
Proof. repeat split; vm_compute; reflexivity. Qed.


(* ------------------------------------------------------------------ *)
(** ** The table and its invariant *)

Section TableFacts.

Lemma find_none_app {A : Type} (f : A -> bool) (l : list A) (x : A) :
  find f l = None -> find f (l ++ [x]) = if f x then Some x else None.
Proof.
  induction l as [| a l IH]; cbn; [reflexivity |].
  destruct (f a); [discriminate | exact IH].
Qed.

Lemma find_by_pedido_none (pid : Z) (t : Table) :
  find_by_pedido pid t = None -> ~ In pid (map pedidoVendaId (rows t)).
Proof.
  unfold find_by_pedido. intros Hnone Hin.
  apply in_map_iff in Hin. destruct Hin as [r [Hr Hin]].
  pose proof (find_none _ _ Hnone r Hin) as H. cbn in H.
  apply Z.eqb_neq in H. contradiction.
Qed.

Lemma id_apply_patch (p : Patch) (r : PedidoVendaRPS) :
  id (apply_patch p r) = id r.
Proof. reflexivity. Qed.

Lemma map_update {B : Type} (f : PedidoVendaRPS -> B) (i : Z) (p : Patch) (t : Table) :
  (forall r, f (apply_patch p r) = f r) ->
  map f (rows (update i p t)) = map f (rows t).
Proof.
  intros Hf. unfold update. cbn. rewrite map_map. apply map_ext.
  intros r. destruct (id r =? i); [apply Hf | reflexivity].
Qed.

Lemma find_by_id_update (i : Z) (p : Patch) (t : Table) :
  find_by_id i (update i p t) = option_map (apply_patch p) (find_by_id i t).
Proof.
  unfold find_by_id, update. cbn.
  induction (rows t) as [| r l IH]; cbn; [reflexivity |].
  destruct (id r =? i) eqn:E; cbn.
  - rewrite E. reflexivity.
  - rewrite E. exact IH.
Qed.

Lemma unico_insert (d : CreateRpsDto) (t : Table) :
  unico t -> unico (snd (insert d t)).
Proof.
  unfold unico, insert. intros H.
  destruct (find_by_pedido (dto_pedidoVendaId d) t) eqn:E; cbn; [exact H |].
  rewrite map_app. cbn.
  apply NoDup_app; [exact H | constructor; [intros [] | constructor] |].
  intros x Hx [<- | []]. revert Hx. apply find_by_pedido_none, E.
Qed.


Lemma wf_insert (d : CreateRpsDto) (t : Table) :
  wf t -> wf (snd (insert d t)).
Proof.
  intros [Hp [Hi Hlt]]. split; [apply unico_insert, Hp |].
  unfold insert.
  destruct (find_by_pedido (dto_pedidoVendaId d) t) eqn:E; cbn;
    [split; assumption |].
  split.
  - rewrite map_app. cbn.
    apply NoDup_app; [exact Hi | constructor; [intros [] | constructor] |].
    intros x Hx [<- | []]. apply in_map_iff in Hx.
    destruct Hx as [r [Hr Hin]].
    rewrite Forall_forall in Hlt. specialize (Hlt r Hin). lia.
  - apply Forall_app. split.
    + eapply Forall_impl; [| exact Hlt]. cbn. intros; lia.
    + constructor; [cbn; lia | constructor].
Qed.



End TableFacts.

(* ------------------------------------------------------------------ *)
(** ** What every computation of the service keeps and when it ends *)

Section Combinators.

Context {A B : Type}.


Lemma total_bind (m : M A) (k : A -> M B) :
  total m -> (forall a, total (k a)) -> total (bind m k).
Proof.
  intros Hm Hk s. destruct (Hm s) as [a [s' E]].
  unfold bind. rewrite E. apply Hk.
Qed.


Variable P : Table -> Prop.

Lemma preserves_ret (a : A) : preserves P (ret a).
Proof. intros s H. exact H. Qed.

Lemma preserves_throw (e : Exn) : preserves P (@throw A e).
Proof. intros s H. exact H. Qed.

Lemma preserves_request (q : Request) (o : Res A) : preserves P (request q o).
Proof. intros s H. exact H. Qed.

Lemma preserves_bind (m : M A) (k : A -> M B) :
  preserves P m -> (forall a, preserves P (k a)) -> preserves P (bind m k).
Proof.
  intros Hm Hk s H. unfold bind. specialize (Hm s H).
  destruct (m s) as [[a | e] s']; [apply Hk, Hm | exact Hm].
Qed.

Lemma preserves_try_catch (m : M A) (h : Exn -> M A) :
  preserves P m -> (forall e, preserves P (h e)) -> preserves P (try_catch m h).
Proof.
  intros Hm Hh s H. unfold try_catch. specialize (Hm s H).
  destruct (m s) as [[a | e] s']; [exact Hm | apply Hh, Hm].
Qed.

End Combinators.

Section Preservation.

Import RpsService BlingService.

Variable P : Table -> Prop.
Hypothesis P_insert : forall d t, P t -> P (snd (insert d t)).
Hypothesis P_update : forall i p t, P t -> P (update i p t).

Lemma preserves_criar (d : CreateRpsDto) : preserves P (criar d).
Proof.
  intros s H. unfold criar, try_catch, on_db, throw.
  specialize (P_insert d (db s) H).
  destruct (insert d (db s)) as [[r | e] t]; exact P_insert.
Qed.

Lemma preserves_atualizar (i : Z) (p : Patch) : preserves P (atualizar i p).
Proof. intros s H. cbn. apply P_update, H. Qed.

Lemma preserves_buscarPorPedidoId (i : Z) : preserves P (buscarPorPedidoId i).
Proof. intros s H. exact H. Qed.

Lemma preserves_buscarPorId (i : Z) : preserves P (buscarPorId i).
Proof. intros s H. exact H. Qed.

Lemma preserves_listarFila (a b : nat) (st : option Status) :
  preserves P (listarFila a b st).
Proof. intros s H. exact H. Qed.

Ltac pres :=
  repeat first
    [ solve [auto]
    | apply preserves_ret
    | apply preserves_throw
    | apply preserves_request
    | apply preserves_criar
    | apply preserves_atualizar
    | apply preserves_buscarPorPedidoId
    | apply preserves_buscarPorId
    | apply preserves_listarFila
    | apply preserves_try_catch
    | apply preserves_bind
    | match goal with
      | |- forall _, _ => intro
      | |- preserves _ (match ?x with _ => _ end) => destruct x
      end ].






Lemma preserves_verificarJaEmitida (W : World) (rpsId : Z) rps :
  preserves P (verificarJaEmitida W rpsId rps).
Proof. unfold verificarJaEmitida. pres. Qed.

Lemma preserves_enviarNFSeDoRps (W : World) (rpsId : Z) :
  preserves P (enviarNFSeDoRps W rpsId).
Proof.
  pose proof preserves_verificarJaEmitida.
  unfold enviarNFSeDoRps. pres.
Qed.

Lemma preserves_enviar_loop (W : World) (rpsIds : list Z) :
  forall resultados enviados,
    preserves P (enviar_loop W rpsIds resultados enviados).
Proof.
  pose proof preserves_enviarNFSeDoRps.
  induction rpsIds as [| i rest IH]; intros; cbn [enviar_loop]; pres.
Qed.

Lemma preserves_enviarNFSeParaPrefeitura (W : World) (rpsIds : list Z) :
  preserves P (enviarNFSeParaPrefeitura W rpsIds).
Proof.
  pose proof preserves_enviar_loop. unfold enviarNFSeParaPrefeitura. pres.
Qed.

Lemma preserves_sincronizarRps (W : World) (rps : PedidoVendaRPS) :
  preserves P (sincronizarRps W rps).
Proof. unfold sincronizarRps. pres. Qed.

Lemma preserves_sync_loop (W : World) (l : list PedidoVendaRPS) :
  forall atualizados corrigidos,
    preserves P (sync_loop W l atualizados corrigidos).
Proof.
  pose proof preserves_sincronizarRps.
  induction l as [| r rest IH]; intros; cbn [sync_loop]; pres.
Qed.

Lemma preserves_sincronizarStatusNFSe (W : World) :
  preserves P (sincronizarStatusNFSe W).
Proof.
  pose proof preserves_sync_loop. unfold sincronizarStatusNFSe. pres.
Qed.

End Preservation.

(* ------------------------------------------------------------------ *)
(** ** Generation, case by case *)

Section GerarFacts.

Import RpsService BlingService.

Variable W : World.


Lemma filtrarServicos_run (l : list Item) :
  forall s,
    filtrarServicos W l s
    = (Ok (servicosRetidos W l),
       {| db := db s; sent := sent s ++ pedidosDeProduto l |}).
Proof.
  induction l as [| item rest IH]; intros s; cbn [filtrarServicos servicosRetidos].
  - unfold ret, pedidosDeProduto. cbn. rewrite app_nil_r. destruct s; reflexivity.
  - unfold bind, try_catch, request. cbn.
    destruct (get_produto W (item_produto_id item)) as [produto | e]; cbn.
    + destruct (tipo produto =? "S")%string; cbn; rewrite IH; cbn;
        rewrite <- app_assoc; reflexivity.
    + rewrite IH. cbn. rewrite <- app_assoc. reflexivity.
Qed.

Lemma servicosRetidos_nil (l : list Item) :
  Forall (nao_e_servico W) l -> servicosRetidos W l = [].
Proof.
  induction 1 as [| item rest Hitem _ IH]; cbn; [reflexivity |].
  unfold nao_e_servico in Hitem.
  destruct (get_produto W (item_produto_id item)) as [produto | e]; [| exact IH].
  destruct (tipo produto =? "S")%string eqn:E; [| exact IH].
  apply String.eqb_eq in E. contradiction.
Qed.


Lemma gerar_consumidor_final (pedidoId : Z) (pedido : Pedido) (s : Sys) :
  get_pedido W pedidoId = Ok pedido ->
  isConsumidorFinal pedido = true ->
  gerarRPSParaPedido W pedidoId s
  = (Ok (ignorado pedidoId pedido
           "Pedido é consumidor final - RPS não será gerado" None, O),
     {| db := db s; sent := sent s ++ [GetPedido pedidoId] |}).
Proof.
  intros Hp Hc. unfold gerarRPSParaPedido, try_catch, bind, request.
  rewrite Hp, Hc. reflexivity.
Qed.


Lemma gerar_sem_servicos (pedidoId : Z) (pedido : Pedido) (cp : ContatoPedido) (s : Sys) :
  get_pedido W pedidoId = Ok pedido ->
  isConsumidorFinal pedido = false ->
  find_by_pedido pedidoId (db s) = None ->
  contato pedido = Some cp ->
  servicosRetidos W (itens pedido) = [] ->
  gerarRPSParaPedido W pedidoId s
  = (Ok (ignorado pedidoId pedido "Pedido não contém serviços" None, O),
     {| db := db s;
        sent := sent s ++ GetPedido pedidoId :: GetContato (cp_id cp)
                          :: pedidosDeProduto (itens pedido) |}).
Proof.
  intros Hp Hc Hf Hcp Hs.
  unfold gerarRPSParaPedido, try_catch, bind, request, buscarPorPedidoId.
  rewrite Hp, Hc. cbn. rewrite Hf, Hcp. cbn.
  rewrite filtrarServicos_run, Hs. cbn.
  repeat rewrite <- app_assoc. reflexivity.
Qed.

Lemma consumidor_final_contato (pedido : Pedido) :
  isConsumidorFinal pedido = false -> exists cp, contato pedido = Some cp.
Proof.
  unfold isConsumidorFinal. destruct (contato pedido) as [cp |];
    [exists cp; reflexivity | discriminate].
Qed.


End GerarFacts.

Section GerarBatchFacts.

Import RpsService BlingService.

Variable W : World.

Lemma gerar_um (pedidoId : Z) (s s' : Sys) (r : Resultado) (n : nat) :
  gerarRPSParaPedido W pedidoId s = (Ok (r, n), s') ->
  gerarRPSParaPedidos W [pedidoId] s
  = (Ok {| g_success := true; g_processados := n; g_total := 1;
           g_resultados := [r] |}, s').
Proof.
  intros E. unfold gerarRPSParaPedidos, bind. cbn [gerar_loop].
  unfold bind. rewrite E. reflexivity.
Qed.

Lemma isConsumidorFinal_iff (pedido : Pedido) :
  isConsumidorFinal pedido = true <-> sem_documento pedido.
Proof.
  unfold isConsumidorFinal, sem_documento.
  destruct (contato pedido) as [c |].
  2: { split; [intros _; left; reflexivity | reflexivity]. }
  destruct (cp_numeroDocumento c) as [d |] eqn:Hd.
  2: { split; [| reflexivity]. intros _. right. exists c.
       split; [reflexivity | left; exact Hd]. }
  assert (Hshort : truthy_str d = false -> (String.length (so_digitos d) < 11)%nat).
  { unfold truthy_str. intros H. apply negb_false_iff, String.eqb_eq in H.
    subst d. cbn. lia. }
  assert (Hempty : truthy_str (so_digitos d) = false ->
                   (String.length (so_digitos d) < 11)%nat).
  { unfold truthy_str. intros H. apply negb_false_iff, String.eqb_eq in H.
    rewrite H. cbn. lia. }
  split.
  - intros H. right. exists c. split; [reflexivity |]. right. exists d.
    split; [exact Hd |].
    destruct (truthy_str d) eqn:Ed; [| auto]. cbn [negb] in H.
    destruct (truthy_str (so_digitos d)) eqn:Es; [| auto]. cbn [negb orb] in H.
    destruct (String.length (so_digitos d) <? 11)%nat eqn:El; [| discriminate].
    apply Nat.ltb_lt, El.
  - intros [Hn | [c' [Hc [Hn | [d' [Hd' Hlt]]]]]]; try discriminate.
    + injection Hc as <-. congruence.
    + injection Hc as <-. rewrite Hd in Hd'. injection Hd' as <-.
      destruct (truthy_str d); [| reflexivity]. cbn [negb].
      apply Nat.ltb_lt in Hlt. rewrite Hlt, orb_true_r. reflexivity.
Qed.

End GerarBatchFacts.



(** C6. [isConsumidorFinal] is true exactly when the customer of the order
    is undetermined (no contact, no tax document, or fewer than 11 digits
    left in the document), and the generate operation then reports the
    order as 'ignorado', as consumer final, and writes nothing. *)
Theorem consumidor_final_ignorado :
  forall (W : World) (pedidoId : Z) (pedido : Pedido) (s : Sys),
    get_pedido W pedidoId = Ok pedido ->
    (BlingService.isConsumidorFinal pedido = true <-> sem_documento pedido)
    /\ (sem_documento pedido ->
        let run := BlingService.gerarRPSParaPedidos W [pedidoId] s in
        resumo run
        = [(pedidoId, BlingService.r_ignorado,
            "Pedido é consumidor final - RPS não será gerado")]
        /\ db (snd run) = db s).
Proof.
  intros W pedidoId pedido s Hp.
  split; [apply isConsumidorFinal_iff |].
  intros Hsem. apply isConsumidorFinal_iff in Hsem.
  cbn zeta.
  rewrite (gerar_um W pedidoId s _ _ _
             (gerar_consumidor_final W pedidoId pedido s Hp Hsem)).
  split; reflexivity.
Qed.

(** An order whose document has 9 digits is ignored as consumer final. *)
Lemma consumidor_final_ignorado_witness :
  resumo (BlingService.gerarRPSParaPedidos
            (Exemplos.mundo_pedido (Some "123.456.789") (Some 9)
               [Exemplos.item_exemplo 1])
            [10] Exemplos.inicio)
  = [(10, BlingService.r_ignorado,
      "Pedido é consumidor final - RPS não será gerado")]
  /\ db (snd (BlingService.gerarRPSParaPedidos
                (Exemplos.mundo_pedido (Some "123.456.789") (Some 9)
                   [Exemplos.item_exemplo 1])
                [10] Exemplos.inicio))
     = db Exemplos.inicio.
Proof.
  refine (proj2 (@consumidor_final_ignorado
                   (Exemplos.mundo_pedido (Some "123.456.789") (Some 9)
                      [Exemplos.item_exemplo 1])
                   10 _ Exemplos.inicio eq_refl) _).
  right. eexists. split; [reflexivity |]. right. eexists.
  split; [reflexivity |]. vm_compute. lia.
Defined.

(** C7. An order that is fetched, is not consumer final and has no row yet,
    and none of whose items has a product of type 'S' (its fetch failed or
    it has another type), is reported 'ignorado' with the message
    'Pedido não contém serviços', not 'erro', and no row is inserted. *)
Theorem sem_servicos_ignorado :
  forall (W : World) (pedidoId : Z) (pedido : Pedido) (s : Sys),
    get_pedido W pedidoId = Ok pedido ->
    BlingService.isConsumidorFinal pedido = false ->
    find_by_pedido pedidoId (db s) = None ->
    Forall (nao_e_servico W) (itens pedido) ->
    let run := BlingService.gerarRPSParaPedidos W [pedidoId] s in
    resumo run
    = [(pedidoId, BlingService.r_ignorado, "Pedido não contém serviços")]
    /\ db (snd run) = db s.
Proof.
  intros W pedidoId pedido s Hp Hc Hf Hitens. cbn zeta.
  destruct (consumidor_final_contato pedido Hc) as [cp Hcp].
  rewrite (gerar_um W pedidoId s _ _ _
             (gerar_sem_servicos W pedidoId pedido cp s Hp Hc Hf Hcp
                (servicosRetidos_nil W (itens pedido) Hitens))).
  split; reflexivity.
Qed.

(** An order with one item of goods and one item whose product cannot be
    fetched is ignored for want of services. *)
Lemma sem_servicos_ignorado_witness :
  resumo (BlingService.gerarRPSParaPedidos
            (Exemplos.mundo_pedido (Some "123.456.789-01") (Some 9)
               [Exemplos.item_exemplo 2; Exemplos.item_exemplo 3])
            [10] Exemplos.inicio)
  = [(10, BlingService.r_ignorado, "Pedido não contém serviços")]
  /\ db (snd (BlingService.gerarRPSParaPedidos
                (Exemplos.mundo_pedido (Some "123.456.789-01") (Some 9)
                   [Exemplos.item_exemplo 2; Exemplos.item_exemplo 3])
                [10] Exemplos.inicio))
     = db Exemplos.inicio.
Proof.
  refine (@sem_servicos_ignorado
            (Exemplos.mundo_pedido (Some "123.456.789-01") (Some 9)
               [Exemplos.item_exemplo 2; Exemplos.item_exemplo 3])
            10 _ Exemplos.inicio eq_refl _ _ _).
  - vm_compute. reflexivity.
  - reflexivity.
  - repeat constructor. cbn. discriminate.
Defined.

Section SituacaoFacts.

Import RpsService BlingService PedidosVenda.

Variable W : World.
Variable f : Z -> option Z.

Lemma filtrarServicos_com_situacao (l : list Item) :
  filtrarServicos (com_situacao f W) l = filtrarServicos W l.
Proof.
  induction l as [| item rest IH]; cbn [filtrarServicos]; [reflexivity |].
  rewrite IH. reflexivity.
Qed.

Lemma gerarRPSParaPedido_com_situacao (pedidoId : Z) (s : Sys) :
  gerarRPSParaPedido (com_situacao f W) pedidoId s
  = gerarRPSParaPedido W pedidoId s.
Proof.
  unfold gerarRPSParaPedido, try_catch, bind, request. cbn [get_pedido com_situacao].
  destruct (get_pedido W pedidoId) as [[num ct sit vend its] | e]; [| reflexivity].
  cbn. rewrite filtrarServicos_com_situacao. reflexivity.
Qed.

Lemma gerar_loop_com_situacao (ids : list Z) :
  forall acc n s,
    gerar_loop (com_situacao f W) ids acc n s = gerar_loop W ids acc n s.
Proof.
  induction ids as [| i rest IH]; intros acc n s; cbn [gerar_loop]; [reflexivity |].
  unfold bind. rewrite gerarRPSParaPedido_com_situacao.
  destruct (gerarRPSParaPedido W i s) as [[step | e] s']; [apply IH | reflexivity].
Qed.

Lemma filtrarPedidos_sem_cancelados (numeroInicial : option Z) (data : list PedidoVenda) :
  Forall (fun p => pv_situacao p <> Some SITUACAO_CANCELADO)
         (filtrarPedidos numeroInicial data).
Proof.
  unfold filtrarPedidos. apply Forall_forall. intros p Hin.
  apply filter_In in Hin. destruct Hin as [_ Hc].
  intros Hs. rewrite Hs in Hc. cbn in Hc. discriminate.
Qed.

Lemma cancelado_nao_selecionavel (p : PedidoVenda) :
  isSelectable p && cancelado (pv_situacao p) = false.
Proof.
  unfold isSelectable. destruct (pv_rpsStatus p); [reflexivity |].
  destruct (cancelado (pv_situacao p)); [reflexivity | apply andb_false_r].
Qed.

End SituacaoFacts.

(** C3, as the code has it.  The generate operation of the backend does not
    read the situation of an order: whatever situation the ERP reports, the
    batch returns the same entries and writes the same rows.  Cancelled
    orders (situation 2) are kept out upstream by the order list of the
    frontend: its filter drops them, they cannot be selected, and they are
    never among the ids of "select all". *)
Theorem gerar_nao_le_situacao :
  forall (W : World) (f : Z -> option Z) (pedidoIds : list Z) (s : Sys)
         (numeroInicial : option Z) (data : list PedidosVenda.PedidoVenda)
         (p : PedidosVenda.PedidoVenda),
    BlingService.gerarRPSParaPedidos (com_situacao f W) pedidoIds s
    = BlingService.gerarRPSParaPedidos W pedidoIds s
    /\ Forall (fun q => PedidosVenda.pv_situacao q
                        <> Some PedidosVenda.SITUACAO_CANCELADO)
              (PedidosVenda.filtrarPedidos numeroInicial data)
    /\ PedidosVenda.isSelectable p
       && PedidosVenda.cancelado (PedidosVenda.pv_situacao p) = false
    /\ Forall (fun q => PedidosVenda.cancelado (PedidosVenda.pv_situacao q) = false)
              (filter PedidosVenda.isSelectable data).
Proof.
  intros W f pedidoIds s numeroInicial data p.
  split; [| split; [| split]].
  - unfold BlingService.gerarRPSParaPedidos, bind.
    rewrite gerar_loop_com_situacao. reflexivity.
  - apply filtrarPedidos_sem_cancelados.
  - apply cancelado_nao_selecionavel.
  - apply Forall_forall. intros q Hq. apply filter_In in Hq.
    destruct Hq as [_ Hq].
    pose proof (cancelado_nao_selecionavel q) as H. rewrite Hq in H. exact H.
Qed.

(** C3 as stated fails: a cancelled order (situation 2) of a customer with
    a CPF and with a service line is generated, not ignored. *)
Lemma gerar_cancelado_counterexample :
  resumo (BlingService.gerarRPSParaPedidos
            (Exemplos.mundo_pedido (Some "123.456.789-01")
               (Some PedidosVenda.SITUACAO_CANCELADO) [Exemplos.item_exemplo 1])
            [10] Exemplos.inicio)
  = [(10, BlingService.r_sucesso, "RPS gerado com sucesso")].
Proof. vm_compute. reflexivity. Qed.

(* ------------------------------------------------------------------ *)
(** ** Submission *)

Section EnvioFacts.

Import RpsService BlingService.

Variable W : World.

Lemma enviar_um (rpsId : Z) (s s' : Sys) (r : ResultadoEnvio) (n : nat) :
  enviarNFSeDoRps W rpsId s = (Ok (r, n), s') ->
  enviarNFSeParaPrefeitura W [rpsId] s
  = (Ok {| e_success := true; e_enviados := n; e_total := 1;
           e_resultados := [r] |}, s').
Proof.
  intros E. unfold enviarNFSeParaPrefeitura, bind. cbn [enviar_loop].
  unfold bind. rewrite E. reflexivity.
Qed.

Lemma enviar_falha_run (rpsId : Z) (s : Sys) (rps : PedidoVendaRPS) (nid : Z)
    (error : Exn) :
  find_by_id rpsId (db s) = Some rps ->
  nfseId rps = Some nid ->
  post_enviar W nid = Throw error ->
  enviarNFSeDoRps W rpsId s
  = if leitura_emitida W nid
    then (Ok ({| env_rpsId := rpsId; env_status := r_sucesso;
                 env_numeroNFSe := numero_lido W nid;
                 env_mensagem := "NFSe já estava emitida no Bling" |}, 1%nat),
          {| db := update rpsId (patch_recuperado W nid)
                     (update rpsId (so_status processando) (db s));
             sent := sent s ++ [PostEnviar nid; GetNfse nid] |})
    else (Ok (erro_envio rpsId (message error), O),
          {| db := update rpsId (patch_erro error)
                     (update rpsId (so_status processando) (db s));
             sent := sent s ++ [PostEnviar nid; GetNfse nid] |}).
Proof.
  intros Hf Hn He.
  unfold enviarNFSeDoRps, bind, try_catch, buscarPorId, atualizar, on_db, request.
  cbn. rewrite Hf, Hn. cbn. rewrite He. cbn.
  unfold verificarJaEmitida, try_catch, bind, request, atualizar, on_db.
  rewrite Hn. cbn.
  unfold leitura_emitida, numero_lido, patch_recuperado, numero_lido.
  destruct (get_nfse W nid) as [[nfse |] | e']; cbn.
  - match goal with
    | |- context [if ?b then _ else _] => destruct b
    end; cbn; rewrite <- app_assoc; reflexivity.
  - rewrite <- app_assoc. reflexivity.
  - rewrite <- app_assoc. reflexivity.
Qed.

End EnvioFacts.



(* ------------------------------------------------------------------ *)
(** ** Reconciliation *)

Section SyncFacts.

Import RpsService BlingService.

Variable W : World.

Lemma in_firstn {A : Type} (n : nat) (l : list A) (x : A) :
  In x (firstn n l) -> In x l.
Proof.
  revert l. induction n as [| n IH]; intros [| a l]; cbn; try tauto.
  intros [-> | H]; [left; reflexivity | right; apply IH, H].
Qed.

Lemma in_skipn {A : Type} (n : nat) (l : list A) (x : A) :
  In x (skipn n l) -> In x l.
Proof.
  revert l. induction n as [| n IH]; intros [| a l]; cbn; try tauto.
  intros H. right. apply IH, H.
Qed.

Lemma status_eqb_eq (a b : Status) : status_eqb a b = true -> a = b.
Proof. destruct a, b; cbn; congruence. Qed.

Lemma in_select_page (pagina limite : nat) (st : Status) (t : Table)
    (r : PedidoVendaRPS) :
  In r (select_page pagina limite (Some st) t) ->
  In r (rows t) /\ status r = st.
Proof.
  unfold select_page. intros H.
  apply in_firstn, in_skipn, in_rev, filter_In in H.
  destruct H as [Hin Hst]. split; [exact Hin | apply status_eqb_eq, Hst].
Qed.

(** What the reconciler looks at is in the table, and is pendente,
    processando, or emitido without a number. *)
Lemma in_rpsParaVerificar (t : Table) (r : PedidoVendaRPS) :
  In r (rpsParaVerificar t) ->
  In r (rows t)
  /\ (status r = pendente \/ status r = processando
      \/ emitido_sem_numero r = true).
Proof.
  unfold rpsParaVerificar. cbn zeta. rewrite !in_app_iff, filter_In.
  intros [H | [H | [H Hn]]]; apply in_select_page in H; destruct H as [Hin Hst].
  - split; [exact Hin | left; exact Hst].
  - split; [exact Hin | right; left; exact Hst].
  - split; [exact Hin | right; right].
    unfold emitido_sem_numero. rewrite Hst, Hn. reflexivity.
Qed.

Lemma sincronizarRps_run (rps : PedidoVendaRPS) (s : Sys) :
  exists cnt snt,
    sincronizarRps W rps s
    = (Ok cnt, {| db := aplicar W rps (db s); sent := snt |}).
Proof.
  unfold sincronizarRps, aplicar, decisao.
  destruct (nfseId rps) as [nid |]; [| exists (O, O), (sent s); destruct s; reflexivity].
  unfold try_catch, bind, request, atualizar, on_db. cbn.
  destruct (get_nfse W nid) as [[nfse |] | e]; cbn.
  - destruct (precisaAtualizar rps nfse); cbn.
    + destruct (emitido_sem_numero rps && truthy_ostr (nf_numero nfse));
        eexists; eexists; reflexivity.
    + eexists; eexists; reflexivity.
  - eexists; eexists; reflexivity.
  - destruct (emitido_sem_numero rps); cbn; eexists; eexists; reflexivity.
Qed.










End SyncFacts.

Section TransitionFacts.

Import BlingService.

Variable W : World.





End TransitionFacts.




(* ------------------------------------------------------------------ *)
(** ** Scenarios *)

(** Generating order 10 with no prior record: 'sucesso', one row inserted,
    pendente, with the RPS number and the invoice id the ERP returned. *)
Example cenario_gerar :
  resumo (BlingService.gerarRPSParaPedidos
            (Exemplos.mundo_fila Exemplos.sem_resposta Exemplos.sem_resposta)
            [10] Exemplos.inicio)
  = [(10, BlingService.r_sucesso, "RPS gerado com sucesso")]
  /\ map (fun r => (id r, pedidoVendaId r, status r, numeroRPS r, nfseId r))
         (rows (db Exemplos.fila_pendente))
     = [(1, 10, pendente, Some "42125000", Some 77)].
Proof. split; vm_compute; reflexivity. Qed.

(** A pass that finds the pendente record issued remotely with number
    000456: the record becomes emitido with that number, one update. *)
Example cenario_sincronizar_emitida :
  fst (BlingService.sincronizarStatusNFSe Exemplos.mundo_emitida
         Exemplos.fila_pendente)
  = Ok {| BlingService.sy_success := true; BlingService.sy_verificados := 1;
          BlingService.sy_atualizados := 1; BlingService.sy_corrigidos := 0 |}
  /\ map (fun r => (status r, numeroNFSe r))
         (rows (db (snd (BlingService.sincronizarStatusNFSe Exemplos.mundo_emitida
                           Exemplos.fila_pendente))))
     = [(emitido, Some "000456")].
Proof. split; vm_compute; reflexivity. Qed.

(** A pass whose lookup fails on a record emitido without a number: the
    record goes back to pendente with the diagnostic message. *)
Example cenario_sincronizar_reset :
  map (fun r => (status r, numeroNFSe r))
      (rows (db Exemplos.fila_emitido_sem_numero))
  = [(emitido, None)]
  /\ map (fun r => (status r, mensagemErro r))
         (rows (db (snd (BlingService.sincronizarStatusNFSe
                           (Exemplos.mundo_fila Exemplos.sem_resposta
                              Exemplos.sem_resposta)
                           Exemplos.fila_emitido_sem_numero))))
     = [(pendente, Some "NFSe não encontrada no Bling - status resetado")].
Proof. split; vm_compute; reflexivity. Qed.

(* ================================================================== *)
(** * Further properties of the code *)

(* ------------------------------------------------------------------ *)
(** ** The OAuth exchange and the token status *)

Section OAuthFacts.

Import TokenManager OAuth.

Lemma set_has_delete (x : string) (l : list string) :
  set_has x (set_delete x l) = false.
Proof.
  unfold set_has, set_delete. induction l as [| y l IH]; cbn; [reflexivity |].
  destruct (String.eqb x y) eqn:E; cbn; [exact IH |].
  rewrite E. exact IH.
Qed.

Lemma exchange_without_state (code state : string) (reply : TokenReply) (a : Auth) :
  set_has state (states a) = false ->
  exchangeCodeForTokens code state reply a
  = (Throw (BadRequestException "State inválido - possível ataque CSRF"), a, O).
Proof.
  intros H. unfold exchangeCodeForTokens, verifyState. rewrite H. reflexivity.
Qed.

Lemma exchange_states (code state : string) (reply : TokenReply) (a : Auth) :
  set_has state (states a) = true ->
  states (snd (fst (exchangeCodeForTokens code state reply a)))
  = set_delete state (states a)
  /\ snd (exchangeCodeForTokens code state reply a) = 1%nat.
Proof.
  intros H. unfold exchangeCodeForTokens, verifyState. rewrite H. cbn.
  destruct reply; split; reflexivity.
Qed.

Lemma restart_restores (now e : Z) (tk : BlingTokens) :
  0 <= now -> now < e -> expires_at tk = Some e ->
  construct now (Some (Json tk))
  = {| tokens := Some tk; tokens_file := Some (Json tk) |}.
Proof.
  intros H0 Hlt He. unfold construct, loadTokens. cbn. rewrite He. cbn.
  replace (e =? 0) with false by (symmetry; apply Z.eqb_neq; lia).
  replace (now <? e) with true by (symmetry; apply Z.ltb_lt; lia).
  reflexivity.
Qed.

End OAuthFacts.

(** X1. A nonce of the OAuth flow is single use: an exchange with a state
    that is not in the set is rejected as a CSRF attempt without any request
    and without any change; an exchange with a state of the set takes it out
    before the request, so that, whatever the token endpoint answered
    (error and timeout included), a second exchange with the same state is
    rejected. *)
Theorem exchange_state_single_use :
  forall (code code' state : string) (reply reply' : TokenManager.TokenReply)
         (a : OAuth.Auth),
    let first := OAuth.exchangeCodeForTokens code state reply a in
    let a1 := snd (fst first) in
    (if OAuth.set_has state (OAuth.states a)
     then snd first = 1%nat
          /\ OAuth.states a1 = OAuth.set_delete state (OAuth.states a)
     else first
          = (Throw (BadRequestException "State inválido - possível ataque CSRF"),
             a, O))
    /\ OAuth.exchangeCodeForTokens code' state reply' a1
       = (Throw (BadRequestException "State inválido - possível ataque CSRF"),
          a1, O).
Proof.
  intros code code' state reply reply' a first a1.
  destruct (OAuth.set_has state (OAuth.states a)) eqn:H.
  - destruct (exchange_states code state reply a H) as [Hs Hn].
    split; [split; [exact Hn | exact Hs] |].
    apply exchange_without_state. unfold a1, first. rewrite Hs.
    apply set_has_delete.
  - pose proof (exchange_without_state code state reply a H) as E.
    split; [exact E |].
    apply exchange_without_state. unfold a1, first. rewrite E. exact H.
Qed.

(** X2. The tokens a successful exchange or a successful refresh stores are
    the ones a restart finds: constructing the service over the tokens file
    at any time before [expires_at = received + expires_in * 1000] restores
    exactly the service the exchange (the refresh) left. *)
Theorem tokens_survive_restart :
  forall (code state : string) (t : TokenManager.BlingTokens)
         (received_at now : Z) (a : OAuth.Auth) (s : TokenManager.Service)
         (held : TokenManager.BlingTokens),
    OAuth.set_has state (OAuth.states a) = true ->
    TokenManager.tokens s = Some held ->
    TokenManager.refresh_token held <> "" ->
    0 <= now ->
    now < received_at + TokenManager.expires_in t * 1000 ->
    let reply := TokenManager.ReplyTokens t received_at in
    let a1 := snd (fst (OAuth.exchangeCodeForTokens code state reply a)) in
    let s1 := snd (TokenManager.refreshAccessToken reply s) in
    let stored :=
      TokenManager.with_expires_at t
        (received_at + TokenManager.expires_in t * 1000) in
    TokenManager.tokens (OAuth.svc a1) = Some stored
    /\ TokenManager.construct now (TokenManager.tokens_file (OAuth.svc a1))
       = OAuth.svc a1
    /\ TokenManager.tokens s1 = Some stored
    /\ TokenManager.construct now (TokenManager.tokens_file s1) = s1.
Proof.
  intros code state t received_at now a s held Hst Hheld Hrt H0 Hlt.
  cbn zeta.
  assert (Hr : TokenManager.construct now
                 (Some (TokenManager.Json
                          (TokenManager.with_expires_at t
                             (received_at + TokenManager.expires_in t * 1000))))
               = {| TokenManager.tokens :=
                      Some (TokenManager.with_expires_at t
                              (received_at + TokenManager.expires_in t * 1000));
                    TokenManager.tokens_file :=
                      Some (TokenManager.Json
                              (TokenManager.with_expires_at t
                                 (received_at + TokenManager.expires_in t * 1000))) |}).
  { apply (restart_restores now
             (received_at + TokenManager.expires_in t * 1000)); auto. }
  split; [| split; [| split]].
  - unfold OAuth.exchangeCodeForTokens, OAuth.verifyState. rewrite Hst. reflexivity.
  - unfold OAuth.exchangeCodeForTokens, OAuth.verifyState. rewrite Hst. cbn.
    exact Hr.
  - unfold TokenManager.refreshAccessToken. rewrite Hheld.
    assert (Ht : truthy_str (TokenManager.refresh_token held) = true).
    { unfold truthy_str. apply negb_true_iff, String.eqb_neq, Hrt. }
    rewrite Ht. reflexivity.
  - unfold TokenManager.refreshAccessToken. rewrite Hheld.
    assert (Ht : truthy_str (TokenManager.refresh_token held) = true).
    { unfold truthy_str. apply negb_true_iff, String.eqb_neq, Hrt. }
    rewrite Ht. cbn. exact Hr.
Qed.

(** Tokens of six hours obtained at 1700000000500 survive a restart one
    hour later. *)
Lemma tokens_survive_restart_witness :
  TokenManager.construct 1700003600000
    (TokenManager.tokens_file
       (OAuth.svc
          (snd (fst (OAuth.exchangeCodeForTokens "code" "nonce-1"
                       Exemplos.reply_exemplo Props2.auth_exemplo)))))
  = OAuth.svc
      (snd (fst (OAuth.exchangeCodeForTokens "code" "nonce-1"
                   Exemplos.reply_exemplo Props2.auth_exemplo))).
Proof.
  refine (proj1 (proj2
    (@tokens_survive_restart "code" "nonce-1" (Exemplos.tokens_exemplo None)
       1700000000500 1700003600000 Props2.auth_exemplo
       {| TokenManager.tokens := Some (Exemplos.tokens_exemplo None);
          TokenManager.tokens_file := None |}
       (Exemplos.tokens_exemplo None) _ _ _ _ _))).
  - reflexivity.
  - reflexivity.
  - discriminate.
  - lia.
  - cbn. lia.
Defined.

Section RefreshFacts.

Import TokenManager.

Lemma refresh_ok (t held : BlingTokens) (received_at : Z) (s : Service) :
  tokens s = Some held ->
  refresh_token held <> "" ->
  refreshAccessToken (ReplyTokens t received_at) s
  = (Ok (with_expires_at t (received_at + expires_in t * 1000)),
     {| tokens := Some (with_expires_at t (received_at + expires_in t * 1000));
        tokens_file :=
          Some (Json (with_expires_at t (received_at + expires_in t * 1000))) |}).
Proof.
  intros Hheld Hrt. unfold refreshAccessToken. rewrite Hheld.
  assert (Ht : truthy_str (refresh_token held) = true).
  { unfold truthy_str. apply negb_true_iff, String.eqb_neq, Hrt. }
  rewrite Ht. reflexivity.
Qed.

Lemma refresh_failed_keeps (reply : TokenReply) (s : Service) :
  is_ok (fst (refreshAccessToken reply s)) = false ->
  snd (refreshAccessToken reply s) = s.
Proof.
  unfold refreshAccessToken.
  destruct (negb match tokens s with
                 | Some t => truthy_str (refresh_token t)
                 | None => false
                 end); [reflexivity |].
  destruct reply; cbn; try reflexivity. discriminate.
Qed.

End RefreshFacts.

(** X3. When the held token is within five minutes of its expiry and the
    token endpoint answers with new tokens, [ensureValidToken] returns the
    new access token, not the cached one, and stores the new tokens in
    memory and in the file; the next call returns the same token from
    memory, without a refresh, as long as it comes earlier than five
    minutes before the new expiry. *)
Theorem ensureValidToken_serves_refreshed :
  forall (now now' received_at : Z) (t held : TokenManager.BlingTokens)
         (file : option TokenManager.FileContent)
         (reply' : TokenManager.TokenReply),
    TokenManager.refresh_token held <> "" ->
    now >= or_zero (TokenManager.expires_at held) - 5 * 60 * 1000 ->
    now' < received_at + TokenManager.expires_in t * 1000 - 5 * 60 * 1000 ->
    let s := {| TokenManager.tokens := Some held;
                TokenManager.tokens_file := file |} in
    let stored :=
      TokenManager.with_expires_at t
        (received_at + TokenManager.expires_in t * 1000) in
    let s1 := {| TokenManager.tokens := Some stored;
                 TokenManager.tokens_file := Some (TokenManager.Json stored) |} in
    TokenManager.ensureValidToken now (TokenManager.ReplyTokens t received_at) s
    = (Ok (TokenManager.access_token t), s1,
       [TokenManager.CallRefreshAccessToken])
    /\ TokenManager.ensureValidToken now' reply' s1
       = (Ok (TokenManager.access_token t), s1, []).
Proof.
  intros now now' received_at t held file reply' Hrt Hge Hlt. cbn zeta. split.
  - unfold TokenManager.ensureValidToken. cbn [TokenManager.tokens].
    replace (now >=? or_zero (TokenManager.expires_at held) - 5 * 60 * 1000)
      with true by (symmetry; apply Z.geb_le; lia).
    rewrite (refresh_ok t held received_at
               {| TokenManager.tokens := Some held;
                  TokenManager.tokens_file := file |} eq_refl Hrt).
    reflexivity.
  - apply (ensure_keeps_cached now' reply'
             {| TokenManager.tokens :=
                  Some (TokenManager.with_expires_at t
                          (received_at + TokenManager.expires_in t * 1000));
                TokenManager.tokens_file :=
                  Some (TokenManager.Json
                          (TokenManager.with_expires_at t
                             (received_at + TokenManager.expires_in t * 1000))) |}
             _ eq_refl).
    cbn. lia.
Qed.

(** A token about to expire is refreshed and the new one is served again
    a minute later. *)
Lemma ensureValidToken_serves_refreshed_witness :
  TokenManager.ensureValidToken 1700000060000 TokenManager.ReplyAbort
    {| TokenManager.tokens :=
         Some (TokenManager.with_expires_at (Exemplos.tokens_exemplo None)
                 (1700000000500 + 21600 * 1000));
       TokenManager.tokens_file :=
         Some (TokenManager.Json
                 (TokenManager.with_expires_at (Exemplos.tokens_exemplo None)
                    (1700000000500 + 21600 * 1000))) |}
  = (Ok "at-1",
     {| TokenManager.tokens :=
          Some (TokenManager.with_expires_at (Exemplos.tokens_exemplo None)
                  (1700000000500 + 21600 * 1000));
        TokenManager.tokens_file :=
          Some (TokenManager.Json
                  (TokenManager.with_expires_at (Exemplos.tokens_exemplo None)
                     (1700000000500 + 21600 * 1000))) |}, []).
Proof.
  refine (proj2
    (@ensureValidToken_serves_refreshed 1700000000000 1700000060000 1700000000500
       (Exemplos.tokens_exemplo None)
       (Exemplos.tokens_exemplo (Some 1700000100000)) None
       TokenManager.ReplyAbort _ _ _)).
  - discriminate.
  - cbn. lia.
  - cbn. lia.
Defined.

(** X4. A refresh that does not succeed (no refresh token, a non-OK answer,
    a timeout, a network error) changes neither the tokens in memory nor
    the tokens file; [ensureValidToken] then raises and leaves the service
    as it was, so the old tokens stay in place for the next attempt. *)
Theorem failed_refresh_keeps_tokens :
  forall (now : Z) (reply : TokenManager.TokenReply) (s : TokenManager.Service),
    is_ok (fst (TokenManager.refreshAccessToken reply s)) = false ->
    snd (TokenManager.refreshAccessToken reply s) = s
    /\ (snd (TokenManager.ensureValidToken now reply s) <> [] ->
        is_ok (fst (fst (TokenManager.ensureValidToken now reply s))) = false
        /\ snd (fst (TokenManager.ensureValidToken now reply s)) = s).
Proof.
  intros now reply s Hfail.
  pose proof (refresh_failed_keeps reply s Hfail) as Hkeep.
  split; [exact Hkeep |].
  unfold TokenManager.ensureValidToken.
  destruct (TokenManager.tokens s) as [tk |]; [| intros H; contradiction H; reflexivity].
  destruct (now >=? or_zero (TokenManager.expires_at tk) - 5 * 60 * 1000);
    [| intros H; contradiction H; reflexivity].
  destruct (TokenManager.refreshAccessToken reply s) as [[nt | e] s'];
    cbn in *; [discriminate |].
  intros _. split; [reflexivity | exact Hkeep].
Qed.

(** An expired token and a token endpoint that times out. *)
Lemma failed_refresh_keeps_tokens_witness :
  snd (fst (TokenManager.ensureValidToken 1700000200000 TokenManager.ReplyAbort
              {| TokenManager.tokens := Some (Exemplos.tokens_exemplo (Some 1700000100000));
                 TokenManager.tokens_file := None |}))
  = {| TokenManager.tokens := Some (Exemplos.tokens_exemplo (Some 1700000100000));
       TokenManager.tokens_file := None |}.
Proof.
  refine (proj2 (proj2
    (@failed_refresh_keeps_tokens 1700000200000 TokenManager.ReplyAbort
       {| TokenManager.tokens := Some (Exemplos.tokens_exemplo (Some 1700000100000));
          TokenManager.tokens_file := None |} _) _)).
  - reflexivity.
  - vm_compute. discriminate.
Defined.

(** X5. The status [getTokenInfo] reports agrees with what the service
    does: [is_expired] is the negation of [isActive] of the integration
    status, [expires_in] is never negative and is 0 once expired, and
    whenever [ensureValidToken] serves the cached token without a refresh
    the status says not expired with at least 300 seconds left. *)
Theorem getTokenInfo_consistent :
  forall (now : Z) (reply : TokenManager.TokenReply) (s : TokenManager.Service)
         (tk : TokenManager.BlingTokens) (info : OAuth.TokenInfo),
    TokenManager.tokens s = Some tk ->
    OAuth.getTokenInfo now s = Ok info ->
    OAuth.ti_is_expired info = negb (Credentials.isActive now s)
    /\ 0 <= OAuth.ti_expires_in info
    /\ (OAuth.ti_is_expired info = true -> OAuth.ti_expires_in info = 0)
    /\ (snd (TokenManager.ensureValidToken now reply s) = [] ->
        OAuth.ti_is_expired info = false /\ 300 <= OAuth.ti_expires_in info).
Proof.
  intros now reply s tk info Htk Hinfo.
  unfold OAuth.getTokenInfo in Hinfo. rewrite Htk in Hinfo.
  destruct (OAuth.data_valida (or_zero (TokenManager.expires_at tk)));
    [| discriminate].
  injection Hinfo as <-. cbn.
  unfold Credentials.isActive. rewrite Htk.
  set (e := or_zero (TokenManager.expires_at tk)).
  split; [| split; [| split]].
  - rewrite Z.geb_leb, Z.ltb_antisym. rewrite negb_involutive. reflexivity.
  - lia.
  - intros H. rewrite Z.geb_leb in H. apply Z.leb_le in H.
    assert ((e - now) / 1000 <= 0).
    { apply Z.div_le_upper_bound; lia. }
    lia.
  - intros Hno.
    destruct (Z_lt_ge_dec now (e - 5 * 60 * 1000)) as [Hlt | Hge].
    + split.
      * rewrite Z.geb_leb. apply Z.leb_gt. lia.
      * assert (300 <= (e - now) / 1000).
        { apply Z.div_le_lower_bound; lia. }
        lia.
    + rewrite (ensure_calls_refresh now reply s tk Htk Hge) in Hno. discriminate.
Qed.

(** A token with ten minutes left. *)
Lemma getTokenInfo_consistent_witness :
  OAuth.ti_is_expired
    {| OAuth.authenticated := true;
       OAuth.ti_token_type := Some "Bearer"; OAuth.ti_scope := Some "98309";
       OAuth.ti_expires_in := 600; OAuth.ti_is_expired := false;
       OAuth.ti_expires_at := Some 1700000600000 |}
  = negb (Credentials.isActive 1700000000000
            {| TokenManager.tokens := Some (Exemplos.tokens_exemplo (Some 1700000600000));
               TokenManager.tokens_file := None |}).
Proof.
  refine (proj1
    (@getTokenInfo_consistent 1700000000000 TokenManager.ReplyAbort
       {| TokenManager.tokens := Some (Exemplos.tokens_exemplo (Some 1700000600000));
          TokenManager.tokens_file := None |}
       (Exemplos.tokens_exemplo (Some 1700000600000)) _ eq_refl _)).
  vm_compute. reflexivity.
Defined.

(* ------------------------------------------------------------------ *)
(** ** The saved credentials *)

Section CredentialFacts.

Import Credentials.

Lemma truthy_str_ne (x : string) : x <> "" -> truthy_str x = true.
Proof. intros H. unfold truthy_str. apply negb_true_iff, String.eqb_neq, H. Qed.

Lemma saveCredentials_ok (clientId clientSecret : string) (s : Cred) :
  config_file s <> Some CfgGarbled ->
  saveCredentials clientId clientSecret s
  = (Ok tt,
     {| config := {| client_id := clientId; client_secret := clientSecret;
                     initial_order_number := initial_order_number (config s) |};
        config_file :=
          Some (CfgJson
                  {| cj_client_id := Some clientId;
                     cj_client_secret := Some clientSecret;
                     cj_initial_order_number :=
                       match config_file s with
                       | Some (CfgJson c) => cj_initial_order_number c
                       | _ => None
                       end |}) |}).
Proof.
  intros H. unfold saveCredentials.
  destruct (config_file s) as [[| c] |]; [contradiction H; reflexivity | |];
    reflexivity.
Qed.

End CredentialFacts.

(** X6. Credentials saved with [saveCredentials] are the ones a restart
    loads, whatever the environment holds: after the save, constructing the
    configuration over the file gives the saved client id and secret, and
    the initial order number the file already had is kept. *)
Theorem saveCredentials_roundtrip :
  forall (clientId clientSecret : string) (s : Credentials.Cred)
         (env : Credentials.Env),
    clientId <> "" -> clientSecret <> "" ->
    Credentials.config_file s <> Some Credentials.CfgGarbled ->
    let out := Credentials.saveCredentials clientId clientSecret s in
    let restarted := Credentials.construct env (Credentials.config_file (snd out)) in
    fst out = Ok tt
    /\ Credentials.config restarted
       = {| Credentials.client_id := clientId;
            Credentials.client_secret := clientSecret;
            Credentials.initial_order_number :=
              match Credentials.config_file s with
              | Some (Credentials.CfgJson c) => Credentials.cj_initial_order_number c
              | _ => None
              end |}
    /\ Credentials.config_file restarted = Credentials.config_file (snd out)
    /\ Credentials.configured restarted = true.
Proof.
  intros clientId clientSecret s env Hid Hsec Hfile. cbn zeta.
  rewrite (saveCredentials_ok clientId clientSecret s Hfile).
  unfold Credentials.construct, Credentials.loadCredentials,
    Credentials.configured. cbn.
  rewrite (truthy_str_ne clientId Hid), (truthy_str_ne clientSecret Hsec). cbn.
  rewrite (truthy_str_ne clientId Hid), (truthy_str_ne clientSecret Hsec).
  repeat split.
Qed.

(** New credentials saved over a file that had initial order number 100. *)
Lemma saveCredentials_roundtrip_witness :
  Credentials.config
    (Credentials.construct Props2.env_exemplo
       (Credentials.config_file
          (snd (Credentials.saveCredentials "id-1" "sec-1" Props2.cred_exemplo))))
  = {| Credentials.client_id := "id-1"; Credentials.client_secret := "sec-1";
       Credentials.initial_order_number := Some 100 |}.
Proof.
  refine (proj1 (proj2
    (@saveCredentials_roundtrip "id-1" "sec-1" Props2.cred_exemplo
       Props2.env_exemplo _ _ _))); discriminate.
Defined.

(** X7. Over a credentials file that cannot be parsed, [saveCredentials]
    raises 'Falha ao salvar credenciais' and leaves the file as it is, but
    the configuration in memory already carries the new client id and
    secret; a restart then reads nothing from the file and falls back to
    the environment. *)
Theorem saveCredentials_garbled_file :
  forall (clientId clientSecret : string) (s : Credentials.Cred)
         (env : Credentials.Env),
    Credentials.config_file s = Some Credentials.CfgGarbled ->
    let out := Credentials.saveCredentials clientId clientSecret s in
    fst out = Throw (Error "Falha ao salvar credenciais")
    /\ Credentials.config_file (snd out) = Credentials.config_file s
    /\ Credentials.client_id (Credentials.config (snd out)) = clientId
    /\ Credentials.client_secret (Credentials.config (snd out)) = clientSecret
    /\ Credentials.config
         (Credentials.construct env (Credentials.config_file (snd out)))
       = {| Credentials.client_id := Credentials.env_client_id env;
            Credentials.client_secret := Credentials.env_client_secret env;
            Credentials.initial_order_number := None |}.
Proof.
  intros clientId clientSecret s env Hfile. cbn zeta.
  unfold Credentials.saveCredentials. rewrite Hfile. cbn.
  unfold Credentials.construct, Credentials.loadCredentials. cbn.
  repeat split.
Qed.

(** A save over a damaged file. *)
Lemma saveCredentials_garbled_file_witness :
  fst (Credentials.saveCredentials "id-1" "sec-1"
         {| Credentials.config := Credentials.config Props2.cred_exemplo;
            Credentials.config_file := Some Credentials.CfgGarbled |})
  = Throw (Error "Falha ao salvar credenciais").
Proof.
  exact (proj1
    (@saveCredentials_garbled_file "id-1" "sec-1"
       {| Credentials.config := Credentials.config Props2.cred_exemplo;
          Credentials.config_file := Some Credentials.CfgGarbled |}
       Props2.env_exemplo eq_refl)).
Defined.

(** X8. [setInitialOrderNumber] keeps the credentials of the file (filling
    absent ones from memory) and writes the number beside them: when the
    resulting client id and secret are not empty, a restart loads those
    credentials with the new initial order number. *)
Theorem setInitialOrderNumber_roundtrip :
  forall (orderNumber : option Z) (s : Credentials.Cred) (env : Credentials.Env),
    Credentials.config_file s <> Some Credentials.CfgGarbled ->
    let old :=
      match Credentials.config_file s with
      | Some (Credentials.CfgJson c) => c
      | _ => {| Credentials.cj_client_id := None;
                Credentials.cj_client_secret := None;
                Credentials.cj_initial_order_number := None |}
      end in
    let cid := match Credentials.cj_client_id old with
               | Some v => v
               | None => Credentials.client_id (Credentials.config s)
               end in
    let secret := match Credentials.cj_client_secret old with
                  | Some v => v
                  | None => Credentials.client_secret (Credentials.config s)
                  end in
    cid <> "" -> secret <> "" ->
    let s1 := Credentials.setInitialOrderNumber orderNumber s in
    Credentials.initial_order_number (Credentials.config s1) = orderNumber
    /\ Credentials.config
         (Credentials.construct env (Credentials.config_file s1))
       = {| Credentials.client_id := cid; Credentials.client_secret := secret;
            Credentials.initial_order_number := orderNumber |}.
Proof.
  intros orderNumber s env Hfile old cid secret Hcid Hsec s1.
  unfold s1, Credentials.setInitialOrderNumber.
  destruct (Credentials.config_file s) as [[| c] |] eqn:E;
    [contradiction Hfile; reflexivity | |];
    cbn; split; try reflexivity;
    unfold Credentials.construct, Credentials.loadCredentials; cbn.
  - subst old cid secret.
    destruct (Credentials.cj_client_id c) as [v |],
             (Credentials.cj_client_secret c) as [w |]; cbn in *;
      rewrite ?(truthy_str_ne _ Hcid), ?(truthy_str_ne _ Hsec); reflexivity.
  - subst old cid secret. cbn in *.
    rewrite (truthy_str_ne _ Hcid), (truthy_str_ne _ Hsec). reflexivity.
Qed.

(** The initial order number is changed from 100 to 250. *)
Lemma setInitialOrderNumber_roundtrip_witness :
  Credentials.config
    (Credentials.construct Props2.env_exemplo
       (Credentials.config_file
          (Credentials.setInitialOrderNumber (Some 250) Props2.cred_exemplo)))
  = {| Credentials.client_id := "id-0"; Credentials.client_secret := "sec-0";
       Credentials.initial_order_number := Some 250 |}.
Proof.
  refine (proj2
    (@setInitialOrderNumber_roundtrip (Some 250) Props2.cred_exemplo
       Props2.env_exemplo _ _ _)); discriminate.
Defined.

(** X9. [saveIntegration] of the controller checks the initial order number
    only after it has saved the credentials: a request with an empty client
    id or secret is rejected and changes nothing, but a request with valid
    credentials and a negative initial order number is rejected with the
    credentials already written to memory and file, the stored initial
    order number untouched. *)
Theorem saveIntegration_validation_order :
  forall (clientId clientSecret : string) (n : Z) (s : Credentials.Cred)
         (initial : option (option Z)),
    clientId <> "" -> clientSecret <> "" ->
    Credentials.config_file s <> Some Credentials.CfgGarbled ->
    n < 0 ->
    Credentials.saveIntegration "" clientSecret initial s
    = (Throw (BadRequestException
                "Erro ao salvar integração: Client ID e Client Secret são obrigatórios"),
       s)
    /\ Credentials.saveIntegration clientId "" initial s
       = (Throw (BadRequestException
                   "Erro ao salvar integração: Client ID e Client Secret são obrigatórios"),
          s)
    /\ Credentials.saveIntegration clientId clientSecret (Some (Some n)) s
       = (Throw (BadRequestException
                   "Erro ao salvar integração: initialOrderNumber deve ser um número inteiro positivo ou null"),
          snd (Credentials.saveCredentials clientId clientSecret s)).
Proof.
  intros clientId clientSecret n s initial Hid Hsec Hfile Hn.
  split; [reflexivity |]. split.
  - unfold Credentials.saveIntegration.
    rewrite (truthy_str_ne clientId Hid). reflexivity.
  - unfold Credentials.saveIntegration.
    rewrite (truthy_str_ne clientId Hid), (truthy_str_ne clientSecret Hsec).
    cbn [negb orb].
    rewrite (saveCredentials_ok clientId clientSecret s Hfile). cbn [snd].
    replace (n <? 0) with true by (symmetry; apply Z.ltb_lt; exact Hn).
    reflexivity.
Qed.

(** Valid credentials with initial order number -5. *)
Lemma saveIntegration_validation_order_witness :
  Credentials.config_file
    (snd (Credentials.saveIntegration "id-1" "sec-1" (Some (Some (-5)))
            Props2.cred_exemplo))
  = Some (Credentials.CfgJson
            {| Credentials.cj_client_id := Some "id-1";
               Credentials.cj_client_secret := Some "sec-1";
               Credentials.cj_initial_order_number := Some 100 |}).
Proof.
  rewrite (proj2 (proj2
    (@saveIntegration_validation_order "id-1" "sec-1" (-5) Props2.cred_exemplo
       None ltac:(discriminate) ltac:(discriminate) ltac:(discriminate)
       ltac:(lia)))).
  reflexivity.
Defined.

(* ------------------------------------------------------------------ *)
(** ** The instalment setting *)


(* ------------------------------------------------------------------ *)
(** ** Polling for the invoice number *)

Section PollingFacts.

Import Polling.


Lemma consultas_app (a b : list Evento) :
  consultas (a ++ b) = (consultas a + consultas b)%nat.
Proof. unfold consultas. rewrite filter_app, length_app. reflexivity. Qed.

Lemma tempo_app (a b : list Evento) :
  tempo_de_espera (a ++ b) = tempo_de_espera a + tempo_de_espera b.
Proof.
  unfold tempo_de_espera. induction a as [| e a IH]; cbn; [reflexivity |].
  destruct e; rewrite IH; lia.
Qed.

(** The polling of one invoice, whatever the answers. *)
Lemma polling_shape (respostas : nat -> Tentativa) :
  fst (buscarSituacaoNFSe respostas) = primeira_com_numero respostas 5 1
  /\ (1 <= consultas (snd (buscarSituacaoNFSe respostas)) <= 5)%nat
  /\ S (esperas (snd (buscarSituacaoNFSe respostas)))
     = consultas (snd (buscarSituacaoNFSe respostas))
  /\ tempo_de_espera (snd (buscarSituacaoNFSe respostas))
     = 40000 * Z.of_nat (esperas (snd (buscarSituacaoNFSe respostas)))
  /\ last (snd (buscarSituacaoNFSe respostas)) (Espera 0)
     = Consulta (consultas (snd (buscarSituacaoNFSe respostas))).
Proof.
  unfold buscarSituacaoNFSe, maxTentativas. cbn.
  destruct (tem_numero (respostas 1%nat)); cbn; [repeat split; lia |].
  destruct (tem_numero (respostas 2%nat)); cbn; [repeat split; lia |].
  destruct (tem_numero (respostas 3%nat)); cbn; [repeat split; lia |].
  destruct (tem_numero (respostas 4%nat)); cbn; [repeat split; lia |].
  destruct (tem_numero (respostas 5%nat)); cbn; repeat split; lia.
Qed.


End PollingFacts.


(** X12. [verificarSituacaoNFSeEmitidas] returns one entry per invoice id,
    in order: 'verificado' with the number when the polling of that id found
    one, 'pendente' otherwise, never 'erro'; it makes at most five requests
    per id and waits at most 162 seconds per id. *)
Theorem verificarSituacaoNFSeEmitidas_entries :
  forall (respostas : Z -> nat -> Polling.Tentativa) (nfseIds : list Z),
    let out := Polling.verificarSituacaoNFSeEmitidas respostas nfseIds in
    map (fun r => (Polling.nr_nfseId r, Polling.nr_status r, Polling.nr_numero r))
        (fst out)
    = map (fun i =>
             match primeira_com_numero (respostas i) 5 1 with
             | Some d => (Some i, Polling.ns_verificado, Polling.st_numero d)
             | None => (Some i, Polling.ns_pendente, None)
             end) nfseIds
    /\ (Polling.consultas (snd out) <= 5 * List.length nfseIds)%nat
    /\ Polling.tempo_de_espera (snd out) <= 162000 * Z.of_nat (List.length nfseIds).
Proof.
  intros respostas nfseIds. cbn zeta.
  induction nfseIds as [| i rest IH]; [cbn; repeat split; lia |].
  cbn [Polling.verificarSituacaoNFSeEmitidas].
  destruct (Polling.verificarSituacaoNFSeEmitidas respostas rest) as [rs evs].
  cbn [fst snd] in IH. destruct IH as [IHr [IHc IHt]].
  unfold Polling.verificarSituacao.
  destruct (polling_shape (respostas i)) as [Hres [Hc [He [Ht0 _]]]].
  assert (Ht : Polling.tempo_de_espera
                 (snd (Polling.buscarSituacaoNFSe (respostas i))) <= 160000)
    by lia.
  clear He Ht0.
  destruct (Polling.buscarSituacaoNFSe (respostas i)) as [res ev].
  cbn [fst snd] in Hres, Hc, Ht. cbn [map]. rewrite <- Hres.
  destruct res as [d |]; cbn [fst snd map List.length];
    rewrite IHr, !consultas_app, !tempo_app; cbn;
    (split; [reflexivity | split; lia]).
Qed.

(* ------------------------------------------------------------------ *)
(** ** The duplicata batch *)

(** X13. In [processarFilaDuplicatas] a failed send does not turn an issued
    invoice into an error: once the contact is resolved and the emission
    returns an id, the entry is 'emitida' with that id, and [enviada] only
    records whether the send step succeeded.  The batch returns one entry
    per duplicata, in order, each carrying its duplicata number. *)
Theorem processarFilaDuplicatas_send_failure :
  forall (mundo : ContactResolver.Duplicata -> Duplicatas.Atendimento)
         (duplicatas : list ContactResolver.Duplicata)
         (d : ContactResolver.Duplicata) (c : Contato)
         (steps : list ContactResolver.Step) (data : Duplicatas.Emitida) (i : Z),
    ContactResolver.verificarOuCriarContato
      (Duplicatas.at_token (mundo d)) (Duplicatas.at_fetch (mundo d))
      (Duplicatas.at_criarContato (mundo d)) (Duplicatas.at_detalhes (mundo d)) d
    = (Ok c, steps) ->
    Duplicatas.at_emitir (mundo d) = Ok (Some data) ->
    Duplicatas.em_id data = Some i ->
    i <> 0 ->
    let out := Duplicatas.processarDuplicata mundo d in
    Polling.nr_status (fst out) = Polling.ns_emitida
    /\ Polling.nr_nfseId (fst out) = Some i
    /\ Polling.nr_enviada (fst out)
       = Some (is_ok (Duplicatas.at_enviar (mundo d) i))
    /\ snd out
       = (map Duplicatas.PassoContato steps
          ++ [Duplicatas.PassoEmitir; Duplicatas.PassoEnviar i])%list
    /\ map (fun x => Polling.nr_duplicata (fst x))
           (Duplicatas.processarFilaDuplicatas mundo duplicatas)
       = map (fun x => Some (ContactResolver.dup_numero x)) duplicatas.
Proof.
  intros mundo duplicatas d c steps data i Hc He Hid Hi. cbn zeta.
  split; [| split; [| split; [| split]]].
  1-4: unfold Duplicatas.processarDuplicata; rewrite Hc, He, Hid; cbn;
       replace (i =? 0) with false by (symmetry; apply Z.eqb_neq; exact Hi);
       cbn; try reflexivity.
  - rewrite <- app_assoc. reflexivity.
  - unfold Duplicatas.processarFilaDuplicatas. rewrite map_map.
    apply map_ext. intros x. unfold Duplicatas.processarDuplicata.
    destruct (ContactResolver.verificarOuCriarContato _ _ _ _ x) as [[c' | e] st];
      [| reflexivity].
    destruct (Duplicatas.at_emitir (mundo x)) as [[dt |] | e]; try reflexivity.
    destruct (Duplicatas.em_id dt) as [j |]; [| reflexivity].
    destruct (truthy_num (Some j)); reflexivity.
Qed.

(** The invoice of duplicata 17 is created with id 900 and its send step
    times out. *)
Lemma processarFilaDuplicatas_send_failure_witness :
  Polling.nr_status
    (fst (Duplicatas.processarDuplicata Props2.atendimento_exemplo
            (Exemplos.duplicata_com_rps None)))
  = Polling.ns_emitida
  /\ Polling.nr_nfseId
       (fst (Duplicatas.processarDuplicata Props2.atendimento_exemplo
               (Exemplos.duplicata_com_rps None)))
     = Some 900
  /\ Polling.nr_enviada
       (fst (Duplicatas.processarDuplicata Props2.atendimento_exemplo
               (Exemplos.duplicata_com_rps None)))
     = Some false.
Proof.
  destruct (@processarFilaDuplicatas_send_failure Props2.atendimento_exemplo []
              (Exemplos.duplicata_com_rps None) _ _ _ 900
              eq_refl eq_refl eq_refl ltac:(discriminate))
    as [H1 [H2 [H3 _]]].
  exact (conj H1 (conj H2 H3)).
Defined.

(* ------------------------------------------------------------------ *)
(** ** The queue: pages, statistics, insert and update *)

Section PageFacts.

Lemma firstn_add {A : Type} (a b : nat) (l : list A) :
  (firstn a l ++ firstn b (skipn a l))%list = firstn (a + b) l.
Proof.
  revert l. induction a as [| a IH]; intros l; [reflexivity |].
  destruct l as [| x l]; cbn.
  - rewrite firstn_nil. reflexivity.
  - rewrite IH. reflexivity.
Qed.

Lemma paginas_firstn (k limite : nat) (st : option Status) (t : Table) :
  paginas k limite st t = firstn (k * limite) (Fila.ordenados st t).
Proof.
  unfold paginas. induction k as [| k IH]; [reflexivity |].
  rewrite seq_S, map_app, concat_app, IH. cbn [map List.concat].
  rewrite app_nil_r. unfold select_page. fold (Fila.ordenados st t).
  replace (1 + k - 1)%nat with k by lia.
  rewrite firstn_add. f_equal. lia.
Qed.

Lemma totalPaginas_covers (total limite : nat) :
  (0 < limite)%nat -> (total <= Fila.totalPaginas total limite * limite)%nat.
Proof.
  intros H. unfold Fila.totalPaginas.
  pose proof (Nat.div_mod_eq (total + limite - 1) limite) as E.
  pose proof (Nat.mod_upper_bound (total + limite - 1) limite ltac:(lia)) as U.
  nia.
Qed.

End PageFacts.

(** X14. The pages of [listarFila] tile the query: for a positive page size
    the pages 1 to [totalPaginas], one after the other, are exactly the
    matching rows, newest first, each row once; no page is longer than the
    page size and every page after [totalPaginas] is empty. *)
Theorem listarFila_pages_tile :
  forall (limite p : nat) (st : option Status) (t : Table),
    (0 < limite)%nat ->
    let k := Fila.pg_totalPaginas (Fila.getFilaRPS p limite st t) in
    paginas k limite st t = Fila.ordenados st t
    /\ (List.length (Fila.pg_data (Fila.getFilaRPS p limite st t)) <= limite)%nat
    /\ ((k < p)%nat -> Fila.pg_data (Fila.getFilaRPS p limite st t) = [])
    /\ Fila.pg_total (Fila.getFilaRPS p limite st t)
       = List.length (Fila.ordenados st t).
Proof.
  intros limite p st t Hl k.
  pose proof (totalPaginas_covers (Fila.total st t) limite Hl) as Hcov.
  subst k. unfold Fila.getFilaRPS.
  cbn [Fila.pg_totalPaginas Fila.pg_data Fila.pg_total].
  set (q := Fila.totalPaginas (Fila.total st t) limite) in *.
  unfold Fila.total in Hcov.
  split; [| split; [| split]].
  - rewrite paginas_firstn. apply firstn_all2. exact Hcov.
  - unfold select_page. apply firstn_le_length.
  - intros Hp. unfold select_page. fold (Fila.ordenados st t).
    rewrite skipn_all2; [destruct limite; reflexivity |].
    assert (Hm : (q * limite <= (p - 1) * limite)%nat)
      by (apply Nat.mul_le_mono_r; lia).
    lia.
  - reflexivity.
Qed.

(** The queue with one row, read with page size 1. *)
Lemma listarFila_pages_tile_witness :
  paginas 1 1 None (db Exemplos.fila_pendente)
  = Fila.ordenados None (db Exemplos.fila_pendente).
Proof.
  exact (proj1 (@listarFila_pages_tile 1 1 None (db Exemplos.fila_pendente)
                  ltac:(lia))).
Defined.

Section StatFacts.

Import FilaRPS.


Lemma cards_partition (itens : list ItemFila) :
  (c_pendentes (estatisticas itens) + c_processando (estatisticas itens)
   + c_emitidos (estatisticas itens) + c_erros (estatisticas itens)
   = List.length itens)%nat.
Proof.
  unfold estatisticas, emitido_sem_numero_item, emitido_com_numero. cbn.
  induction itens as [| i l IH]; [reflexivity |]. cbn.
  destruct (if_status i), (truthy_ostr (if_numeroNFSe i)); cbn; lia.
Qed.

Lemma cards_match_filter (itens : list ItemFila) :
  List.length (itensFiltrados (Some pendente) itens) = c_pendentes (estatisticas itens)
  /\ List.length (itensFiltrados (Some processando) itens)
     = c_processando (estatisticas itens)
  /\ List.length (itensFiltrados (Some emitido) itens) = c_emitidos (estatisticas itens)
  /\ List.length (itensFiltrados (Some erro) itens) = c_erros (estatisticas itens).
Proof.
  unfold estatisticas, itensFiltrados, emitido_sem_numero_item,
    emitido_com_numero. cbn.
  induction itens as [| i l [IH1 [IH2 [IH3 IH4]]]]; [repeat split |]. cbn.
  destruct (if_status i), (truthy_ostr (if_numeroNFSe i)); cbn;
    repeat split; lia.
Qed.


End StatFacts.


(** X16. In the queue view every item is under exactly one card: the four
    cards add up to the number of items, and the number on a card is the
    number of items listed when that card is used as the filter. *)
Theorem cartoes_e_filtros :
  forall (itens : list FilaRPS.ItemFila),
    let cards := FilaRPS.estatisticas itens in
    (FilaRPS.c_pendentes cards + FilaRPS.c_processando cards
     + FilaRPS.c_emitidos cards + FilaRPS.c_erros cards
     = List.length itens)%nat
    /\ List.length (FilaRPS.itensFiltrados (Some pendente) itens)
       = FilaRPS.c_pendentes cards
    /\ List.length (FilaRPS.itensFiltrados (Some processando) itens)
       = FilaRPS.c_processando cards
    /\ List.length (FilaRPS.itensFiltrados (Some emitido) itens)
       = FilaRPS.c_emitidos cards
    /\ List.length (FilaRPS.itensFiltrados (Some erro) itens)
       = FilaRPS.c_erros cards.
Proof.
  intros itens. cbn zeta. split; [apply cards_partition | apply cards_match_filter].
Qed.

Section InsertFacts.

Import RpsService.

Lemma find_by_id_fresh (t : Table) :
  Forall (fun r => id r < next_id t) (rows t) ->
  find_by_id (next_id t) t = None.
Proof.
  unfold find_by_id. intros H. induction H as [| r l Hr _ IH]; cbn; [reflexivity |].
  replace (id r =? next_id t) with false by (symmetry; apply Z.eqb_neq; lia).
  exact IH.
Qed.

Lemma update_missing (i : Z) (p : Patch) (t : Table) :
  find_by_id i t = None -> update i p t = t.
Proof.
  unfold find_by_id, update. destruct t as [l n]. cbn. intros H. f_equal.
  induction l as [| r l IH]; cbn in *; [reflexivity |].
  destruct (id r =? i); [discriminate |]. rewrite IH; [reflexivity | exact H].
Qed.

Lemma find_by_id_update_other (i j : Z) (p : Patch) (t : Table) :
  j <> i -> find_by_id j (update i p t) = find_by_id j t.
Proof.
  intros Hji. unfold find_by_id, update. cbn.
  induction (rows t) as [| r l IH]; cbn; [reflexivity |].
  destruct (id r =? i) eqn:E; cbn.
  - apply Z.eqb_eq in E.
    replace (id r =? j) with false by (symmetry; apply Z.eqb_neq; lia).
    exact IH.
  - destruct (id r =? j); [reflexivity | exact IH].
Qed.

End InsertFacts.

(** X17. [criar] and the two lookups round-trip: on a table that has no row
    for the order, [criar] appends one row with the next generated key,
    and [buscarPorPedidoId] and [buscarPorId] then return exactly that row;
    on a table that already has a row for the order, [criar] raises and the
    table is left as it was. *)
Theorem criar_lookup_roundtrip :
  forall (d : CreateRpsDto) (s : Sys),
    wf (db s) ->
    match find_by_pedido (dto_pedidoVendaId d) (db s) with
    | None =>
        let row := row_of_dto (next_id (db s)) d in
        let s' := snd (RpsService.criar d s) in
        fst (RpsService.criar d s) = Ok row
        /\ rows (db s') = (rows (db s) ++ [row])%list
        /\ RpsService.buscarPorPedidoId (dto_pedidoVendaId d) s' = (Ok (Some row), s')
        /\ RpsService.buscarPorId (id row) s' = (Ok (Some row), s')
        /\ wf (db s')
    | Some _ =>
        is_ok (fst (RpsService.criar d s)) = false
        /\ snd (RpsService.criar d s) = s
    end.
Proof.
  intros d s Hwf.
  destruct (find_by_pedido (dto_pedidoVendaId d) (db s)) as [old |] eqn:Hf.
  - unfold RpsService.criar, try_catch, on_db, insert, throw. rewrite Hf. cbn.
    split; [reflexivity | destruct s; reflexivity].
  - cbn zeta.
    assert (E : RpsService.criar d s
                = (Ok (row_of_dto (next_id (db s)) d),
                   {| db := {| rows := rows (db s)
                                       ++ [row_of_dto (next_id (db s)) d];
                               next_id := next_id (db s) + 1 |};
                      sent := sent s |})).
    { unfold RpsService.criar, try_catch, on_db, insert. rewrite Hf. reflexivity. }
    rewrite E. cbn [fst snd db rows].
    split; [reflexivity |]. split; [reflexivity |].
    unfold RpsService.buscarPorPedidoId, RpsService.buscarPorId,
      find_by_pedido, find_by_id. cbn [db rows].
    split; [| split].
    + unfold find_by_pedido in Hf. rewrite (find_none_app _ _ _ Hf). cbn.
      rewrite Z.eqb_refl. reflexivity.
    + destruct Hwf as [_ [_ Hlt]].
      pose proof (find_by_id_fresh (db s) Hlt) as Hfresh.
      unfold find_by_id in Hfresh. rewrite (find_none_app _ _ _ Hfresh). cbn.
      rewrite Z.eqb_refl. reflexivity.
    + pose proof (wf_insert d (db s) Hwf) as Hw.
      unfold insert in Hw. rewrite Hf in Hw. exact Hw.
Qed.

(** A second row for order 10 is refused. *)
Lemma criar_lookup_roundtrip_witness :
  snd (RpsService.criar
         {| dto_pedidoVendaId := 10; dto_numeroPedido := 42;
            dto_numeroRPS := None; dto_serie := None; dto_nfseId := None;
            dto_status := pendente; dto_valorTotal := 0%Q;
            dto_nomeCliente := "Maria" |} Exemplos.fila_pendente)
  = Exemplos.fila_pendente.
Proof.
  assert (Hwf : wf (db Exemplos.fila_pendente)).
  { vm_compute. repeat split.
    - constructor; [intros [] | constructor].
    - constructor; [intros [] | constructor].
    - constructor; [reflexivity | constructor]. }
  exact (proj2 (@criar_lookup_roundtrip
                  {| dto_pedidoVendaId := 10; dto_numeroPedido := 42;
                     dto_numeroRPS := None; dto_serie := None; dto_nfseId := None;
                     dto_status := pendente; dto_valorTotal := 0%Q;
                     dto_nomeCliente := "Maria" |} Exemplos.fila_pendente Hwf)).
Defined.

(** X18. [atualizar] on a key that is not in the table returns null and
    changes nothing; on a key that is there it returns the row with the
    given fields replaced, and a lookup of any other key gives what it gave
    before; in both cases no row is added or removed and no row changes its
    key, its order or its RPS data. *)
Theorem atualizar_partial_update :
  forall (i j : Z) (p : Patch) (s : Sys),
    match find_by_id i (db s) with
    | None => RpsService.atualizar i p s = (Ok None, s)
    | Some r => fst (RpsService.atualizar i p s) = Ok (Some (apply_patch p r))
    end
    /\ map identidade (rows (db (snd (RpsService.atualizar i p s))))
       = map identidade (rows (db s))
    /\ (if j =? i then True
        else find_by_id j (db (snd (RpsService.atualizar i p s)))
             = find_by_id j (db s)).
Proof.
  intros i j p s. unfold RpsService.atualizar, on_db. cbn [fst snd db sent].
  split; [| split].
  - rewrite find_by_id_update.
    destruct (find_by_id i (db s)) as [r |] eqn:E; cbn; [reflexivity |].
    rewrite (update_missing i p (db s) E). destruct s; reflexivity.
  - apply map_update. reflexivity.
  - destruct (j =? i) eqn:E; [exact I |].
    apply find_by_id_update_other. apply Z.eqb_neq, E.
Qed.

(* ------------------------------------------------------------------ *)
(** ** The batches as a whole *)

Section BatchFacts.

Import RpsService BlingService.

Variable W : World.

Lemma sucessos_app (a b : list Resultado) :
  sucessos (a ++ b) = (sucessos a + sucessos b)%nat.
Proof. unfold sucessos. rewrite filter_app, length_app. reflexivity. Qed.

(** One pass of the body of the generate loop: it ends without an
    exception, with an entry for the id; either it reports 'sucesso', adds
    one to the counter and appends one pendente row for the order, or it
    reports something else and leaves the table as it was. *)
Lemma gerar_body_shape (pedidoId : Z) (s : Sys) :
  exists r n s',
    gerarRPSParaPedido W pedidoId s = (Ok (r, n), s')
    /\ res_pedidoId r = pedidoId
    /\ ((n = 1%nat /\ res_status r = r_sucesso
         /\ exists row, rows (db s') = (rows (db s) ++ [row])%list
                        /\ status row = pendente /\ numeroNFSe row = None
                        /\ pedidoVendaId row = pedidoId)
        \/ (n = O /\ res_status r <> r_sucesso /\ db s' = db s)).
Proof.
  unfold gerarRPSParaPedido, try_catch, bind, request, buscarPorPedidoId.
  destruct (get_pedido W pedidoId) as [pedido | e] eqn:Hp; cbn;
    [| do 3 eexists; split; [reflexivity | split; [reflexivity |]];
       right; repeat split; discriminate].
  destruct (isConsumidorFinal pedido) eqn:Hc; cbn;
    [do 3 eexists; split; [reflexivity | split; [reflexivity |]];
     right; repeat split; discriminate |].
  destruct (find_by_pedido pedidoId (db s)) as [rps |] eqn:Hf; cbn;
    [do 3 eexists; split; [reflexivity | split; [reflexivity |]];
     right; repeat split; discriminate |].
  destruct (contato pedido) as [cp |]; cbn;
    [| do 3 eexists; split; [reflexivity | split; [reflexivity |]];
       right; repeat split; discriminate].
  rewrite filtrarServicos_run. cbn.
  destruct (servicosRetidos W (itens pedido)) as [| sv svs]; cbn;
    [do 3 eexists; split; [reflexivity | split; [reflexivity |]];
     right; repeat split; discriminate |].
  unfold construirPayloadNFSe.
  destruct (get_contato W (cp_id cp)) as [c |]; cbn;
    [| do 3 eexists; split; [reflexivity | split; [reflexivity |]];
       right; repeat split; discriminate].
  match goal with
  | |- context [post_nfse W ?p] => destruct (post_nfse W p) as [nfse | e]
  end; cbn;
    [| do 3 eexists; split; [reflexivity | split; [reflexivity |]];
       right; repeat split; discriminate].
  unfold criar, try_catch, on_db, insert. cbn. rewrite Hf. cbn.
  do 3 eexists. split; [reflexivity | split; [reflexivity |]].
  left. repeat split. eexists. repeat split.
Qed.

Lemma gerar_loop_shape (pedidoIds : list Z) :
  forall acc n s,
    exists novos linhas s',
      gerar_loop W pedidoIds acc n s
      = (Ok ((acc ++ novos)%list, (n + sucessos novos)%nat), s')
      /\ map res_pedidoId novos = pedidoIds
      /\ rows (db s') = (rows (db s) ++ linhas)%list
      /\ List.length linhas = sucessos novos
      /\ map pedidoVendaId linhas
         = map res_pedidoId
             (filter (fun r => match res_status r with
                               | r_sucesso => true
                               | _ => false
                               end) novos)
      /\ Forall (fun row => status row = pendente /\ numeroNFSe row = None) linhas.
Proof.
  induction pedidoIds as [| i rest IH]; intros acc n s; cbn [gerar_loop].
  - exists [], [], s. repeat split; cbn; rewrite ?app_nil_r, ?Nat.add_0_r;
      try reflexivity. constructor.
  - unfold bind.
    destruct (gerar_body_shape i s) as [r [k [s1 [E [Hid Hcase]]]]].
    rewrite E. cbn [fst snd].
    destruct (IH (acc ++ [r])%list (n + k)%nat s1)
      as [novos [linhas [s' [E' [Hids [Hrows [Hlen [Hkeys Hall]]]]]]]].
    rewrite E'.
    destruct Hcase as [[-> [Hst [row [Hr1 [Hpend [Hnum Hkey]]]]]]
                      | [-> [Hst Hdb]]].
    + assert (Hs : sucessos (r :: novos) = (1 + sucessos novos)%nat)
        by (unfold sucessos; cbn; rewrite Hst; reflexivity).
      exists (r :: novos), (row :: linhas), s'.
      split; [rewrite Hs, <- app_assoc; cbn [app];
              replace (n + 1 + sucessos novos)%nat
                with (n + (1 + sucessos novos))%nat by lia; reflexivity |].
      split; [cbn; rewrite Hid, Hids; reflexivity |].
      split; [rewrite Hrows, Hr1, <- app_assoc; reflexivity |].
      split; [rewrite Hs; cbn; rewrite Hlen; reflexivity |].
      split; [cbn; rewrite Hst; cbn; rewrite Hkey, Hid, Hkeys; reflexivity |].
      constructor; [split; assumption | exact Hall].
    + assert (Hno : match res_status r with
                    | r_sucesso => true
                    | _ => false
                    end = false)
        by (destruct (res_status r); [contradiction Hst |..]; reflexivity).
      assert (Hs : sucessos (r :: novos) = sucessos novos)
        by (unfold sucessos; cbn; rewrite Hno; reflexivity).
      exists (r :: novos), linhas, s'.
      split; [rewrite Hs, <- app_assoc; cbn [app];
              replace (n + 0 + sucessos novos)%nat
                with (n + sucessos novos)%nat by lia; reflexivity |].
      split; [cbn; rewrite Hid, Hids; reflexivity |].
      split; [rewrite Hrows, Hdb; reflexivity |].
      split; [rewrite Hs; exact Hlen |].
      split; [cbn; rewrite Hno; exact Hkeys | exact Hall].
Qed.

End BatchFacts.

(** X19. [gerarRPSParaPedidos] never raises, whatever the ERP answers: it
    returns one entry per order id, in the order given, with [total] the
    number of ids and [processados] the number of 'sucesso' entries; it only
    appends to the table: every row that was there is still there,
    unchanged and in place, and the rows added are one per 'sucesso' entry,
    for the orders of those entries, all 'pendente' and without a number. *)
Theorem gerarRPSParaPedidos_batch_shape :
  forall (W : World) (pedidoIds : list Z) (s : Sys),
    exists g linhas s',
      BlingService.gerarRPSParaPedidos W pedidoIds s = (Ok g, s')
      /\ BlingService.g_success g = true
      /\ BlingService.g_total g = List.length pedidoIds
      /\ map BlingService.res_pedidoId (BlingService.g_resultados g) = pedidoIds
      /\ BlingService.g_processados g = sucessos (BlingService.g_resultados g)
      /\ rows (db s') = (rows (db s) ++ linhas)%list
      /\ List.length linhas = BlingService.g_processados g
      /\ map pedidoVendaId linhas
         = map BlingService.res_pedidoId
             (filter (fun r => match BlingService.res_status r with
                               | BlingService.r_sucesso => true
                               | _ => false
                               end) (BlingService.g_resultados g))
      /\ Forall (fun row => status row = pendente /\ numeroNFSe row = None) linhas.
Proof.
  intros W pedidoIds s.
  destruct (gerar_loop_shape W pedidoIds [] O s)
    as [novos [linhas [s' [E [Hids [Hrows [Hlen [Hkeys Hall]]]]]]]].
  unfold BlingService.gerarRPSParaPedidos, bind. rewrite E.
  exists {| BlingService.g_success := true;
            BlingService.g_processados := sucessos novos;
            BlingService.g_total := List.length pedidoIds;
            BlingService.g_resultados := novos |}, linhas, s'.
  cbn. repeat split; assumption.
Qed.


Section EnvioBatchFacts.

Import RpsService BlingService.

Variable W : World.

Lemma sucessosEnvio_app (a b : list ResultadoEnvio) :
  sucessosEnvio (a ++ b) = (sucessosEnvio a + sucessosEnvio b)%nat.
Proof. unfold sucessosEnvio. rewrite filter_app, length_app. reflexivity. Qed.

(** One pass of the body of the submit loop ends without an exception,
    with an entry for the id, and counts one exactly for 'sucesso'. *)
Lemma enviar_body_shape (rpsId : Z) (s : Sys) :
  exists r n s',
    enviarNFSeDoRps W rpsId s = (Ok (r, n), s')
    /\ env_rpsId r = rpsId
    /\ n = sucessosEnvio [r].
Proof.
  unfold enviarNFSeDoRps, bind, buscarPorId, try_catch, atualizar, on_db, request.
  cbn.
  destruct (find_by_id rpsId (db s)) as [rps |]; cbn;
    [| do 3 eexists; repeat split].
  destruct (nfseId rps) as [nid |] eqn:Hn; cbn;
    [| do 3 eexists; repeat split].
  destruct (post_enviar W nid) as [numero | e]; cbn.
  - destruct (truthy_ostr numero); cbn; do 3 eexists; repeat split.
  - unfold verificarJaEmitida, try_catch, bind, request, atualizar, on_db.
    rewrite ?Hn. cbn.
    destruct (get_nfse W nid) as [[nfse |] | e']; cbn;
      try solve [do 3 eexists; repeat split].
    match goal with
    | |- context [if ?b then _ else _] => destruct b
    end; cbn; do 3 eexists; repeat split.
Qed.

Lemma enviar_loop_shape (rpsIds : list Z) :
  forall acc n s,
    exists novos s',
      enviar_loop W rpsIds acc n s
      = (Ok ((acc ++ novos)%list, (n + sucessosEnvio novos)%nat), s')
      /\ map env_rpsId novos = rpsIds.
Proof.
  induction rpsIds as [| i rest IH]; intros acc n s; cbn [enviar_loop].
  - exists [], s. rewrite app_nil_r. cbn. rewrite Nat.add_0_r.
    split; reflexivity.
  - unfold bind.
    destruct (enviar_body_shape i s) as [r [k [s1 [E [Hid Hk]]]]].
    rewrite E. cbn [fst snd].
    destruct (IH (acc ++ [r])%list (n + k)%nat s1) as [novos [s' [E' Hids]]].
    rewrite E'. exists (r :: novos), s'. split.
    + assert (Hs : sucessosEnvio (r :: novos)
                   = (sucessosEnvio [r] + sucessosEnvio novos)%nat)
        by (apply (sucessosEnvio_app [r] novos)).
      rewrite <- app_assoc. cbn [app]. rewrite Hs, Hk.
      replace (n + sucessosEnvio [r] + sucessosEnvio novos)%nat
        with (n + (sucessosEnvio [r] + sucessosEnvio novos))%nat by lia.
      reflexivity.
    + cbn. rewrite Hid, Hids. reflexivity.
Qed.

Lemma mesmas_linhas_update (l : list _) (n : Z) (i : Z) (p : Patch) (t : Table) :
  mesmas_linhas l t /\ next_id t = n ->
  mesmas_linhas l (update i p t) /\ next_id (update i p t) = n.
Proof.
  unfold mesmas_linhas. intros [H Hn]. split; [| exact Hn].
  rewrite map_update; [exact H | reflexivity].
Qed.

Lemma enviar_missing (rpsId : Z) (s : Sys) :
  find_by_id rpsId (db s) = None ->
  enviarNFSeDoRps W rpsId s = (Ok (erro_envio rpsId "RPS não encontrado", O), s).
Proof.
  intros H. unfold enviarNFSeDoRps, bind, buscarPorId, try_catch. cbn.
  rewrite H. reflexivity.
Qed.

Lemma enviar_sem_nfseId (rpsId : Z) (rps : PedidoVendaRPS) (s : Sys) :
  find_by_id rpsId (db s) = Some rps ->
  nfseId rps = None ->
  enviarNFSeDoRps W rpsId s
  = (Ok (erro_envio rpsId "NFSe ID não encontrado", O), s).
Proof.
  intros H Hn. unfold enviarNFSeDoRps, bind, buscarPorId, try_catch. cbn.
  rewrite H, Hn. reflexivity.
Qed.

Lemma enviar_respondido (rpsId : Z) (rps : PedidoVendaRPS) (nid : Z)
    (numero : option string) (s : Sys) :
  find_by_id rpsId (db s) = Some rps ->
  nfseId rps = Some nid ->
  post_enviar W nid = Ok numero ->
  enviarNFSeDoRps W rpsId s
  = if truthy_ostr numero
    then (Ok ({| env_rpsId := rpsId; env_status := r_sucesso;
                 env_numeroNFSe := numero;
                 env_mensagem := "NFSe emitida com sucesso" |}, 1%nat),
          {| db := update rpsId {| p_status := Some emitido;
                                   p_numeroNFSe := Some numero;
                                   p_mensagemErro := None |}
                     (update rpsId (so_status processando) (db s));
             sent := sent s ++ [PostEnviar nid] |})
    else (Ok ({| env_rpsId := rpsId; env_status := r_processando;
                 env_numeroNFSe := None;
                 env_mensagem := "Enviado para prefeitura, aguardando retorno" |}, O),
          {| db := update rpsId (so_status processando) (db s);
             sent := sent s ++ [PostEnviar nid] |}).
Proof.
  intros H Hn He.
  unfold enviarNFSeDoRps, bind, buscarPorId, try_catch, atualizar, on_db, request.
  cbn. rewrite H, Hn. cbn. rewrite He. cbn.
  destruct (truthy_ostr numero); reflexivity.
Qed.

End EnvioBatchFacts.

(** X20. [enviarNFSeParaPrefeitura] never raises, whatever the ERP answers:
    it returns one entry per record id, in the order given, with [total]
    the number of ids and [enviados] the number of 'sucesso' entries; it
    adds no row and removes none, and no row changes its key, its order,
    its RPS number and series, its invoice id or its customer. *)
Theorem enviarNFSeParaPrefeitura_batch_shape :
  forall (W : World) (rpsIds : list Z) (s : Sys),
    exists g s',
      BlingService.enviarNFSeParaPrefeitura W rpsIds s = (Ok g, s')
      /\ BlingService.e_success g = true
      /\ BlingService.e_total g = List.length rpsIds
      /\ map BlingService.env_rpsId (BlingService.e_resultados g) = rpsIds
      /\ BlingService.e_enviados g = sucessosEnvio (BlingService.e_resultados g)
      /\ map identidade (rows (db s')) = map identidade (rows (db s))
      /\ next_id (db s') = next_id (db s).
Proof.
  intros W rpsIds s.
  destruct (enviar_loop_shape W rpsIds [] O s) as [novos [s' [E Hids]]].
  pose proof (preserves_enviarNFSeParaPrefeitura
                (fun t => mesmas_linhas (map identidade (rows (db s))) t
                          /\ next_id t = next_id (db s))
                (mesmas_linhas_update (map identidade (rows (db s)))
                   (next_id (db s)))
                W rpsIds s (conj eq_refl eq_refl)) as Hkeep.
  unfold BlingService.enviarNFSeParaPrefeitura, bind in *. rewrite E in *.
  cbn in *.
  exists {| BlingService.e_success := true;
            BlingService.e_enviados := sucessosEnvio novos;
            BlingService.e_total := List.length rpsIds;
            BlingService.e_resultados := novos |}, s'.
  cbn. destruct Hkeep as [Hk1 Hk2]. repeat split; assumption.
Qed.

(** X21. Submitting an id that is not in the queue, or a record that has no
    invoice id, gives an 'erro' entry ('RPS não encontrado', 'NFSe ID não
    encontrado') without any request to the ERP and without any write: the
    table and the request log are left exactly as they were. *)
Theorem enviar_sem_registro :
  forall (W : World) (rpsId : Z) (s : Sys),
    let run := BlingService.enviarNFSeParaPrefeitura W [rpsId] s in
    match find_by_id rpsId (db s) with
    | None =>
        run = (Ok {| BlingService.e_success := true;
                     BlingService.e_enviados := O;
                     BlingService.e_total := 1;
                     BlingService.e_resultados :=
                       [BlingService.erro_envio rpsId "RPS não encontrado"] |}, s)
    | Some rps =>
        match nfseId rps with
        | None =>
            run = (Ok {| BlingService.e_success := true;
                         BlingService.e_enviados := O;
                         BlingService.e_total := 1;
                         BlingService.e_resultados :=
                           [BlingService.erro_envio rpsId "NFSe ID não encontrado"] |},
                   s)
        | Some nid => hd_error (skipn (List.length (sent s)) (sent (snd run)))
                      = Some (PostEnviar nid)
        end
    end.
Proof.
  intros W rpsId s. cbn zeta.
  destruct (find_by_id rpsId (db s)) as [rps |] eqn:Hf.
  - destruct (nfseId rps) as [nid |] eqn:Hn.
    + destruct (post_enviar W nid) as [numero | e] eqn:He.
      * pose proof (enviar_respondido W rpsId rps nid numero s Hf Hn He) as Hrun.
        destruct (truthy_ostr numero);
          rewrite (enviar_um W rpsId s _ _ _ Hrun); cbn;
          rewrite skipn_app, skipn_all, Nat.sub_diag; reflexivity.
      * pose proof (enviar_falha_run W rpsId s rps nid e Hf Hn He) as Hrun.
        destruct (leitura_emitida W nid);
          rewrite (enviar_um W rpsId s _ _ _ Hrun); cbn;
          rewrite skipn_app, skipn_all, Nat.sub_diag; reflexivity.
    + apply (enviar_um W rpsId s _ _ _ (enviar_sem_nfseId W rpsId rps s Hf Hn)).
  - apply (enviar_um W rpsId s _ _ _ (enviar_missing W rpsId s Hf)).
Qed.

(** X22. When the submission of a record is answered, a number in the
    answer makes the record 'emitido' with that number and the entry
    'sucesso'; an answer without a number is not a failure: the record
    stays 'processando', keeps the number it had, and the entry is
    'processando'.  In both cases the only request sent is the submission
    itself, no compensating read. *)
Theorem envio_respondido :
  forall (W : World) (rpsId : Z) (s : Sys) (rps : PedidoVendaRPS) (nid : Z)
         (numero : option string),
    find_by_id rpsId (db s) = Some rps ->
    nfseId rps = Some nid ->
    post_enviar W nid = Ok numero ->
    let run := BlingService.enviarNFSeParaPrefeitura W [rpsId] s in
    sent (snd run) = (sent s ++ [PostEnviar nid])%list
    /\ map (fun r => (BlingService.env_status r, BlingService.env_numeroNFSe r))
           (resultadosEnvio run)
       = [if truthy_ostr numero then (BlingService.r_sucesso, numero)
          else (BlingService.r_processando, None)]
    /\ option_map (fun r => (status r, numeroNFSe r))
                  (find_by_id rpsId (db (snd run)))
       = Some (if truthy_ostr numero then (emitido, numero)
               else (processando, numeroNFSe rps)).
Proof.
  intros W rpsId s rps nid numero Hf Hn He. cbn zeta.
  pose proof (enviar_respondido W rpsId rps nid numero s Hf Hn He) as Hrun.
  destruct (truthy_ostr numero);
    rewrite (enviar_um W rpsId s _ _ _ Hrun); cbn [snd sent db];
    (split; [reflexivity |]); (split; [reflexivity |]);
    rewrite !find_by_id_update, Hf; reflexivity.
Qed.

(** The submission of row 1 is accepted without a number. *)
Lemma envio_respondido_witness :
  map (fun r => (BlingService.env_status r, BlingService.env_numeroNFSe r))
      (resultadosEnvio
         (BlingService.enviarNFSeParaPrefeitura
            (Exemplos.mundo_fila (fun _ => Ok None) Exemplos.sem_resposta) [1]
            Exemplos.fila_pendente))
  = [(BlingService.r_processando, None)].
Proof.
  refine (proj1 (proj2
    (@envio_respondido
       (Exemplos.mundo_fila (fun _ => Ok None) Exemplos.sem_resposta) 1
       Exemplos.fila_pendente _ 77 None _ _ _))).
  - vm_compute. reflexivity.
  - reflexivity.
  - reflexivity.
Defined.

Section SyncBatchFacts.

Import RpsService BlingService.

Variable W : World.

Lemma ostr_eqb_refl (a : option string) : ostr_eqb a a = true.
Proof. destruct a as [x |]; cbn; [apply String.eqb_refl | reflexivity]. Qed.

Lemma status_eqb_refl (a : Status) : status_eqb a a = true.
Proof. destruct a; reflexivity. Qed.

Lemma novoStatus_idem (st : Status) (sit : option Z) :
  novoStatus (novoStatus st sit) sit = novoStatus st sit.
Proof.
  destruct sit as [[| p | p] |]; cbn; try reflexivity.
  destruct p as [[q | q |] | [q | q |] |]; reflexivity.
Qed.

(** A row that was just reconciled needs no further update. *)
Lemma decisao_reconciliado (r : PedidoVendaRPS) :
  decisao W (reconciliado W r) = None.
Proof.
  unfold reconciliado.
  destruct (decisao W r) as [p |] eqn:Hd; [| exact Hd].
  unfold decisao in *.
  change (nfseId (apply_patch p r)) with (nfseId r).
  destruct (nfseId r) as [nid |]; [| discriminate].
  destruct (get_nfse W nid) as [[nfse |] | e]; [| discriminate |].
  - destruct (precisaAtualizar r nfse); [| discriminate].
    injection Hd as <-.
    unfold precisaAtualizar, patch_do_bling, apply_patch. cbn.
    rewrite novoStatus_idem, status_eqb_refl. cbn.
    unfold or_str. destruct (truthy_ostr (nf_numero nfse)); cbn; [| reflexivity].
    rewrite ostr_eqb_refl. reflexivity.
  - destruct (emitido_sem_numero r); [| discriminate].
    injection Hd as <-. reflexivity.
Qed.

Lemma sincronizarRps_count (rps : PedidoVendaRPS) (s : Sys) :
  exists a c s',
    sincronizarRps W rps s = (Ok (a, c), s') /\ (a + c <= 1)%nat.
Proof.
  unfold sincronizarRps.
  destruct (nfseId rps) as [nid |]; [| exists O, O, s; split; [reflexivity | lia]].
  unfold try_catch, bind, request, atualizar, on_db. cbn.
  destruct (get_nfse W nid) as [[nfse |] | e]; cbn.
  - destruct (precisaAtualizar rps nfse); cbn.
    + destruct (emitido_sem_numero rps && truthy_ostr (nf_numero nfse));
        do 3 eexists; (split; [reflexivity | cbn; lia]).
    + do 3 eexists; (split; [reflexivity | cbn; lia]).
  - do 3 eexists; (split; [reflexivity | cbn; lia]).
  - destruct (emitido_sem_numero rps); cbn;
      do 3 eexists; (split; [reflexivity | cbn; lia]).
Qed.

Lemma sync_loop_count (l : list PedidoVendaRPS) :
  forall a c s,
    exists a' c' s',
      sync_loop W l a c s = (Ok (a', c'), s')
      /\ (a' + c' <= a + c + List.length l)%nat.
Proof.
  induction l as [| rps rest IH]; intros a c s; cbn [sync_loop].
  - exists a, c, s. split; [reflexivity | cbn; lia].
  - unfold bind.
    destruct (sincronizarRps_count rps s) as [x [y [s1 [E Hxy]]]].
    rewrite E. cbn [fst snd].
    destruct (IH (a + x)%nat (c + y)%nat s1) as [a' [c' [s' [E' H']]]].
    exists a', c', s'. split; [exact E' | cbn; lia].
Qed.

Lemma length_select_page (pagina limite : nat) (st : option Status) (t : Table) :
  (List.length (select_page pagina limite st t) <= limite)%nat.
Proof. unfold select_page. apply firstn_le_length. Qed.

Lemma length_rpsParaVerificar (t : Table) :
  (List.length (rpsParaVerificar t) <= 3000)%nat.
Proof.
  unfold rpsParaVerificar. cbn zeta. rewrite !length_app.
  pose proof (length_select_page 1 1000 (Some pendente) t).
  pose proof (length_select_page 1 1000 (Some processando) t).
  pose proof (length_select_page 1 1000 (Some emitido) t).
  pose proof (filter_length_le
                (fun rps => negb (truthy_ostr (numeroNFSe rps)))
                (select_page 1 1000 (Some emitido) t)).
  lia.
Qed.

End SyncBatchFacts.

(** X23. The reconciler settles a record in one pass: when the body of the
    loop has run on a record, running it again on the row read back, with
    the ERP answering the same, writes nothing. *)
Theorem sincronizarRps_settles :
  forall (W : World) (rps : PedidoVendaRPS) (s : Sys),
    find_by_id (id rps) (db s) = Some rps ->
    let s1 := snd (BlingService.sincronizarRps W rps s) in
    exists rps',
      find_by_id (id rps) (db s1) = Some rps'
      /\ rps' = reconciliado W rps
      /\ db (snd (BlingService.sincronizarRps W rps' s1)) = db s1.
Proof.
  intros W rps s Hf. cbn zeta.
  destruct (sincronizarRps_run W rps s) as [cnt [snt E]]. rewrite E.
  cbn [snd db].
  exists (reconciliado W rps).
  assert (Hfind : find_by_id (id rps) (aplicar W rps (db s))
                  = Some (reconciliado W rps)).
  { unfold aplicar, reconciliado.
    destruct (decisao W rps) as [p |]; [| exact Hf].
    rewrite find_by_id_update, Hf. reflexivity. }
  split; [exact Hfind |]. split; [reflexivity |].
  destruct (sincronizarRps_run W (reconciliado W rps)
              {| db := aplicar W rps (db s); sent := snt |})
    as [cnt' [snt' E']].
  rewrite E'. cbn [snd db].
  unfold aplicar at 1. rewrite decisao_reconciliado. reflexivity.
Qed.

(** The record found issued with number 000456 is left alone by a second
    pass. *)
Lemma sincronizarRps_settles_witness :
  exists rps',
    find_by_id 1
      (db (snd (BlingService.sincronizarRps Exemplos.mundo_emitida
                  {| id := 1; pedidoVendaId := 10; numeroPedido := 42;
                     numeroRPS := Some "42125000"; serie := Some "1";
                     nfseId := Some 77; numeroNFSe := None; status := pendente;
                     mensagemErro := None; valorTotal := (150 # 1)%Q;
                     nomeCliente := "Maria" |}
                  Exemplos.fila_pendente)))
    = Some rps'
    /\ status rps' = emitido /\ numeroNFSe rps' = Some "000456".
Proof.
  destruct (@sincronizarRps_settles Exemplos.mundo_emitida
              {| id := 1; pedidoVendaId := 10; numeroPedido := 42;
                 numeroRPS := Some "42125000"; serie := Some "1";
                 nfseId := Some 77; numeroNFSe := None; status := pendente;
                 mensagemErro := None; valorTotal := (150 # 1)%Q;
                 nomeCliente := "Maria" |}
              Exemplos.fila_pendente)
    as [rps' [Hfind [Heq _]]].
  - vm_compute. reflexivity.
  - exists rps'. split; [exact Hfind |]. rewrite Heq. split; reflexivity.
Defined.

(** X24. [sincronizarStatusNFSe] never raises, whatever the ERP answers: it
    looks at no more than 3000 records in a pass, [verificados] is the
    number it looked at, and [atualizados] and [corrigidos] together never
    exceed it; it adds no row and removes none, and no row changes its key,
    its order, its RPS number and series, its invoice id or its customer. *)
Theorem sincronizarStatusNFSe_batch_shape :
  forall (W : World) (s : Sys),
    exists g s',
      BlingService.sincronizarStatusNFSe W s = (Ok g, s')
      /\ BlingService.sy_success g = true
      /\ BlingService.sy_verificados g
         = List.length (BlingService.rpsParaVerificar (db s))
      /\ (BlingService.sy_verificados g <= 3000)%nat
      /\ (BlingService.sy_atualizados g + BlingService.sy_corrigidos g
          <= BlingService.sy_verificados g)%nat
      /\ map identidade (rows (db s')) = map identidade (rows (db s))
      /\ next_id (db s') = next_id (db s).
Proof.
  intros W s.
  pose proof (preserves_sincronizarStatusNFSe
                (fun t => mesmas_linhas (map identidade (rows (db s))) t
                          /\ next_id t = next_id (db s))
                (mesmas_linhas_update (map identidade (rows (db s)))
                   (next_id (db s)))
                W s (conj eq_refl eq_refl)) as Hkeep.
  pose proof (length_rpsParaVerificar (db s)) as Hlen.
  unfold BlingService.sincronizarStatusNFSe, try_catch, bind,
    RpsService.listarFila in *. cbn in *.
  match goal with
  | |- context [BlingService.sync_loop W ?l ?a ?c ?s0] =>
      destruct (sync_loop_count W l a c s0) as [a' [c' [s' [E Hcnt]]]]
  end.
  unfold BlingService.rpsParaVerificar in Hlen. cbn zeta in Hlen.
  rewrite E in *. cbn in *.
  do 2 eexists. split; [reflexivity |]. cbn.
  destruct Hkeep as [Hk1 Hk2].
  repeat split; try assumption; try reflexivity.
Qed.

(* ------------------------------------------------------------------ *)
(** ** Long order numbers *)

Section NumeroFacts.







End NumeroFacts.



(* ------------------------------------------------------------------ *)
(** ** The contact that is found *)

Section ContatoFacts.

Import ContactResolver.



End ContatoFacts.



(* ------------------------------------------------------------------ *)
(** ** Orders that have an RPS, in the order list *)

Section ListaFacts.

Lemma find_by_pedido_some (pid : Z) (t : Table) :
  In pid (map pedidoVendaId (rows t)) ->
  exists r, find_by_pedido pid t = Some r.
Proof.
  intros Hin. destruct (find_by_pedido pid t) as [r |] eqn:E.
  - exists r. reflexivity.
  - exfalso. exact (find_by_pedido_none pid t E Hin).
Qed.

Lemma enriquecer_id (t : Table) (p : PedidosVenda.PedidoVenda) :
  PedidosVenda.pv_id (Fila.enriquecer t p) = PedidosVenda.pv_id p.
Proof.
  unfold Fila.enriquecer.
  destruct (find_by_pedido (PedidosVenda.pv_id p) t); reflexivity.
Qed.

Lemma enriquecer_com_rps (t : Table) (p : PedidosVenda.PedidoVenda)
    (r : PedidoVendaRPS) :
  find_by_pedido (PedidosVenda.pv_id p) t = Some r ->
  PedidosVenda.isSelectable (Fila.enriquecer t p) = false.
Proof.
  intros H. unfold Fila.enriquecer. rewrite H. reflexivity.
Qed.

Lemma pedido_gerado_tem_linha (W : World) (pedidoIds : list Z) (s : Sys)
    (pid : Z) :
  In pid (pedidos_gerados (BlingService.gerarRPSParaPedidos W pedidoIds s)) ->
  exists r,
    find_by_pedido pid
      (db (snd (BlingService.gerarRPSParaPedidos W pedidoIds s))) = Some r.
Proof.
  unfold pedidos_gerados, resultados, BlingService.gerarRPSParaPedidos, bind.
  destruct (gerar_loop_shape W pedidoIds [] O s)
    as [novos [linhas [s' [E [_ [Hrows [_ [Hkeys _]]]]]]]].
  rewrite E. cbn. intros Hin.
  apply find_by_pedido_some. rewrite Hrows, map_app, in_app_iff.
  right. rewrite Hkeys. exact Hin.
Qed.

End ListaFacts.

(** X27. An order for which a generate run reported 'sucesso' is no longer
    selectable in the order list once the controller has attached the RPS
    status to it, whatever its name and situation, and 'select all' over
    the enriched list does not offer it again. *)
Theorem pedido_gerado_nao_selecionavel :
  forall (W : World) (pedidoIds : list Z) (s : Sys) (pid : Z)
         (pedidos : list PedidosVenda.PedidoVenda),
    In pid (pedidos_gerados (BlingService.gerarRPSParaPedidos W pedidoIds s)) ->
    let t' := db (snd (BlingService.gerarRPSParaPedidos W pedidoIds s)) in
    (forall p, PedidosVenda.pv_id p = pid ->
               PedidosVenda.isSelectable (Fila.enriquecer t' p) = false)
    /\ ~ In pid (PedidosVenda.handleSelectAll (map (Fila.enriquecer t') pedidos)).
Proof.
  intros W pedidoIds s pid pedidos Hin t'.
  destruct (pedido_gerado_tem_linha W pedidoIds s pid Hin) as [r Hr].
  fold t' in Hr.
  assert (Hsel : forall p, PedidosVenda.pv_id p = pid ->
                           PedidosVenda.isSelectable (Fila.enriquecer t' p)
                           = false).
  { intros p Hp. apply (enriquecer_com_rps t' p r). rewrite Hp. exact Hr. }
  split; [exact Hsel |].
  unfold PedidosVenda.handleSelectAll. intros H.
  apply in_map_iff in H. destruct H as [q [Hq Hin']].
  apply filter_In in Hin'. destruct Hin' as [Hin' Hs].
  apply in_map_iff in Hin'. destruct Hin' as [p [Hp _]]. subst q.
  rewrite enriquecer_id in Hq. rewrite (Hsel p Hq) in Hs. discriminate.
Qed.

(** Order 10, once its RPS is generated, is not offered by 'select all'. *)
Lemma pedido_gerado_nao_selecionavel_witness :
  PedidosVenda.isSelectable pedido_na_lista = true
  /\ ~ In 10 (PedidosVenda.handleSelectAll
                (map (Fila.enriquecer
                        (db (snd (BlingService.gerarRPSParaPedidos
                                    (Exemplos.mundo_pedido (Some "123.456.789-01")
                                       (Some 9) [Exemplos.item_exemplo 1])
                                    [10] Exemplos.inicio))))
                     [pedido_na_lista])).
Proof.
  split; [vm_compute; reflexivity |].
  exact (proj2 (pedido_gerado_nao_selecionavel
                  (Exemplos.mundo_pedido (Some "123.456.789-01") (Some 9)
                     [Exemplos.item_exemplo 1])
                  [10] Exemplos.inicio 10 [pedido_na_lista]
                  ltac:(vm_compute; left; reflexivity))).
Defined.

(* ------------------------------------------------------------------ *)
(** ** What the queue view offers for submission *)

Section SelecaoFacts.

Import FilaRPS.

Lemma in_itensFiltrados (filtro : option Status) (itens : list ItemFila)
    (i : ItemFila) :
  In i (itensFiltrados filtro itens) -> In i itens.
Proof.
  destruct filtro as [f |]; cbn; [| exact (fun H => H)].
  intros H. apply filter_In in H. exact (proj1 H).
Qed.

End SelecaoFacts.

(** X28. 'Select all' of the queue view offers only items of the list that
    are selectable, and an issued invoice that has its number is never
    among them: under the filter 'emitido' it offers nothing.  Every record
    the reconciler looks at is one the view lets the user submit. *)
Theorem fila_selecao :
  forall (filtro : option Status) (itens : list FilaRPS.ItemFila) (t : Table),
    (forall i, In i (FilaRPS.handleSelectAll filtro itens) ->
               exists item,
                 In item itens /\ FilaRPS.if_id item = i
                 /\ FilaRPS.podeSelecionar item = true
                 /\ FilaRPS.emitido_com_numero item = false)
    /\ FilaRPS.handleSelectAll (Some emitido) itens = []
    /\ (forall r, In r (BlingService.rpsParaVerificar t) ->
                  FilaRPS.podeSelecionar (FilaRPS.item_da_fila r) = true).
Proof.
  intros filtro itens t. split; [| split].
  - intros i H. unfold FilaRPS.handleSelectAll in H.
    apply in_map_iff in H. destruct H as [item [Hid Hin]].
    apply filter_In in Hin. destruct Hin as [Hin Hn].
    apply negb_true_iff in Hn.
    exists item. split; [exact (in_itensFiltrados filtro itens item Hin) |].
    split; [exact Hid |]. split; [| exact Hn].
    unfold FilaRPS.podeSelecionar. rewrite Hn. reflexivity.
  - unfold FilaRPS.handleSelectAll, FilaRPS.itensFiltrados.
    induction itens as [| a l IH]; [reflexivity |].
    cbn [filter]. destruct (FilaRPS.emitido_com_numero a) eqn:E; cbn [filter].
    + rewrite E. cbn. exact IH.
    + exact IH.
  - intros r Hin. apply in_rpsParaVerificar in Hin.
    destruct Hin as [_ Hst].
    unfold FilaRPS.podeSelecionar, FilaRPS.emitido_com_numero,
      FilaRPS.item_da_fila, BlingService.emitido_sem_numero in *.
    cbn [FilaRPS.if_status FilaRPS.if_numeroNFSe].
    destruct Hst as [-> | [-> | H]]; try reflexivity.
    apply andb_true_iff in H. destruct H as [Hs Hn].
    apply negb_true_iff in Hn. rewrite Hs. cbn [andb].
    unfold or_str. rewrite Hn. reflexivity.
Qed.

(* ------------------------------------------------------------------ *)
(** ** Authenticated requests *)

Section RequisicaoFacts.

Import TokenManager Requisicao.

(** The token [ensureValidToken] returns is the one the service holds when
    the call is over. *)
Lemma ensureValidToken_current (now : Z) (reply : TokenReply) (s : Service)
    (a : string) (s' : Service) (calls : list Call) :
  ensureValidToken now reply s = (Ok a, s', calls) ->
  exists t, tokens s' = Some t /\ access_token t = a.
Proof.
  unfold ensureValidToken.
  destruct (tokens s) as [t |] eqn:Et; [| discriminate].
  destruct (now >=? or_zero (expires_at t) - 5 * 60 * 1000).
  - destruct (refreshAccessToken reply s) as [[nt | e] s1] eqn:Er;
      [| discriminate].
    destruct (tokens s1) as [t1 |] eqn:E1; [| discriminate].
    intros H. injection H as <- <- _. exists t1. split; [exact E1 | reflexivity].
  - intros H. injection H as <- <- _. exists t. split; [exact Et | reflexivity].
Qed.

End RequisicaoFacts.

(** X29. [makeAuthenticatedRequest] sends at most one request, and only
    after [ensureValidToken] returned: when that fails, the failure is
    passed on and nothing is sent.  The request carries the token the
    service holds when the call is over, so after a refresh the new token
    and not the one that expired.  The call returns exactly when the answer
    is OK: a body that is not JSON is returned raw, not raised. *)
Theorem makeAuthenticatedRequest_bearer :
  forall (now : Z) (reply : TokenManager.TokenReply)
         (http : Requisicao.HttpReply) (endpoint : string)
         (s : TokenManager.Service),
    let out := Requisicao.makeAuthenticatedRequest now reply http endpoint s in
    let tok := TokenManager.ensureValidToken now reply s in
    snd (fst out) = snd (fst tok)
    /\ match fst (fst tok) with
       | Throw e => fst (fst out) = Throw e /\ snd out = []
       | Ok a =>
           snd out = [Requisicao.FetchWith endpoint a]
           /\ (exists t, TokenManager.tokens (snd (fst out)) = Some t
                         /\ TokenManager.access_token t = a)
           /\ (is_ok (fst (fst out)) = true
               <-> exists st txt p, http = Requisicao.HttpAnswer true st txt p)
           /\ (forall st txt,
                 http = Requisicao.HttpAnswer true st txt Requisicao.NotJson ->
                 fst (fst out) = Ok (Requisicao.Raw txt))
       end.
Proof.
  intros now reply http endpoint s. cbn zeta.
  unfold Requisicao.makeAuthenticatedRequest.
  destruct (TokenManager.ensureValidToken now reply s) as [[[a | e] s'] calls]
    eqn:E; cbn [fst snd]; [| repeat split].
  destruct (ensureValidToken_current now reply s a s' calls E) as [t [Ht Ha]].
  destruct http as [m | ok st txt p]; cbn [fst snd].
  - split; [reflexivity |]. split; [reflexivity |].
    split; [exists t; split; assumption |].
    split; [split; [discriminate | intros [? [? [? H]]]; discriminate] |].
    intros ? ? H; discriminate.
  - destruct ok; cbn [negb].
    + destruct p; cbn [fst snd];
        (split; [reflexivity |]; split; [reflexivity |];
         split; [exists t; split; assumption |];
         split; [split; [intros _; do 3 eexists; reflexivity | reflexivity] |];
         intros ? ? H; first [discriminate | injection H as _ <-; reflexivity]).
    + cbn [fst snd]. split; [reflexivity |]. split; [reflexivity |].
      split; [exists t; split; assumption |].
      split; [split; [discriminate | intros [? [? [? H]]]; discriminate] |].
      intros ? ? H; discriminate.
Qed.

(** X30. [testConnection] reports success exactly when the service holds
    tokens, [ensureValidToken] returns, and the ERP answers OK with a body
    other than the JSON null; it then has sent one request, to the contacts
    endpoint.  Without tokens it sends nothing and changes nothing. *)
Theorem testConnection_success_iff :
  forall (now : Z) (reply : TokenManager.TokenReply)
         (http : Requisicao.HttpReply) (s : TokenManager.Service),
    let out := Requisicao.testConnection now reply http s in
    (Requisicao.t_success (fst (fst out)) = true
     <-> is_ok (fst (fst (TokenManager.ensureValidToken now reply s))) = true
         /\ exists st txt p,
              http = Requisicao.HttpAnswer true st txt p
              /\ p <> Requisicao.JsonNull)
    /\ (Requisicao.t_success (fst (fst out)) = true ->
        exists a, snd out = [Requisicao.FetchWith "/contatos?limite=1" a])
    /\ (TokenManager.tokens s = None -> snd out = [] /\ snd (fst out) = s).
Proof.
  intros now reply http s. cbn zeta.
  unfold Requisicao.testConnection.
  destruct (TokenManager.tokens s) as [t |] eqn:Et; cbn [fst snd].
  - unfold Requisicao.makeAuthenticatedRequest.
    destruct (TokenManager.ensureValidToken now reply s) as [[[a | e] s'] calls];
      cbn [fst snd is_ok].
    + destruct http as [m | ok st txt p]; cbn [fst snd Requisicao.t_success].
      * split; [split; [discriminate | intros [_ [? [? [? [H _]]]]]; discriminate] |].
        split; [discriminate | discriminate].
      * destruct ok; cbn [negb fst snd Requisicao.t_success].
        -- destruct p as [ | | dl]; [ | | destruct dl as [n | ] ];
             cbn [Requisicao.contagem fst snd Requisicao.t_success].
           ++ split; [split; [intros _; split; [reflexivity |];
                              do 3 eexists; split; [reflexivity | discriminate]
                             | reflexivity] |].
              split; [intros _; eexists; reflexivity | discriminate].
           ++ split; [split; [discriminate
                             | intros [_ [? [? [? [H Hn]]]]];
                               injection H as _ _ <-; contradiction Hn; reflexivity] |].
              split; [discriminate | discriminate].
           ++ split; [split; [intros _; split; [reflexivity |];
                              do 3 eexists; split; [reflexivity | discriminate]
                             | reflexivity] |].
              split; [intros _; eexists; reflexivity | discriminate].
           ++ split; [split; [intros _; split; [reflexivity |];
                              do 3 eexists; split; [reflexivity | discriminate]
                             | reflexivity] |].
              split; [intros _; eexists; reflexivity | discriminate].
        -- split; [split; [discriminate | intros [_ [? [? [? [H _]]]]]; discriminate] |].
           split; [discriminate | discriminate].
    + cbn [Requisicao.t_success].
      split; [split; [discriminate | intros [H _]; discriminate] |].
      split; [discriminate | discriminate].
  - cbn [Requisicao.t_success].
    split; [| split; [discriminate | intros _; split; reflexivity]].
    split; [discriminate |]. intros [H _].
    unfold TokenManager.ensureValidToken in H. rewrite Et in H. discriminate.
Qed.
